(** * Chronoscope: the epoch table, the parameter interpolator, the visual
      pipeline and the soundscape generator

    A shallow embedding of [chronoscope/epochs.py],
    [chronoscope/processors/visual.py], [chronoscope/processors/sound.py]
    and the handlers of [chronoscope/app.py].

    Python values are modelled as the interpreter has them: an [int] is an
    unbounded [Z], a [float] is an IEEE 754 binary64 number (the standard
    library's [spec_float] with 53 bits of precision), a number that may be
    either is a [pynum], and an operation that can raise returns a [res].
    The [EPOCHS] dict is a [gmap Z Epoch]. *)

From Stdlib Require Import ZArith String List Bool Lia SpecFloat DecimalString.
From Stdlib Require DecimalZ DecimalPos.
From stdpp Require Import gmap strings list.

Open Scope Z_scope.

(** ** The Python runtime: floats, numbers, exceptions *)

Module Py.

(** Binary64 arithmetic, round to nearest even. *)
Definition prec : Z := 53.
Definition emax : Z := 1024.

Definition float : Type := spec_float.

Definition fadd : float -> float -> float := SFadd prec emax.
Definition fsub : float -> float -> float := SFsub prec emax.
Definition fmul : float -> float -> float := SFmul prec emax.
Definition fdiv : float -> float -> float := SFdiv prec emax.
Definition fsqrt : float -> float := SFsqrt prec emax.
Definition fltb : float -> float -> bool := SFltb.
Definition fleb : float -> float -> bool := SFleb.

(** The binary64 number nearest to the integer [z]; an infinity when [z]
    is out of range. *)
Definition Z2float (z : Z) : float := binary_normalize prec emax z 0 false.

(** The float literal [m / 10^k], e.g. [dec 15 2] for [0.15]: the quotient
    of two exactly representable integers is rounded once, as the reader of
    the literal does. *)
Definition dec (m : Z) (k : nat) : float :=
  fdiv (Z2float m) (Z2float (10 ^ Z.of_nat k)).

Inductive exn : Type :=
  | OverflowError
  | ValueError
  | KeyError.

(** The outcome of an expression that may raise. *)
Inductive res (A : Type) : Type :=
  | Ok (a : A)
  | Raise (e : exn).
Arguments Ok {A} a.
Arguments Raise {A} e.

Definition bind {A B : Type} (r : res A) (k : A -> res B) : res B :=
  match r with
  | Ok a => k a
  | Raise e => Raise e
  end.

Notation "'let*' x := e 'in' k" := (bind e (fun x => k))
  (at level 10, x name, e at level 100, k at level 200).

(** [float(z)] for an int: the conversion rounds to nearest even and raises
    [OverflowError] when the result does not fit a float. *)
Definition float_of_int (z : Z) : res float :=
  match Z2float z with
  | S754_infinity _ => Raise OverflowError
  | f => Ok f
  end.

(** A Python number: an [int] or a [float]. *)
Inductive pynum : Type :=
  | PyInt (z : Z)
  | PyFloat (f : float).

(** The signed mantissa of a finite float [(-1)^s * m * 2^e]. *)
Definition signed (s : bool) (m : positive) : Z :=
  if s then Z.neg m else Z.pos m.

(** Comparison of a float with an int is exact in Python: no rounding of
    the int takes place. [None] when the float is a NaN. *)
Definition cmp_float_int (f : float) (z : Z) : option comparison :=
  match f with
  | S754_nan => None
  | S754_infinity s => Some (if s then Lt else Gt)
  | S754_zero _ => Some (0 ?= z)
  | S754_finite s m e =>
      if 0 <=? e then Some (signed s m * 2 ^ e ?= z)
      else Some (signed s m ?= z * 2 ^ (- e))
  end.

Definition py_compare (x y : pynum) : option comparison :=
  match x, y with
  | PyInt a, PyInt b => Some (a ?= b)
  | PyFloat f, PyInt b => cmp_float_int f b
  | PyInt a, PyFloat g => option_map CompOpp (cmp_float_int g a)
  | PyFloat f, PyFloat g => SFcompare f g
  end.

(** [x < y], [x > y], [x <= y], [x >= y], [x == y], [x != y]. *)
Definition py_lt (x y : pynum) : bool :=
  match py_compare x y with Some Lt => true | _ => false end.
Definition py_gt (x y : pynum) : bool :=
  match py_compare x y with Some Gt => true | _ => false end.
Definition py_le (x y : pynum) : bool :=
  match py_compare x y with Some (Lt | Eq) => true | _ => false end.
Definition py_ge (x y : pynum) : bool :=
  match py_compare x y with Some (Gt | Eq) => true | _ => false end.
Definition py_eq (x y : pynum) : bool :=
  match py_compare x y with Some Eq => true | _ => false end.
Definition py_ne (x y : pynum) : bool := negb (py_eq x y).

(** The builtins [min(a, b)] and [max(a, b)]: the first argument is kept
    unless the second is strictly smaller (greater). *)
Definition py_min (a b : pynum) : pynum := if py_lt b a then b else a.
Definition py_max (a b : pynum) : pynum := if py_gt b a then b else a.

(** Arithmetic on numbers: an int operand meeting a float is converted
    with [float_of_int] first. *)
Definition py_arith (iop : Z -> Z -> Z) (fop : float -> float -> float)
    (x y : pynum) : res pynum :=
  match x, y with
  | PyInt a, PyInt b => Ok (PyInt (iop a b))
  | PyFloat f, PyInt b => let* g := float_of_int b in Ok (PyFloat (fop f g))
  | PyInt a, PyFloat g => let* f := float_of_int a in Ok (PyFloat (fop f g))
  | PyFloat f, PyFloat g => Ok (PyFloat (fop f g))
  end.

Definition py_sub : pynum -> pynum -> res pynum := py_arith Z.sub fsub.

(** A float operand with any number: the result is a float. *)
Definition float_op (fop : float -> float -> float) (f : float) (y : pynum)
    : res float :=
  match y with
  | PyInt b => let* g := float_of_int b in Ok (fop f g)
  | PyFloat g => Ok (fop f g)
  end.

(** [int(x)]: truncation toward zero; raises on infinities and NaN. *)
Definition float_trunc (f : float) : res Z :=
  match f with
  | S754_nan => Raise ValueError
  | S754_infinity _ => Raise OverflowError
  | S754_zero _ => Ok 0
  | S754_finite s m e =>
      let q := if 0 <=? e then Z.pos m * 2 ^ e else Z.pos m / 2 ^ (- e) in
      Ok (if s then - q else q)
  end.

Definition py_int (x : pynum) : res Z :=
  match x with
  | PyInt z => Ok z
  | PyFloat f => float_trunc f
  end.

(** [x % 1 != 0] for a float [x]. The remainder is a NaN when [x] is a NaN
    or an infinity, and a NaN is different from [0]; on a finite [x] the
    remainder is computed exactly and is nonzero when [m * 2^e] has a
    fractional part. *)
Definition float_mod1_ne0 (x : float) : bool :=
  match x with
  | S754_nan | S754_infinity _ => true
  | S754_zero _ => false
  | S754_finite _ m e =>
      if 0 <=? e then false else negb (Z.pos m mod 2 ^ (- e) =? 0)
  end.

(** The integer a float is equal to, if any. *)
Definition float_integral (f : float) : option Z :=
  match f with
  | S754_nan | S754_infinity _ => None
  | S754_zero _ => Some 0
  | S754_finite s m e =>
      if 0 <=? e then Some (signed s m * 2 ^ e)
      else if Z.pos m mod 2 ^ (- e) =? 0 then Some (signed s m / 2 ^ (- e))
      else None
  end.

(** A number used as the key of a dict with int keys: [d.get(3.0)] finds
    the entry of [3], since the two are equal and hash alike. *)
Definition int_key (x : pynum) : option Z :=
  match x with
  | PyInt z => Some z
  | PyFloat f => float_integral f
  end.

(** The sign bit of a float, as [signbit] reads it: set on the negative
    numbers, on [-0.0] and on minus infinity. *)
Definition sign_bit (f : float) : bool :=
  match f with
  | S754_zero s | S754_infinity s | S754_finite s _ _ => s
  | S754_nan => false
  end.

(** [str(z)], as an f-string formats an int. *)
Definition str (z : Z) : string := NilZero.string_of_int (Z.to_int z).

End Py.

(** ** Strings: repetition, joining, splitting, formatting of floats *)

Module PyStr.
Import Py.

(** The newline character. *)
Definition nl : string := String (Ascii.ascii_of_nat 10) EmptyString.

(** [s * n]: the empty string when [n] is not positive. *)
Definition repeat_string (s : string) (n : Z) : string :=
  Nat.iter (Z.to_nat n) (String.append s) EmptyString.

(** [sep.join(l)] *)
Fixpoint join (sep : string) (l : list string) : string :=
  match l with
  | [] => EmptyString
  | [x] => x
  | x :: l' => (x ++ sep ++ join sep l')%string
  end.

(** The full stop, character 46. *)
Definition full_stop : Ascii.ascii := Ascii.ascii_of_nat 46.

(** [s.split(".")[0]]: the part of [s] before its first full stop, all of
    [s] when it has none. *)
Fixpoint split_dot_head (s : string) : string :=
  match s with
  | EmptyString => EmptyString
  | String c s' =>
      if Ascii.eqb c full_stop then EmptyString
      else String c (split_dot_head s')
  end.

(** [m * 2^e * 10^p] rounded to the nearest integer, ties to even. *)
Definition round_scaled (m : positive) (e : Z) (p : nat) : Z :=
  let n := Z.pos m * 10 ^ Z.of_nat p in
  if 0 <=? e then n * 2 ^ e
  else
    let d := 2 ^ (- e) in
    let q := n / d in
    match 2 * (n mod d) ?= d with
    | Lt => q
    | Gt => q + 1
    | Eq => if Z.even q then q else q + 1
    end.

(** The digits of [n >= 0] with a point before the last [p] of them, and
    at least one digit before the point. *)
Definition fixed_digits (n : Z) (p : nat) : string :=
  let digits := str n in
  let digits :=
    (repeat_string "0" (Z.of_nat p + 1 - Z.of_nat (String.length digits))
       ++ digits)%string in
  let k := (String.length digits - p)%nat in
  match p with
  | O => digits
  | S _ => (substring 0 k digits ++ "." ++ substring k p digits)%string
  end.

(** [format(x, ".pf")]: the decimal expansion of the exact value of [x],
    rounded to [p] places, ties to even; the sign is the sign of [x]. *)
Definition format_f (p : nat) (x : float) : string :=
  match x with
  | S754_nan => "nan"
  | S754_infinity s => if s then "-inf" else "inf"
  | S754_zero s => ((if s then "-" else "") ++ fixed_digits 0 p)%string
  | S754_finite s m e =>
      ((if s then "-" else "") ++ fixed_digits (round_scaled m e p) p)%string
  end.

(** [format(x, ".p%")]: [x * 100] in fixed notation, and a percent sign. *)
Definition format_pct (p : nat) (x : float) : string :=
  (format_f p (fmul x (Z2float 100)) ++ "%")%string.

End PyStr.

(** ** [epochs.py]: the epoch table and the interpolator *)

Module Epochs.
Import Py.
Import PyStr.

(** Visual transformation parameters for an epoch. *)
Record VisualParams : Type := mkVisualParams {
  sepia : float;
  blur : float;
  noise : float;
  vignette : float;
  saturation : float;
  contrast : float;
  fade : float
}.

(** A temporal layer with its characteristics. *)
Record Epoch : Type := mkEpoch {
  level : Z;
  name : string;
  name_en : string;
  period : string;
  description : string;
  description_en : string;
  visual : VisualParams;
  soundscape : list string;
  soundscape_en : list string;
  audio_prompt : string
}.

Definition epoch0 : Epoch := {|
  level := 0;
  name := "Présent";
  name_en := "Present";
  period := "2020-2025";
  description := "Net, couleurs vives, le monde tel qu'il est";
  description_en := "Clear, vivid colors, the world as it is";
  visual := {| sepia := dec 0 1; blur := dec 0 1; noise := dec 0 1;
               vignette := dec 0 1; saturation := dec 10 1;
               contrast := dec 10 1; fade := dec 0 1 |};
  soundscape := [ "Trafic urbain moderne"; "Notifications de smartphones";
                  "Trottinettes électriques";
                  "Conversations en plusieurs langues" ];
  soundscape_en := [ "Modern urban traffic"; "Smartphone notifications";
                     "Electric scooters"; "Multilingual conversations" ];
  audio_prompt := "Modern city ambiance with car traffic, smartphone notification sounds, electric scooter whirring, and multilingual street conversations"
|}.

Definition epoch1 : Epoch := {|
  level := 1;
  name := "Mémoire récente";
  name_en := "Recent Memory";
  period := "1990-2010";
  description := "Légèrement voilé, teinte de nostalgie";
  description_en := "Slightly veiled, tinted with nostalgia";
  visual := {| sepia := dec 15 2; blur := dec 5 1; noise := dec 5 2;
               vignette := dec 1 1; saturation := dec 9 1;
               contrast := dec 95 2; fade := dec 5 2 |};
  soundscape := [ "Moteurs de voitures plus anciens";
                  "Walkman et baladeurs CD"; "Cabines téléphoniques";
                  "Sonneries de téléphones fixes" ];
  soundscape_en := [ "Older car engines"; "Walkman and CD players";
                     "Phone booths"; "Landline phone ringtones" ];
  audio_prompt := "1990s-2000s urban ambiance with older car engines, faint music from portable CD players, phone booth sounds, and rotary phone ringing in distance"
|}.

Definition epoch2 : Epoch := {|
  level := 2;
  name := "Génération précédente";
  name_en := "Previous Generation";
  period := "1960-1985";
  description := "Teintes dorées, grain de film argentique";
  description_en := "Golden tints, silver film grain";
  visual := {| sepia := dec 3 1; blur := dec 10 1; noise := dec 12 2;
               vignette := dec 2 1; saturation := dec 75 2;
               contrast := dec 9 1; fade := dec 1 1 |};
  soundscape := [ "Moteurs de 2CV et DS"; "Postes de radio à transistors";
                  "Accordéon dans les cafés"; "Cloches d'églises";
                  "Marchands ambulants" ];
  soundscape_en := [ "Citroën 2CV and DS engines"; "Transistor radios";
                     "Accordion in cafés"; "Church bells"; "Street vendors" ];
  audio_prompt := "1960s-70s French atmosphere with vintage Citroën engines, transistor radio playing chanson française, distant accordion music, church bells, and street vendor calls"
|}.

Definition epoch3 : Epoch := {|
  level := 3;
  name := "L'entre-deux-guerres";
  name_en := "Interwar Period";
  period := "1920-1955";
  description := "Noir et blanc fantomatique, présences floues";
  description_en := "Ghostly black and white, blurred presences";
  visual := {| sepia := dec 5 1; blur := dec 15 1; noise := dec 2 1;
               vignette := dec 35 2; saturation := dec 5 1;
               contrast := dec 85 2; fade := dec 2 1 |};
  soundscape := [ "Sabots de chevaux sur pavés"; "Tramways électriques";
                  "Réverbères à gaz qui grésillent"; "Crieur de journaux";
                  "Jazz lointain" ];
  soundscape_en := [ "Horse hooves on cobblestones"; "Electric tramways";
                     "Gas street lamps hissing"; "Newspaper criers";
                     "Distant jazz music" ];
  audio_prompt := "1920s-40s urban soundscape with horse hooves on cobblestones, electric tramway bells, gas lamp hissing, newspaper boy shouting headlines, and distant jazz from a café"
|}.

Definition epoch4 : Epoch := {|
  level := 4;
  name := "La Belle Époque";
  name_en := "Belle Époque";
  period := "1880-1914";
  description := "Sépia prononcé, silhouettes en crinolines";
  description_en := "Pronounced sepia, silhouettes in crinolines";
  visual := {| sepia := dec 7 1; blur := dec 20 1; noise := dec 25 2;
               vignette := dec 45 2; saturation := dec 3 1;
               contrast := dec 8 1; fade := dec 3 1 |};
  soundscape := [ "Calèches et fiacres"; "Crieurs des rues"; "Café-concerts";
                  "Orgues de Barbarie"; "Fontaines publiques" ];
  soundscape_en := [ "Horse-drawn carriages"; "Street criers";
                     "Café-concerts"; "Barrel organs"; "Public fountains" ];
  audio_prompt := "1880s-1900s Belle Époque ambiance with horse carriages, street vendors singing their wares, distant café-concert music, barrel organ melody, and fountain splashing"
|}.

Definition epoch5 : Epoch := {|
  level := 5;
  name := "Le XIXe siècle";
  name_en := "19th Century";
  period := "1820-1870";
  description := "Image de daguerréotype, dissolution des formes";
  description_en := "Daguerreotype image, dissolving forms";
  visual := {| sepia := dec 85 2; blur := dec 30 1; noise := dec 35 2;
               vignette := dec 6 1; saturation := dec 15 2;
               contrast := dec 7 1; fade := dec 45 2 |};
  soundscape := [ "Travaux haussmanniens";
                  "Forgerons et maréchaux-ferrants"; "Cloches multiples";
                  "Chants de travailleurs"; "Vent dans les ruelles" ];
  soundscape_en := [ "Haussmann construction work";
                     "Blacksmiths and farriers"; "Multiple church bells";
                     "Workers' songs"; "Wind in alleyways" ];
  audio_prompt := "Mid-1800s soundscape with distant construction hammering, blacksmith anvil strikes, overlapping church bells, workers singing, and wind whistling through narrow streets"
|}.

Definition epoch6 : Epoch := {|
  level := 6;
  name := "Les temps anciens";
  name_en := "Ancient Times";
  period := "Avant 1820";
  description := "Presque invisible, aux limites de la perception";
  description_en := "Almost invisible, at the limits of perception";
  visual := {| sepia := dec 95 2; blur := dec 50 1; noise := dec 5 1;
               vignette := dec 75 2; saturation := dec 5 2;
               contrast := dec 5 1; fade := dec 7 1 |};
  soundscape := [ "Cloches médiévales lointaines"; "Marchés anciens";
                  "Vent dans les pierres"; "Murmures indistincts";
                  "Silence profond" ];
  soundscape_en := [ "Distant medieval bells"; "Ancient markets";
                     "Wind through stones"; "Indistinct murmurs";
                     "Deep silence" ];
  audio_prompt := "Pre-1820 ancient atmosphere with very distant medieval church bells, faint market murmurs, wind through old stone buildings, indistinct whispered voices, and profound silence between sounds"
|}.

(** The dict literal [EPOCHS], keys [0] to [6]. *)
Definition EPOCHS : gmap Z Epoch :=
  <[0 := epoch0]> (<[1 := epoch1]> (<[2 := epoch2]> (<[3 := epoch3]>
  (<[4 := epoch4]> (<[5 := epoch5]> (<[6 := epoch6]> ∅)))))).

(** [EPOCHS.get(key)]: [None] when no key equals [key]. *)
Definition EPOCHS_get (key : pynum) : option Epoch :=
  match int_key key with
  | Some k => EPOCHS !! k
  | None => None
  end.

(** [EPOCHS[k]]: raises [KeyError] on a missing key. *)
Definition EPOCHS_getitem (k : Z) : res Epoch :=
  match EPOCHS !! k with
  | Some e => Ok e
  | None => Raise KeyError
  end.

(** Get an epoch by its level (0-6). *)
Definition get_epoch_by_level (level : pynum) : option Epoch :=
  EPOCHS_get level.

(** Get visual parameters for a specific epoch level. *)
Definition get_epoch_params (level : pynum) : option VisualParams :=
  match EPOCHS_get level with
  | Some epoch => Some (visual epoch)
  | None => None
  end.

(** [a + (b - a) * t]; [t] is an int or a float. *)
Definition lerp (a b : float) (t : pynum) : res float :=
  let* d := float_op fmul (fsub b a) t in
  Ok (fadd a d).

(** Interpolate between two epochs for smooth transitions. *)
Definition interpolate_epochs (level : pynum) : res VisualParams :=
  let level := py_max (PyInt 0) (py_min (PyInt 6) level) in
  let* lower := py_int level in
  let upper := Z.min (lower + 1) 6 in
  let* t := py_sub level (PyInt lower) in
  let* e1 := EPOCHS_getitem lower in
  let* e2 := EPOCHS_getitem upper in
  let p1 := visual e1 in
  let p2 := visual e2 in
  let* r_sepia := lerp (sepia p1) (sepia p2) t in
  let* r_blur := lerp (blur p1) (blur p2) t in
  let* r_noise := lerp (noise p1) (noise p2) t in
  let* r_vignette := lerp (vignette p1) (vignette p2) t in
  let* r_saturation := lerp (saturation p1) (saturation p2) t in
  let* r_contrast := lerp (contrast p1) (contrast p2) t in
  let* r_fade := lerp (fade p1) (fade p2) t in
  Ok {| sepia := r_sepia; blur := r_blur; noise := r_noise;
        vignette := r_vignette; saturation := r_saturation;
        contrast := r_contrast; fade := r_fade |}.

(** [EPOCHS.values()]: the epochs in the order of the dict literal. *)
Definition EPOCHS_values : list Epoch :=
  [ epoch0; epoch1; epoch2; epoch3; epoch4; epoch5; epoch6 ].

(** Return a list of epoch names for UI display. *)
Definition list_epochs : list string :=
  map (fun e => (str (level e) ++ ". " ++ name e
                   ++ " (" ++ period e ++ ")")%string)
      EPOCHS_values.

(** Return a list of epoch names in English for UI display. *)
Definition list_epochs_en : list string :=
  map (fun e => (str (level e) ++ ". " ++ name_en e
                   ++ " (" ++ period e ++ ")")%string)
      EPOCHS_values.

End Epochs.

(** ** [processors/sound.py]: the soundscape generator *)

Module Sound.
Import Py.
Import PyStr.

(** A temporal soundscape. *)
Record Soundscape : Type := mkSoundscape {
  epoch_level : Z;
  epoch_name : string;
  period : string;
  elements : list string;
  audio_prompt : string;
  intensity : float;
  clarity : float
}.

(** [z * c] for an int [z] and a float [c]. *)
Definition int_mul_float (z : Z) (c : float) : res float :=
  let* f := float_of_int z in
  Ok (fmul f c).

(** [max(a, b)] on floats. *)
Definition float_max (a b : float) : float := if fltb a b then b else a.

(** Enhance the audio generation prompt with temporal effects. *)
Definition _enhance_prompt (base_prompt : string) (level : Z) : string :=
  let quality :=
    if level =? 0 then "crystal clear, high fidelity, present-day"
    else if level <=? 2 then "slightly muffled, warm analog quality, nostalgic"
    else if level <=? 4 then "distant, echoing, as if through old walls, ghostly"
    else "barely audible whispers, dreamlike, fragmentary, ancient" in
  let reverb := Z.min (level * 15) 80 in
  let lowpass := Z.max (20000 - level * 3000) 2000 in
  (base_prompt ++ ". "
   ++ "Audio quality: " ++ quality ++ ". "
   ++ "Processing: reverb " ++ str reverb ++ "%, low-pass filter at "
   ++ str lowpass ++ "Hz, "
   ++ "slight tape hiss and analog warmth.")%string.

(** Generate a soundscape for a specific temporal level; [language] is the
    generator's attribute, ["fr"] or ["en"]. *)
Definition generate (language : string) (temporal_level : Z)
    : res Soundscape :=
  let* epoch :=
    match Epochs.EPOCHS_get (PyInt temporal_level) with
    | Some epoch => Ok epoch
    | None => Epochs.EPOCHS_getitem 0
    end in
  let* m_i := int_mul_float temporal_level (dec 12 2) in
  let intensity := fsub (dec 10 1) m_i in
  let* m_c := int_mul_float temporal_level (dec 15 2) in
  let clarity := fsub (dec 10 1) m_c in
  let elements :=
    if String.eqb language "fr" then Epochs.soundscape epoch
    else Epochs.soundscape_en epoch in
  Ok {| epoch_level := Epochs.level epoch;
        epoch_name := if String.eqb language "fr" then Epochs.name epoch
                      else Epochs.name_en epoch;
        period := Epochs.period epoch;
        elements := elements;
        audio_prompt :=
          _enhance_prompt (Epochs.audio_prompt epoch) temporal_level;
        intensity := float_max (dec 1 1) intensity;
        clarity := float_max (dec 1 1) clarity |}.

(** A value stored in the exported dictionary. *)
Inductive value : Type :=
  | VInt (z : Z)
  | VFloat (f : float)
  | VStr (s : string)
  | VList (l : list string).

(** Export soundscape as dictionary (for JSON serialization): the dict
    literal, as the list of its items in insertion order. *)
Definition to_dict (language : string) (temporal_level : Z)
    : res (list (string * value)) :=
  let* soundscape := generate language temporal_level in
  Ok [ ("epoch_level", VInt (epoch_level soundscape));
       ("epoch_name", VStr (epoch_name soundscape));
       ("period", VStr (period soundscape));
       ("elements", VList (elements soundscape));
       ("audio_prompt", VStr (audio_prompt soundscape));
       ("intensity", VFloat (intensity soundscape));
       ("clarity", VFloat (clarity soundscape)) ].

(** The keys of a dict. *)
Definition keys (d : list (string * value)) : list string := map fst d.

(** Get a human-readable description of the soundscape. *)
Definition get_description (language : string) (temporal_level : Z)
    : res string :=
  let* soundscape := generate language temporal_level in
  let '(header, elements_header, intensity_label, clarity_label) :=
    if String.eqb language "fr" then
      (("🔊 Paysage sonore — " ++ epoch_name soundscape
          ++ " (" ++ period soundscape ++ ")")%string,
       "Éléments sonores:"%string, "Intensité"%string, "Clarté"%string)
    else
      (("🔊 Soundscape — " ++ epoch_name soundscape
          ++ " (" ++ period soundscape ++ ")")%string,
       "Sound elements:"%string, "Intensity"%string, "Clarity"%string) in
  let elements_list :=
    join nl (map (fun e => ("  • " ++ e)%string) (elements soundscape)) in
  let* filled_i := float_trunc (fmul (intensity soundscape) (Z2float 10)) in
  let* filled_c := float_trunc (fmul (clarity soundscape) (Z2float 10)) in
  Ok (nl ++ header ++ nl
      ++ nl
      ++ elements_header ++ nl
      ++ elements_list ++ nl
      ++ nl
      ++ intensity_label ++ ": " ++ repeat_string "█" filled_i
      ++ repeat_string "░" (10 - filled_i) ++ " "
      ++ format_pct 0 (intensity soundscape) ++ nl
      ++ clarity_label ++ ": " ++ repeat_string "█" filled_c
      ++ repeat_string "░" (10 - filled_c) ++ " "
      ++ format_pct 0 (clarity soundscape) ++ nl)%string.

(** A list comprehension over a function that may raise: the elements in
    order, up to the first that raises. *)
Fixpoint res_map {A B : Type} (f : A -> res B) (l : list A) : res (list B) :=
  match l with
  | [] => Ok []
  | a :: l' =>
      let* b := f a in
      let* bs := res_map f l' in
      Ok (b :: bs)
  end.

(** [range(n)] *)
Definition range (n : nat) : list Z := map Z.of_nat (seq 0 n).

(** Get soundscapes for all epochs. *)
Definition get_all_soundscapes (language : string) : res (list Soundscape) :=
  res_map (generate language) (range 7).

(** Generate a prompt suitable for ElevenLabs sound effects API. *)
Definition get_elevenlabs_prompt (temporal_level : Z) : res string :=
  let* soundscape := generate "en" temporal_level in
  Ok (audio_prompt soundscape).

(** A value of the parameter dictionary of the audio API. *)
Inductive api_value : Type :=
  | AStr (s : string)
  | AFloat (f : float)
  | AInt (z : Z)
  | ANone.

(** Generate parameters suitable for Stable Audio API. *)
Definition get_stable_audio_prompt (temporal_level : Z)
    : res (list (string * api_value)) :=
  let* soundscape := generate "en" temporal_level in
  Ok [ ("prompt", AStr (audio_prompt soundscape));
       ("duration", AFloat (dec 300 1));
       ("cfg_scale", AFloat (dec 70 1));
       ("seed", ANone);
       ("steps", AInt 100) ]%string.

End Sound.

(** ** [processors/visual.py]: the visual pipeline *)

Module Visual.
Import Py.
Import Epochs.

(** *** Images and arrays *)

(** The three bands of an RGB pixel. *)
Definition pixel (A : Type) : Type := (A * A * A)%type.

Definition pmap {A B : Type} (f : A -> B) (p : pixel A) : pixel B :=
  let '(r, g, b) := p in (f r, f g, f b).

Definition pmap2 {A B C : Type} (f : A -> B -> C) (p : pixel A) (q : pixel B)
    : pixel C :=
  let '(r, g, b) := p in
  let '(r', g', b') := q in
  (f r r', f g g', f b b').

(** A two-dimensional array, a list of rows; an array of shape [(H, W, 3)]
    is an [array (pixel A)]. *)
Abbreviation array A := (list (list A)) (only parsing).

Definition amap {A B : Type} (f : A -> B) (a : array A) : array B :=
  map (map f) a.

(** An elementwise operation on two arrays of the same shape. *)
Definition amap2 {A B C : Type} (f : A -> B -> C) (a : array A) (b : array B)
    : array C :=
  zip_with (zip_with f) a b.

(** [a.shape]: [(height, width)], the width being the length of the first
    row; an array with no row has width 0. *)
Definition shape {A : Type} (a : array A) : nat * nat :=
  (length a, length (hd [] a)).

(** [a[y][x]]. *)
Definition aget {A : Type} (a : array A) (y x : nat) : option A :=
  match a !! y with
  | Some row => row !! x
  | None => None
  end.

(** The pixel data of an RGB image, bands in [0, 255]. *)
Abbreviation RGBImage := (list (list (pixel Z))) (only parsing).

(** An image, by mode: grayscale, RGB, or RGB with alpha. *)
Inductive Image : Type :=
  | ImageL (im : array Z)
  | ImageRGB (im : RGBImage)
  | ImageRGBA (im : array (Z * Z * Z * Z)).

Inductive Mode : Type := L | RGB | RGBA.

Definition mode (image : Image) : Mode :=
  match image with
  | ImageL _ => L
  | ImageRGB _ => RGB
  | ImageRGBA _ => RGBA
  end.

(** The number of channels of a mode. *)
Definition bands (m : Mode) : nat :=
  match m with
  | L => 1
  | RGB => 3
  | RGBA => 4
  end.

(** [image.size]: [(width, height)]. *)
Definition size (image : Image) : nat * nat :=
  let '(h, w) :=
    match image with
    | ImageL im => shape im
    | ImageRGB im => shape im
    | ImageRGBA im => shape im
    end in
  (w, h).

(** *** The imaging library *)

(** The operations of the imaging library, on the RGB working copy.
    [filter] and [enhance] return an image of the mode of their argument;
    with [convert] they keep the size of the image. *)
Class PIL : Type := {
  (** [image.convert('RGB')] *)
  convert_RGB : Image -> RGBImage;
  (** [image.filter(ImageFilter.GaussianBlur(radius=radius))] *)
  GaussianBlur : RGBImage -> float -> RGBImage;
  (** [ImageEnhance.Color(image).enhance(factor)] *)
  Color_enhance : RGBImage -> float -> RGBImage;
  (** [ImageEnhance.Contrast(image).enhance(factor)] *)
  Contrast_enhance : RGBImage -> float -> RGBImage;
  convert_RGB_size : forall image,
    size (ImageRGB (convert_RGB image)) = size image;
  GaussianBlur_shape : forall im radius,
    shape (GaussianBlur im radius) = shape im;
  Color_enhance_shape : forall im factor,
    shape (Color_enhance im factor) = shape im;
  Contrast_enhance_shape : forall im factor,
    shape (Contrast_enhance im factor) = shape im
}.

(** *** Array arithmetic *)

(** Binary32, the [dtype] of the image arrays. *)
Definition prec32 : Z := 24.
Definition emax32 : Z := 128.
Definition f32add : float -> float -> float := SFadd prec32 emax32.
Definition f32mul : float -> float -> float := SFmul prec32 emax32.

(** The binary32 number nearest to the integer [z]. *)
Definition Z2f32 (z : Z) : float := binary_normalize prec32 emax32 z 0 false.

(** A binary64 scalar rounded to binary32, as when a Python float meets a
    binary32 array. *)
Definition to_f32 (f : float) : float :=
  match f with
  | S754_finite s m e => binary_round prec32 emax32 s m e
  | _ => f
  end.

(** A binary32 element as a binary64 one, as when a binary32 array meets a
    binary64 array; the value is unchanged. *)
Definition widen (f : float) : float :=
  match f with
  | S754_finite s m e => binary_round prec emax s m e
  | _ => f
  end.

(** [np.array(image, dtype=np.float32)] *)
Definition np_array_f32 (image : RGBImage) : array (pixel float) :=
  amap (pmap Z2f32) image.

(** [np.clip(x, lo, hi)] on one element, the bounds in the format of [x];
    a NaN is passed on. *)
Definition clip (lo hi : float) (x : float) : float :=
  if fltb x lo then lo else if fltb hi x then hi else x.

(** [.astype(np.uint8)] on one element, which was clipped to [0, 255]:
    truncation. The cast of a NaN is not defined by the library; it is
    taken as [0]. *)
Definition astype_uint8 (x : float) : Z :=
  match float_trunc x with
  | Ok z => z
  | Raise _ => 0
  end.

(** A 3 x 3 matrix, by rows. *)
Definition matrix : Type := pixel (pixel float).

(** [M.T] *)
Definition transpose (M : matrix) : matrix :=
  let '((a, b, c), (d, e, f), (g, h, i)) := M in
  ((a, d, g), (b, e, h), (c, f, i)).

(** The fused multiply-add [x * y + z]: the product and the sum are exact
    and the result is rounded once. *)
Definition ffma (x y z : float) : float :=
  match x, y, z with
  | S754_finite sx mx ex, S754_finite sy my ey, S754_finite sz mz ez =>
      let e := Z.min (ex + ey) ez in
      binary_normalize prec emax
        (cond_Zopp (xorb sx sy) (Z.pos (fst (shl_align (mx * my) (ex + ey) e)))
         + cond_Zopp sz (Z.pos (fst (shl_align mz ez e))))
        e false
  | S754_finite _ _ _, S754_finite _ _ _, S754_zero _ => fmul x y
  | (S754_finite _ _ _ | S754_zero _), (S754_finite _ _ _ | S754_zero _),
    S754_infinity _ => z
  | _, _, _ => fadd (fmul x y) z
  end.

(** One step of a dot product: the term [x * b] joins the sum [acc], the
    product rounded first, or fused with the addition. *)
Definition accumulate (fused : bool) (acc : float) (term : float * float)
    : float :=
  let '(x, b) := term in
  if fused then ffma x b acc else fadd acc (fmul x b).

(** The sum of three terms, taken one after the other, from the first
    product on or from [0.0] on. *)
Definition dot_sum (from_zero f1 f2 f3 : bool) (t1 t2 t3 : float * float)
    : float :=
  let first :=
    if from_zero then accumulate f1 (Z2float 0) t1
    else fmul (fst t1) (snd t1) in
  accumulate f3 (accumulate f2 first t2) t3.

(** The orders in which three terms are summed. *)
Definition orders {A : Type} (t1 t2 t3 : A) : list (A * A * A) :=
  [ (t1, t2, t3); (t1, t3, t2); (t2, t1, t3);
    (t2, t3, t1); (t3, t1, t2); (t3, t2, t1) ].

(** The values binary64 arithmetic gives the dot product of [v] and [w]:
    the terms in any order, each product rounded or fused. Which of them a
    matrix product returns is up to the kernel the library runs. The
    first is the sum in the order of the bands with every product
    rounded. *)
Definition dot_roundings (v w : pixel float) : list float :=
  let '(x, y, z) := v in
  let '(a, b, c) := w in
  flat_map (fun '(t1, t2, t3) =>
    flat_map (fun from_zero =>
      flat_map (fun f1 =>
        flat_map (fun f2 =>
          map (fun f3 => dot_sum from_zero f1 f2 f3 t1 t2 t3)
              [false; true])
          [false; true])
        [false; true])
      [false; true])
    (orders (x, a) (y, b) (z, c)).

(** [r] is the product [M . v] of the matrix [M] with the vector [v] in
    binary64 arithmetic: band [i] of [r] is a value of the dot product of
    [v] with row [i] of [M]. *)
Definition is_matvec (M : matrix) (v r : pixel float) : Prop :=
  let '(m0, m1, m2) := M in
  let '(r0, r1, r2) := r in
  List.In r0 (dot_roundings v m0) /\
  List.In r1 (dot_roundings v m1) /\
  List.In r2 (dot_roundings v m2).

(** *** The numeric library *)

(** The state of the global random generator with one draw of
    [random.normal(loc, scale)]; [linspace(start, stop, num)], which
    returns [num] samples; and the matrix product [a @ B] of an array of
    shape [(H, W, 3)] with a 3 x 3 matrix in binary64, which keeps the
    shape and multiplies every pixel, as a row vector, by [B]. *)
Class NumPy : Type := {
  RandomState : Type;
  random_normal : float -> float -> RandomState -> float * RandomState;
  linspace : float -> float -> nat -> list float;
  matmul : list (list (pixel float)) -> matrix -> list (list (pixel float));
  linspace_length : forall start stop num,
    length (linspace start stop num) = num;
  matmul_shape : forall a B, shape (matmul a B) = shape a;
  matmul_pixel : forall a B y x v,
    aget a y x = Some v ->
    exists r, aget (matmul a B) y x = Some r /\ is_matvec (transpose B) v r
}.

(** *** The stages *)

Definition sepia_matrix : matrix :=
  ((dec 393 3, dec 769 3, dec 189 3),
   (dec 349 3, dec 686 3, dec 168 3),
   (dec 272 3, dec 534 3, dec 131 3)).

(** Apply overall fade/dissolution effect. *)
Definition _apply_fade (image : RGBImage) (intensity : float) : RGBImage :=
  let img_array := np_array_f32 image in
  let fog_color : pixel float := (Z2f32 245, Z2f32 240, Z2f32 230) in
  let fog := pmap (fun v => f32mul v (to_f32 intensity)) fog_color in
  let result :=
    amap (fun p =>
            pmap2 f32add
              (pmap (fun v => f32mul v (to_f32 (fsub (Z2float 1) intensity))) p)
              fog)
      img_array in
  amap (pmap (fun v => astype_uint8 (clip (Z2f32 0) (Z2f32 255) v))) result.

Section Stages.
Context {pil : PIL} {np : NumPy}.

(** A computation that draws from the random generator and may raise. *)
Definition M (A : Type) : Type := RandomState -> res (A * RandomState).

Definition ret {A : Type} (a : A) : M A := fun g => Ok (a, g).

Definition mbind {A B : Type} (m : M A) (k : A -> M B) : M B :=
  fun g =>
    match m g with
    | Ok (a, g') => k a g'
    | Raise e => Raise e
    end.

Definition lift {A : Type} (r : res A) : M A :=
  fun g =>
    match r with
    | Ok a => Ok (a, g)
    | Raise e => Raise e
    end.

(** A row of [w] pixels drawn from [random.normal(loc, scale)], band after
    band. *)
Fixpoint normal_row (loc scale : float) (w : nat) (g : RandomState)
    : list (pixel float) * RandomState :=
  match w with
  | O => ([], g)
  | S w' =>
      let '(r, g1) := random_normal loc scale g in
      let '(gr, g2) := random_normal loc scale g1 in
      let '(b, g3) := random_normal loc scale g2 in
      let '(ps, g4) := normal_row loc scale w' g3 in
      ((r, gr, b) :: ps, g4)
  end.

(** The [h * w * 3] draws of one call of [np.random.normal], in row
    order. *)
Fixpoint normal_array (loc scale : float) (h w : nat) (g : RandomState)
    : array (pixel float) * RandomState :=
  match h with
  | O => ([], g)
  | S h' =>
      let '(row, g1) := normal_row loc scale w g in
      let '(rows, g2) := normal_array loc scale h' w g1 in
      (row :: rows, g2)
  end.

(** [np.random.normal(loc, scale, (h, w, 3))]: a scale with the sign bit
    set, a negative number or [-0.0], is refused with [ValueError]; a NaN
    is not. *)
Definition np_random_normal (loc scale : float) (h w : nat)
    : M (list (list (pixel float))) :=
  fun g =>
    if sign_bit scale then Raise ValueError
    else Ok (normal_array loc scale h w g).

(** Apply sepia toning effect. *)
Definition _apply_sepia (image : RGBImage) (intensity : float) : RGBImage :=
  let img_array := np_array_f32 image in
  let sepia_img :=
    matmul (amap (pmap widen) img_array) (transpose sepia_matrix) in
  let sepia_img := amap (pmap (clip (Z2float 0) (Z2float 255))) sepia_img in
  let result :=
    amap2 (pmap2 (fun a b => fadd (widen a) b))
      (amap (pmap (fun v => f32mul v (to_f32 (fsub (Z2float 1) intensity))))
         img_array)
      (amap (pmap (fun v => fmul v intensity)) sepia_img) in
  amap (pmap (fun v => astype_uint8 (clip (Z2float 0) (Z2float 255) v))) result.

(** Apply Gaussian blur. *)
Definition _apply_blur (image : RGBImage) (radius : float) : RGBImage :=
  GaussianBlur image radius.

(** Add film grain noise. *)
Definition _apply_noise (image : RGBImage) (intensity : float) : M RGBImage :=
  let img_array := np_array_f32 image in
  let '(h, w) := shape img_array in
  mbind (np_random_normal (Z2float 0) (fmul intensity (Z2float 50)) h w)
    (fun noise =>
  let noisy := amap2 (pmap2 (fun a b => fadd (widen a) b)) img_array noise in
  ret (amap (pmap (fun v => astype_uint8 (clip (Z2float 0) (Z2float 255) v)))
         noisy)).

(** Apply vignette effect (darkened corners). *)
Definition _apply_vignette (image : RGBImage) (intensity : float) : RGBImage :=
  let '(width, height) := size (ImageRGB image) in
  let x := linspace (Z2float (-1)) (Z2float 1) width in
  let y := linspace (Z2float (-1)) (Z2float 1) height in
  (* X, Y = np.meshgrid(x, y) *)
  let X : array float := map (fun _ => x) y in
  let Y : array float := map (fun yi => map (fun _ => yi) x) y in
  let distance :=
    amap fsqrt (amap2 fadd (amap (fun v => fmul v v) X)
                           (amap (fun v => fmul v v) Y)) in
  let vignette := amap (fun d => fsub (Z2float 1) (fmul d intensity)) distance in
  let vignette := amap (clip (Z2float 0) (Z2float 1)) vignette in
  let vignette_rgb : array (pixel float) := amap (fun v => (v, v, v)) vignette in
  let img_array := np_array_f32 image in
  let result :=
    amap2 (pmap2 (fun a b => fmul (widen a) b)) img_array vignette_rgb in
  amap (pmap (fun v => astype_uint8 (clip (Z2float 0) (Z2float 255) v))) result.

(** Adjust color saturation. *)
Definition _apply_saturation (image : RGBImage) (factor : float) : RGBImage :=
  Color_enhance image factor.

(** Adjust contrast. *)
Definition _apply_contrast (image : RGBImage) (factor : float) : RGBImage :=
  Contrast_enhance image factor.

(** [isinstance(temporal_level, float) and temporal_level % 1 != 0] *)
Definition fractional (temporal_level : pynum) : bool :=
  match temporal_level with
  | PyFloat f => float_mod1_ne0 f
  | PyInt _ => false
  end.

(** The parameters [process] works with: the ones given, or the ones of
    the level. *)
Definition resolve_params (temporal_level : pynum)
    (params : option VisualParams) : res (option VisualParams) :=
  match params with
  | Some p => Ok (Some p)
  | None =>
      if fractional temporal_level then
        let* p := interpolate_epochs temporal_level in
        Ok (Some p)
      else
        let* k := py_int temporal_level in
        Ok (get_epoch_params (PyInt k))
  end.

(** Apply temporal transformations to an image. *)
Definition process (image : Image) (temporal_level : pynum)
    (params : option VisualParams) : M Image :=
  mbind (lift (resolve_params temporal_level params)) (fun params =>
  match params with
  | None => ret image
  | Some params =>
      (* Ensure RGB mode *)
      let image :=
        match image with
        | ImageRGB im => im
        | _ => convert_RGB image
        end in
      (* image.copy() *)
      let result := image in
      (* 1. Apply blur (temporal distance) *)
      let result :=
        if py_gt (PyFloat (blur params)) (PyInt 0)
        then _apply_blur result (blur params) else result in
      (* 2. Apply sepia toning *)
      let result :=
        if py_gt (PyFloat (sepia params)) (PyInt 0)
        then _apply_sepia result (sepia params) else result in
      (* 3. Adjust saturation *)
      let result :=
        if py_ne (PyFloat (saturation params)) (PyFloat (dec 10 1))
        then _apply_saturation result (saturation params) else result in
      (* 4. Adjust contrast *)
      let result :=
        if py_ne (PyFloat (contrast params)) (PyFloat (dec 10 1))
        then _apply_contrast result (contrast params) else result in
      (* 5. Add film grain noise *)
      mbind (if py_gt (PyFloat (noise params)) (PyInt 0)
             then _apply_noise result (noise params) else ret result)
        (fun result =>
      (* 6. Apply vignette *)
      let result :=
        if py_gt (PyFloat (vignette params)) (PyInt 0)
        then _apply_vignette result (vignette params) else result in
      (* 7. Apply fade/dissolution *)
      let result :=
        if py_gt (PyFloat (fade params)) (PyInt 0)
        then _apply_fade result (fade params) else result in
      ret (ImageRGB result))
  end).

End Stages.

End Visual.

(** ** [app.py]: the application logic *)

Module App.
Import Py.
Import PyStr.
Import Epochs.
Import Visual.

(** The builtin [int(s)] on a string: it raises nothing but [ValueError],
    and reads back the decimal numeral [str(z)] of an int, up to the
    length the interpreter converts. *)
Class Builtins : Type := {
  int_of_str : string -> res Z;
  int_of_str_ValueError : forall s e,
    int_of_str s = Raise e -> e = ValueError;
  int_of_str_str : forall z,
    Z.abs z < 10 ^ 4300 -> int_of_str (str z) = Ok z
}.

(** The exceptions of the module: the ones of the runtime, and the
    [IndexError] of a list index out of range. *)
Inductive error : Type :=
  | IndexError
  | Runtime (e : exn).

Inductive outcome (A : Type) : Type :=
  | Return (a : A)
  | Fail (e : error).
Arguments Return {A} a.
Arguments Fail {A} e.

(** [l[i]]: a negative index counts from the end. *)
Definition list_getitem (l : list string) (i : Z) : outcome string :=
  let j := if i <? 0 then Z.of_nat (length l) + i else i in
  if j <? 0 then Fail IndexError
  else match l !! Z.to_nat j with
       | Some x => Return x
       | None => Fail IndexError
       end.

Section Logic.
Context {pil : PIL} {np : NumPy} {builtins : Builtins}.

(** Process an image through the temporal viewer; the module's generator
    speaks French. *)
Definition process_image (image : option Image) (temporal_level : Z)
    : M (option Image * string * string) :=
  match image with
  | None => ret (None, EmptyString, EmptyString)
  | Some image =>
      (* Get epoch information *)
      mbind (lift (EPOCHS_getitem 0)) (fun default =>
      let epoch :=
        match EPOCHS_get (PyInt temporal_level) with
        | Some epoch => epoch
        | None => default
        end in
      (* Process image *)
      mbind (process image (PyInt temporal_level) None) (fun processed =>
      (* Generate soundscape description *)
      mbind (lift (Sound.get_description "fr" temporal_level))
        (fun soundscape =>
      (* Create epoch info text *)
      let epoch_info :=
        (nl ++ "## " ++ name epoch ++ " (" ++ period epoch ++ ")" ++ nl
         ++ nl
         ++ "*" ++ description epoch ++ "*" ++ nl
         ++ nl
         ++ "### Paramètres visuels" ++ nl
         ++ "- Sépia: " ++ format_pct 0 (sepia (visual epoch)) ++ nl
         ++ "- Flou: " ++ format_f 1 (blur (visual epoch)) ++ "px" ++ nl
         ++ "- Grain: " ++ format_pct 0 (noise (visual epoch)) ++ nl
         ++ "- Vignette: " ++ format_pct 0 (vignette (visual epoch)) ++ nl
         ++ "- Saturation: " ++ format_pct 0 (saturation (visual epoch)) ++ nl
         ++ "- Dissolution: " ++ format_pct 0 (fade (visual epoch)) ++ nl)%string
        in
      ret (Some processed, epoch_info, soundscape))))
  end.

(** Extract level from dropdown selection. *)
Definition sync_dropdown_to_slider (dropdown_value : string) : res Z :=
  match int_of_str (split_dot_head dropdown_value) with
  | Ok z => Ok z
  | Raise ValueError => Ok 0
  | Raise e => Raise e
  end.

(** Get dropdown value from slider. *)
Definition sync_slider_to_dropdown (slider_value : pynum) : outcome string :=
  let epochs := list_epochs in
  if py_le (PyInt 0) slider_value
     && py_lt slider_value (PyInt (Z.of_nat (length epochs)))
  then match py_int slider_value with
       | Ok i => list_getitem epochs i
       | Raise e => Fail (Runtime e)
       end
  else list_getitem epochs 0.

End Logic.

End App.

(** ** A small instance of the libraries

    Enough of the imaging and numeric libraries to run the pipeline on
    concrete images: the mode conversions of the imaging library, simple
    size-preserving filters in place of its blur and enhancers, a counter
    in place of the random generator. *)

Module Sample.
Import Py.
Import Visual.

Definition convert_RGB (image : Image) : RGBImage :=
  match image with
  | ImageL im => amap (fun v => (v, v, v)) im
  | ImageRGB im => im
  | ImageRGBA im => amap (fun '(r, g, b, _) => (r, g, b)) im
  end.

(** Every band moves halfway to mid-gray. *)
Definition GaussianBlur (im : RGBImage) (radius : float) : RGBImage :=
  amap (pmap (fun v => (v + 128) / 2)) im.

(** Every pixel becomes the gray of its mean. *)
Definition Color_enhance (im : RGBImage) (factor : float) : RGBImage :=
  amap (fun '(r, g, b) => let y := (r + g + b) / 3 in (y, y, y)) im.

(** Every band is raised by ten, up to 255. *)
Definition Contrast_enhance (im : RGBImage) (factor : float) : RGBImage :=
  amap (pmap (fun v => Z.min 255 (v + 10))) im.

(** The draws cycle through [loc - scale], [loc], [loc + scale]. *)
Definition random_normal (loc scale : float) (g : Z) : float * Z :=
  (fadd loc (fmul scale (Z2float (g mod 3 - 1))), g + 1).

(** The matrix product with every dot product summed in the order of the
    bands and every product rounded. *)
Definition matmul (a : list (list (pixel float))) (B : matrix)
    : list (list (pixel float)) :=
  amap (fun p : pixel float =>
          let '(x, y, z) := p in
          let '((b00, b01, b02), (b10, b11, b12), (b20, b21, b22)) := B in
          (fadd (fadd (fmul x b00) (fmul y b10)) (fmul z b20),
           fadd (fadd (fmul x b01) (fmul y b11)) (fmul z b21),
           fadd (fadd (fmul x b02) (fmul y b12)) (fmul z b22)))
       a.

(** [num] evenly spaced samples from [start] to [stop]; [start] alone
    when [num] is [1]. *)
Definition linspace (start stop : float) (num : nat) : list float :=
  let step := fdiv (fsub stop start) (Z2float (Z.of_nat num - 1)) in
  map (fun i => if (i =? 0)%nat then start
                else if (i + 1 =? num)%nat then stop
                else fadd (fmul (Z2float (Z.of_nat i)) step) start)
      (seq 0 num).

(** [int(s)] on a plain decimal numeral with an optional minus sign. *)
Definition int_of_str (s : string) : res Z :=
  match NilZero.int_of_string s with
  | Some d => Ok (Z.of_int d)
  | None => Raise ValueError
  end.

End Sample.

(** ** The pipeline as an ordered list of stages

    The stage order and the guards of [process], written apart from it, as
    the list of (predicate, transform) pairs the design notes ask for. *)

Module Plan.
Import Py.
Import Epochs.
Import Visual.

Inductive stage : Type :=
  | Blur | Sepia | Saturation | Contrast | Noise | Vignette | Fade.

Definition stage_order : list stage :=
  [ Blur; Sepia; Saturation; Contrast; Noise; Vignette; Fade ].

(** The parameter that triggers a stage, and its neutral value. *)
Definition param (p : VisualParams) (s : stage) : float :=
  match s with
  | Blur => blur p
  | Sepia => sepia p
  | Saturation => saturation p
  | Contrast => contrast p
  | Noise => noise p
  | Vignette => vignette p
  | Fade => fade p
  end.

Definition neutral (s : stage) : float :=
  match s with
  | Saturation | Contrast => dec 10 1
  | _ => dec 0 1
  end.

(** The stages whose parameter is a multiplier, neutral at 1. *)
Definition stage_scales (s : stage) : bool :=
  match s with
  | Saturation | Contrast => true
  | _ => false
  end.

(** The guard [process] puts on a stage. *)
Definition guard (p : VisualParams) (s : stage) : bool :=
  match s with
  | Saturation | Contrast => py_ne (PyFloat (param p s)) (PyFloat (dec 10 1))
  | _ => py_gt (PyFloat (param p s)) (PyInt 0)
  end.

(** The guard the specification words: the parameter differs from its
    neutral value. *)
Definition off_neutral (p : VisualParams) (s : stage) : bool :=
  py_ne (PyFloat (param p s)) (PyFloat (neutral s)).

Section Run.
Context {pil : PIL} {np : NumPy}.

Definition run_stage (p : VisualParams) (s : stage) (im : RGBImage)
    : M RGBImage :=
  match s with
  | Blur => ret (_apply_blur im (blur p))
  | Sepia => ret (_apply_sepia im (sepia p))
  | Saturation => ret (_apply_saturation im (saturation p))
  | Contrast => ret (_apply_contrast im (contrast p))
  | Noise => _apply_noise im (noise p)
  | Vignette => ret (_apply_vignette im (vignette p))
  | Fade => ret (_apply_fade im (fade p))
  end.

(** The stages of a list, applied from first to last. *)
Fixpoint run_stages (p : VisualParams) (l : list stage) (im : RGBImage)
    : M RGBImage :=
  match l with
  | [] => ret im
  | s :: l' => mbind (run_stage p s im) (run_stages p l')
  end.

(** The RGB working copy of the input. *)
Definition to_RGB (image : Image) : RGBImage :=
  match image with
  | ImageRGB im => im
  | _ => convert_RGB image
  end.

(** The pipeline that applies, in the fixed order, the stages [select]
    keeps. *)
Definition pipeline (select : stage -> bool) (p : VisualParams)
    (image : Image) : M Image :=
  mbind (run_stages p (List.filter select stage_order) (to_RGB image))
        (fun result => ret (ImageRGB result)).

End Run.

End Plan.

(** ** The sepia stage, pixel by pixel

    The formula of the specification for one pixel: the sepia-toned pixel
    is [clamp(M . [R,G,B]^T, 0, 255)], the output pixel is
    [clamp((1 - s) . original + s . sepia_pixel, 0, 255)], truncated. *)

Module SepiaSpec.
Import Py.
Import Visual.

(** The band [v] of a pixel as the number the image array holds. *)
Definition band (v : Z) : float := widen (Z2f32 v).

(** The sepia-toned pixel of a product [M . [R,G,B]^T]. *)
Definition sepia_pixel (product : pixel float) : pixel float :=
  pmap (clip (Z2float 0) (Z2float 255)) product.

(** One band of the output: the product with the original band is a
    binary32 number, as the image array is. *)
Definition blend (s : float) (original : Z) (toned : float) : Z :=
  astype_uint8
    (clip (Z2float 0) (Z2float 255)
       (fadd (widen (f32mul (to_f32 (fsub (Z2float 1) s)) (Z2f32 original)))
             (fmul s toned))).

Definition sepia_blend (s : float) (rgb : pixel Z) (product : pixel float)
    : pixel Z :=
  pmap2 (blend s) rgb (sepia_pixel product).

End SepiaSpec.

(** ** Notions used in the statements *)

Module Notions.
Import Py.
Import Epochs.
Import Sound.
Import Visual.

(** Two floats with the same representation. *)
Definition float_same (a b : float) : bool :=
  match a, b with
  | S754_zero s, S754_zero s' => Bool.eqb s s'
  | S754_infinity s, S754_infinity s' => Bool.eqb s s'
  | S754_nan, S754_nan => true
  | S754_finite s m e, S754_finite s' m' e' =>
      Bool.eqb s s' && Pos.eqb m m' && Z.eqb e e'
  | _, _ => false
  end.

(** A float of sign [s]: a zero, a number or an infinity of that sign, not
    a NaN. *)
Definition has_sign (s : bool) (f : float) : bool :=
  match f with
  | S754_zero s' | S754_infinity s' | S754_finite s' _ _ => Bool.eqb s s'
  | S754_nan => false
  end.

(** A positive number: not a zero, not an infinity, not a NaN. *)
Definition positive_number (f : float) : bool :=
  match f with
  | S754_finite false _ _ => true
  | _ => false
  end.

(** A record resolved from a level: the record of an epoch of the table,
    or the record the interpolator returns at some level. *)
Definition resolved (p : VisualParams) : Prop :=
  (exists (k : Z) (e : Epoch), EPOCHS !! k = Some e /\ p = visual e) \/
  (exists level : pynum, interpolate_epochs level = Ok p).

(** [max(0, min(6, level))], the clamp of the interpolator. *)
Definition clamp06 (level : pynum) : pynum :=
  py_max (PyInt 0) (py_min (PyInt 6) level).

(** A float that is a number: not a NaN, not an infinity. *)
Definition is_finite (f : float) : bool :=
  match f with
  | S754_zero _ | S754_finite _ _ _ => true
  | S754_infinity _ | S754_nan => false
  end.

(** All seven fields hold a number. *)
Definition populated (p : VisualParams) : bool :=
  is_finite (sepia p) && is_finite (blur p) && is_finite (noise p)
  && is_finite (vignette p) && is_finite (saturation p)
  && is_finite (contrast p) && is_finite (fade p).

(** The epoch [generate] describes: the one of the level, or epoch 0. *)
Definition epoch_or_default (level : Z) : Epochs.Epoch :=
  match Epochs.EPOCHS !! level with
  | Some epoch => epoch
  | None => Epochs.epoch0
  end.

(** [max(0.1, 1.0 - f * c)], the scalar derived from the level [f]. *)
Definition scalar (c f : float) : float :=
  float_max (dec 1 1) (fsub (dec 10 1) (fmul f c)).

(** The field names the interface description lists for the exported
    record. *)
Definition documented_keys : list string :=
  [ "level"; "name"; "period"; "elements"; "prompt"; "intensity";
    "clarity" ]%string.

(** A 2 x 2 uniform blue image, and a 1 x 2 grayscale one. *)
Definition blue : Image :=
  ImageRGB [ [ (0, 0, 255); (0, 0, 255) ]; [ (0, 0, 255); (0, 0, 255) ] ].

Definition gray : Image := ImageL [ [ 5; 6 ] ].

(** Neutral parameters, but for a negative sepia intensity. *)
Definition negative_sepia : VisualParams :=
  {| sepia := dec (-5) 1; blur := dec 0 1; noise := dec 0 1;
     vignette := dec 0 1; saturation := dec 10 1; contrast := dec 10 1;
     fade := dec 0 1 |}.

End Notions.

(** ** Notions used in the further statements *)

Module MoreNotions.
Import Py.
Import PyStr.
Import Visual.

Section OfEpochs.
Import Epochs.

(** [a <= x <= b] on floats. *)
Definition within (a b x : float) : bool := fleb a x && fleb x b.

(** The fields of a record lie in the ranges the class documents. *)
Definition in_ranges (p : VisualParams) : bool :=
  within (Z2float 0) (Z2float 1) (sepia p)
  && fleb (Z2float 0) (blur p)
  && within (Z2float 0) (Z2float 1) (noise p)
  && within (Z2float 0) (Z2float 1) (vignette p)
  && within (Z2float 0) (Z2float 2) (saturation p)
  && within (Z2float 0) (Z2float 2) (contrast p)
  && within (Z2float 0) (Z2float 1) (fade p).

(** Every effect of [q] is stronger than that of [p]. *)
Definition older (p q : VisualParams) : bool :=
  fltb (sepia p) (sepia q) && fltb (blur p) (blur q)
  && fltb (noise p) (noise q) && fltb (vignette p) (vignette q)
  && fltb (saturation q) (saturation p) && fltb (contrast q) (contrast p)
  && fltb (fade p) (fade q).

(** The text of the epoch panel. *)
Definition epoch_panel (epoch : Epoch) : string :=
  (nl ++ "## " ++ name epoch ++ " (" ++ period epoch ++ ")" ++ nl
   ++ nl
   ++ "*" ++ description epoch ++ "*" ++ nl
   ++ nl
   ++ "### Paramètres visuels" ++ nl
   ++ "- Sépia: " ++ format_pct 0 (sepia (visual epoch)) ++ nl
   ++ "- Flou: " ++ format_f 1 (blur (visual epoch)) ++ "px" ++ nl
   ++ "- Grain: " ++ format_pct 0 (noise (visual epoch)) ++ nl
   ++ "- Vignette: " ++ format_pct 0 (vignette (visual epoch)) ++ nl
   ++ "- Saturation: " ++ format_pct 0 (saturation (visual epoch)) ++ nl
   ++ "- Dissolution: " ++ format_pct 0 (fade (visual epoch)) ++ nl)%string.

End OfEpochs.

Section OfSound.
Import Sound.

(** The ten cells of a bar of the description, [n] of them filled. *)
Definition cells (n : Z) : string :=
  (repeat_string "█" n ++ repeat_string "░" (10 - n))%string.

(** The two bar lines that end the description. *)
Definition bar_lines (language : string) (s : Soundscape) (a b : Z)
    : string :=
  ((if String.eqb language "fr" then "Intensité" else "Intensity")
   ++ ": " ++ cells a ++ " " ++ format_pct 0 (intensity s) ++ nl
   ++ (if String.eqb language "fr" then "Clarté" else "Clarity")
   ++ ": " ++ cells b ++ " " ++ format_pct 0 (clarity s) ++ nl)%string.

End OfSound.

(** One band of the fade: the band [v] blended toward the band [fog] of
    the fog colour. *)
Definition fade_band (intensity fog : float) (v : Z) : Z :=
  astype_uint8
    (clip (Z2f32 0) (Z2f32 255)
       (f32add (f32mul (Z2f32 v) (to_f32 (fsub (Z2float 1) intensity)))
               (f32mul fog (to_f32 intensity)))).

(** The bands of a pixel are bytes. *)
Definition bytes (rgb : pixel Z) : Prop :=
  let '(r, g, b) := rgb in
  0 <= r <= 255 /\ 0 <= g <= 255 /\ 0 <= b <= 255.

(** The vignette mask at the coordinates [(x, y)] of the unit square. *)
Definition mask (intensity x y : float) : float :=
  clip (Z2float 0) (Z2float 1)
    (fsub (Z2float 1) (fmul (fsqrt (fadd (fmul x x) (fmul y y))) intensity)).

End MoreNotions.

(** * Properties *)

(** ** Numbers *)

Module PyFacts.
Import Py.
Import Notions.

Lemma pow2_pos (e : Z) : 0 <= e -> 0 < 2 ^ e.
Proof. intros He. apply Z.pow_pos_nonneg; lia. Qed.

Lemma signed_neg (m : positive) : signed true m < 0.
Proof. unfold signed. lia. Qed.

Lemma signed_pos (m : positive) : 0 < signed false m.
Proof. unfold signed. lia. Qed.

(** A float at most [a] is below every int above [a]. *)
Lemma cmp_float_int_below (f : float) (a b : Z) (c : comparison) :
  cmp_float_int f a = Some c -> c <> Gt -> a < b ->
  cmp_float_int f b = Some Lt.
Proof.
  intros Hc Hne Hab. destruct f as [s|s| |s m e]; cbn [cmp_float_int] in *.
  - inversion Hc; subst c. f_equal. apply Z.compare_lt_iff.
    destruct (Z.compare_spec 0 a); try congruence; lia.
  - destruct s; [reflexivity | congruence].
  - discriminate.
  - destruct (Z.leb_spec 0 e) as [He|He]; inversion Hc; subst c; f_equal;
      apply Z.compare_lt_iff.
    + destruct (Z.compare_spec (signed s m * 2 ^ e) a); try congruence; lia.
    + assert (0 < 2 ^ (- e)) by (apply pow2_pos; lia).
      destruct (Z.compare_spec (signed s m) (a * 2 ^ (- e)));
        try congruence; nia.
Qed.

Lemma clamp06_low (level : pynum) :
  py_le level (PyInt 0) = true -> clamp06 level = PyInt 0.
Proof.
  unfold clamp06, py_max, py_min, py_le, py_lt, py_gt. intros Hle.
  assert (Hlt : py_compare level (PyInt 6) = Some Lt).
  { destruct level as [z|f]; cbn [py_compare] in *.
    - f_equal. apply Z.compare_lt_iff.
      destruct (Z.compare_spec z 0); try discriminate; lia.
    - destruct (cmp_float_int f 0) as [c|] eqn:Hc; [|discriminate].
      apply (cmp_float_int_below f 0 6 c Hc); [|lia].
      destruct c; [congruence..|discriminate]. }
  rewrite Hlt.
  destruct (py_compare level (PyInt 0)) as [[ | | ]|]; try discriminate;
    reflexivity.
Qed.

Lemma clamp06_high (level : pynum) :
  py_ge level (PyInt 6) = true -> clamp06 level = PyInt 6.
Proof.
  unfold clamp06, py_max, py_min, py_ge, py_lt, py_gt. intros Hge.
  destruct (py_compare level (PyInt 6)) as [[ | | ]|]; try discriminate;
    reflexivity.
Qed.

(** The clamp returns the int [0], the int [6], or a level strictly
    between them, unchanged. *)
Lemma clamp06_cases (level : pynum) :
  clamp06 level = PyInt 0 \/ clamp06 level = PyInt 6 \/
  (clamp06 level = level /\ py_gt level (PyInt 0) = true /\
   py_lt level (PyInt 6) = true).
Proof.
  unfold clamp06, py_max, py_min.
  destruct (py_lt level (PyInt 6)) eqn:Hlt.
  - destruct (py_gt level (PyInt 0)) eqn:Hgt; auto.
  - right; left. reflexivity.
Qed.

(** [int(f)] of a float strictly between [0] and [6] is an int from [0]
    to [5]. *)
Lemma float_trunc_inside (f : float) :
  py_gt (PyFloat f) (PyInt 0) = true -> py_lt (PyFloat f) (PyInt 6) = true ->
  exists q, float_trunc f = Ok q /\ 0 <= q <= 5.
Proof.
  unfold py_gt, py_lt. cbn [py_compare]. intros Hgt Hlt.
  destruct f as [s|s| |s m e]; cbn [cmp_float_int float_trunc] in *;
    try discriminate.
  - destruct s; discriminate.
  - destruct (Z.leb_spec 0 e) as [He|He].
    + assert (0 < 2 ^ e) by (apply pow2_pos; lia).
      destruct (Z.compare_spec (signed s m * 2 ^ e) 0); try discriminate.
      destruct (Z.compare_spec (signed s m * 2 ^ e) 6); try discriminate.
      destruct s; [pose proof (signed_neg m); nia|].
      unfold signed in *. eexists; split; [reflexivity|]. lia.
    + assert (0 < 2 ^ (- e)) by (apply pow2_pos; lia).
      destruct (Z.compare_spec (signed s m) (0 * 2 ^ (- e)));
        try discriminate.
      destruct (Z.compare_spec (signed s m) (6 * 2 ^ (- e)));
        try discriminate.
      destruct s; [pose proof (signed_neg m); nia|].
      unfold signed in *. eexists; split; [reflexivity|]. split.
      * apply Z.div_pos; lia.
      * assert (Z.pos m / 2 ^ (- e) < 6); [|lia].
        apply Z.div_lt_upper_bound; lia.
Qed.

(** The ints from [0] to [6] convert to floats. *)
Lemma float_of_int_small (q : Z) :
  0 <= q <= 6 -> float_of_int q = Ok (Z2float q).
Proof.
  intros Hq.
  assert (Hc : q = 0 \/ q = 1 \/ q = 2 \/ q = 3 \/ q = 4 \/ q = 5 \/ q = 6)
    by lia.
  destruct Hc as [->|[->|[->|[->|[->|[->| ->]]]]]]; reflexivity.
Qed.

(** A float is equal to the int [k] exactly when it is integral with
    value [k]. *)
Lemma float_integral_eq (f : float) (k : Z) :
  float_integral f = Some k <-> cmp_float_int f k = Some Eq.
Proof.
  destruct f as [s|s| |s m e]; cbn [float_integral cmp_float_int].
  - split; intros H.
    + inversion H. reflexivity.
    + destruct k; try discriminate. reflexivity.
  - split; [discriminate | destruct s; discriminate].
  - split; discriminate.
  - destruct (Z.leb_spec 0 e) as [He|He].
    + split; intros H; inversion H as [H1].
      * now rewrite Z.compare_refl.
      * apply Z.compare_eq in H1. now subst.
    + assert (Hd : 0 < 2 ^ (- e)) by (apply pow2_pos; lia).
      set (d := 2 ^ (- e)) in *.
      assert (Hmod : Z.pos m mod d = 0 <-> signed s m mod d = 0).
      { unfold signed. destruct s; [|reflexivity].
        change (Z.neg m) with (- Z.pos m).
        split; intros Hm.
        - apply Z.mod_opp_l_z; [lia | exact Hm].
        - rewrite <- (Z.opp_involutive (Z.pos m)).
          apply Z.mod_opp_l_z; [lia | exact Hm]. }
      destruct (Z.eqb_spec (Z.pos m mod d) 0) as [Hz|Hz].
      * apply Hmod in Hz. split; intros H; inversion H as [H1].
        -- f_equal. apply Z.compare_eq_iff.
           pose proof (Z.div_mod (signed s m) d). lia.
        -- apply Z.compare_eq in H1. rewrite H1. f_equal.
           apply Z.div_mul. lia.
      * split; [discriminate|]. intros H. inversion H as [H1].
        apply Z.compare_eq in H1. exfalso. apply Hz, Hmod.
        rewrite H1. apply Z.mod_mul. lia.
Qed.

(** The key a number is looked up as is the int it is equal to. *)
Lemma int_key_eq (level : pynum) (k : Z) :
  int_key level = Some k <-> py_eq level (PyInt k) = true.
Proof.
  unfold py_eq. destruct level as [z|f]; cbn [int_key py_compare].
  - split; intros H.
    + inversion H. now rewrite Z.compare_refl.
    + destruct (Z.compare_spec z k); try discriminate. now subst.
  - rewrite float_integral_eq.
    destruct (cmp_float_int f k) as [[ | | ]|]; split; intros H;
      try discriminate; reflexivity.
Qed.

(** [x % 1 != 0] holds of the floats that are equal to no int. *)
Lemma float_mod1_ne0_integral (f : float) :
  float_mod1_ne0 f = true <-> float_integral f = None.
Proof.
  destruct f as [s|s| |s m e]; cbn [float_mod1_ne0 float_integral].
  - split; discriminate.
  - split; reflexivity.
  - split; reflexivity.
  - destruct (0 <=? e); [split; discriminate|].
    destruct (Z.pos m mod 2 ^ (- e) =? 0); cbn [negb]; split;
      try discriminate; reflexivity.
Qed.

(** *** The sign of a rounded result *)

Lemma iter_pos_invariant {A : Type} (f : A -> A) (P : A -> Prop) :
  (forall a, P a -> P (f a)) ->
  forall (n : positive) (a : A), P a -> P (SpecFloat.iter_pos f n a).
Proof.
  intros Hf n. induction n as [n IH|n IH|]; intros a Ha; cbn [SpecFloat.iter_pos];
    auto.
Qed.

Lemma shr_1_nonneg (mrs : shr_record) :
  0 <= shr_m mrs -> 0 <= shr_m (shr_1 mrs).
Proof.
  destruct mrs as [m r s]. cbn [shr_m shr_1].
  destruct m as [|[q|q|]|q]; cbn [shr_m]; lia.
Qed.

Lemma shr_fexp_nonneg (p em m e : Z) (l : location) :
  0 <= m -> 0 <= shr_m (fst (shr_fexp p em m e l)).
Proof.
  intros Hm. unfold shr_fexp, shr.
  assert (H0 : 0 <= shr_m (shr_record_of_loc m l))
    by (destruct l as [|[ | | ]]; exact Hm).
  destruct (fexp p em (Zdigits2 m + e) - e) as [|n|n]; cbn [fst];
    try exact H0.
  now apply iter_pos_invariant; [exact shr_1_nonneg|].
Qed.

Lemma round_nearest_even_nonneg (m : Z) (l : location) :
  0 <= m -> 0 <= round_nearest_even m l.
Proof.
  intros Hm. unfold round_nearest_even.
  destruct l as [|[ | | ]]; try destruct (Z.even m); lia.
Qed.

Lemma binary_round_aux_sign (p em : Z) (sx : bool) (m e : Z) (l : location) :
  0 <= m -> has_sign sx (binary_round_aux p em sx m e l) = true.
Proof.
  intros Hm. unfold binary_round_aux.
  pose proof (shr_fexp_nonneg p em m e l Hm) as H1.
  destruct (shr_fexp p em m e l) as [mrs' e']. cbn [fst] in H1.
  pose proof (shr_fexp_nonneg p em
                (round_nearest_even (shr_m mrs') (loc_of_shr_record mrs'))
                e' loc_Exact (round_nearest_even_nonneg _ _ H1)) as H2.
  destruct (shr_fexp p em _ e' loc_Exact) as [mrs'' e'']. cbn [fst] in H2.
  destruct (shr_m mrs'') as [|q|q]; [| |lia].
  - cbn. apply eqb_reflx.
  - destruct (e'' <=? em - p); cbn; apply eqb_reflx.
Qed.

Lemma binary_round_sign (p em : Z) (sx : bool) (m : positive) (e : Z) :
  has_sign sx (binary_round p em sx m e) = true.
Proof.
  unfold binary_round.
  destruct (shl_align m e (fexp p em (Z.pos (digits2_pos m) + e))) as [mz ez].
  apply binary_round_aux_sign. lia.
Qed.

Lemma binary_normalize_nonneg (p em m e : Z) :
  0 <= m -> has_sign false (binary_normalize p em m e false) = true.
Proof.
  intros Hm. destruct m as [|q|q]; [reflexivity | | lia].
  apply binary_round_sign.
Qed.

Lemma has_sign_sign_bit (s : bool) (f : float) :
  has_sign s f = true -> sign_bit f = s.
Proof.
  destruct f as [s'|s'| |s' m e]; cbn; try discriminate;
    intros H; symmetry; now apply eqb_prop.
Qed.

(** The product keeps the signs. *)
Lemma SFmul_sign (p em : Z) (sx sy : bool) (x y : float) :
  has_sign sx x = true -> has_sign sy y = true ->
  match x, y with
  | S754_infinity _, S754_zero _ | S754_zero _, S754_infinity _ => True
  | _, _ => has_sign (xorb sx sy) (SFmul p em x y) = true
  end.
Proof.
  destruct x as [s|s| |s m e], y as [s'|s'| |s' m' e']; cbn [has_sign];
    try discriminate; try exact (fun _ _ => I);
    intros H1 H2; apply eqb_prop in H1, H2; subst s s'; cbn [SFmul has_sign];
    try apply eqb_reflx.
  apply binary_round_aux_sign. lia.
Qed.

Lemma shl_align_fst (m : positive) (e e' : Z) :
  e' <= e -> Z.pos (fst (shl_align m e e')) = Z.pos m * 2 ^ (e - e').
Proof.
  intros He. unfold shl_align.
  destruct (e' - e) as [|d|d] eqn:Hd; cbn [fst]; try lia.
  - replace (e - e') with 0 by lia. lia.
  - replace (e - e') with (Z.pos d) by lia.
    change (Pos.iter xO m d) with (shift_pos d m).
    rewrite shift_pos_correct. change (2 ^ Z.pos d) with (Z.pow_pos 2 d).
    unfold Zpower_pos, Z.pow_pos. lia.
Qed.

(** A float greater than [0] has a clear sign bit. *)
Lemma py_gt_0_sign (x : float) :
  py_gt (PyFloat x) (PyInt 0) = true -> has_sign false x = true.
Proof.
  unfold py_gt. cbn [py_compare].
  destruct x as [s|s| |s m e]; cbn [cmp_float_int has_sign];
    try discriminate.
  - destruct s; [discriminate | reflexivity].
  - destruct s; [|reflexivity]. pose proof (signed_neg m) as Hneg.
    destruct (Z.leb_spec 0 e) as [He|He].
    + assert (0 < 2 ^ e) by (apply pow2_pos; lia).
      destruct (Z.compare_spec (signed true m * 2 ^ e) 0); try discriminate.
      nia.
    + destruct (Z.compare_spec (signed true m) (0 * 2 ^ (- e)));
        try discriminate; lia.
Qed.

(** The mantissa of a float aligned to a smaller exponent is not below
    that of its integer part. *)
Lemma aligned_trunc_le (m mk : positive) (e ek k : Z) :
  ek < 0 -> Z.pos mk = k * 2 ^ (- ek) ->
  k = (if 0 <=? e then Z.pos m * 2 ^ e else Z.pos m / 2 ^ (- e)) ->
  Z.pos mk * 2 ^ (ek - Z.min e ek) <= Z.pos m * 2 ^ (e - Z.min e ek).
Proof.
  intros Hek Hmk Hk. rewrite Hmk.
  destruct (Z.leb_spec 0 e) as [He|He].
  - rewrite Z.min_r by lia. replace (ek - ek) with 0 by lia.
    replace (e - ek) with (e + - ek) by lia.
    rewrite Z.pow_add_r by lia. rewrite Hk. lia.
  - assert (Hd : 0 < 2 ^ (- e)) by (apply pow2_pos; lia).
    assert (Hle : k * 2 ^ (- e) <= Z.pos m).
    { rewrite Hk, Z.mul_comm. apply Z.mul_div_le. exact Hd. }
    destruct (Z.le_ge_cases e ek) as [H|H].
    + rewrite Z.min_l by lia. replace (e - e) with 0 by lia.
      rewrite <- Z.mul_assoc, <- Z.pow_add_r by lia.
      replace (- ek + (ek - e)) with (- e) by lia. lia.
    + rewrite Z.min_r by lia. replace (ek - ek) with 0 by lia.
      assert (Hp : 0 < 2 ^ (e - ek)) by (apply pow2_pos; lia).
      replace (- ek) with (- e + (e - ek)) by lia.
      rewrite Z.pow_add_r by lia. nia.
Qed.

(** A positive float minus its integer part is not negative. *)
Lemma fsub_trunc_sign (m : positive) (e k : Z) :
  float_trunc (S754_finite false m e) = Ok k -> 0 <= k <= 5 ->
  has_sign false (fsub (S754_finite false m e) (Z2float k)) = true.
Proof.
  cbn [float_trunc]. intros Hk Hrange.
  assert (Hk' : k = if 0 <=? e then Z.pos m * 2 ^ e
                    else Z.pos m / 2 ^ (- e)) by congruence.
  clear Hk.
  assert (Hc : k = 0 \/ exists mk ek, Z2float k = S754_finite false mk ek /\
                 ek < 0 /\ Z.pos mk = k * 2 ^ (- ek)).
  { assert (Hc : k = 0 \/ k = 1 \/ k = 2 \/ k = 3 \/ k = 4 \/ k = 5) by lia.
    destruct Hc as [->|[->|[->|[->|[->| ->]]]]]; [now left|..]; right;
      eexists; eexists; (split; [vm_compute; reflexivity|]);
      (split; [lia | vm_compute; reflexivity]). }
  destruct Hc as [->|(mk & ek & -> & Hek & Hmk)]; [reflexivity|].
  unfold fsub. cbn [SFsub cond_Zopp].
  apply binary_normalize_nonneg.
  rewrite !shl_align_fst by lia.
  pose proof (aligned_trunc_le m mk e ek k Hek Hmk Hk'). lia.
Qed.

(** The sum of two floats that are not negative is not negative. *)
Lemma SFadd_nonneg (p em : Z) (x y : float) :
  has_sign false x = true -> has_sign false y = true ->
  has_sign false (SFadd p em x y) = true.
Proof.
  destruct x as [s|s| |s m e], y as [s'|s'| |s' m' e']; cbn [has_sign];
    try discriminate; intros H1 H2; apply eqb_prop in H1, H2; subst s s';
    cbn [SFadd has_sign cond_Zopp]; try reflexivity.
  apply binary_normalize_nonneg. lia.
Qed.

(** An interpolated value between two numbers of the table that grow is
    not negative. *)
Lemma lerp_sign (a b t : float) :
  has_sign false a = true -> positive_number (fsub b a) = true ->
  has_sign false t = true ->
  has_sign false (fadd a (fmul (fsub b a) t)) = true.
Proof.
  intros Ha Hd Ht. apply SFadd_nonneg; [exact Ha|].
  destruct (fsub b a) as [s|s| |s m e]; try discriminate.
  destruct s; [discriminate|].
  pose proof (SFmul_sign prec emax false false (S754_finite false m e) t
                eq_refl Ht) as H.
  destruct t; exact H.
Qed.

(** A float that is not negative is at least [0]. *)
Lemma has_sign_py_ge (x : float) :
  has_sign false x = true -> py_ge (PyFloat x) (PyInt 0) = true.
Proof.
  unfold py_ge. cbn [py_compare].
  destruct x as [s|s| |s m e]; cbn [has_sign cmp_float_int];
    try discriminate; intros H; apply eqb_prop in H; subst s;
    try reflexivity.
  pose proof (signed_pos m) as Hpos.
  destruct (Z.leb_spec 0 e) as [He|He].
  - assert (0 < 2 ^ e) by (apply pow2_pos; lia).
    destruct (Z.compare_spec (signed false m * 2 ^ e) 0); try reflexivity.
    nia.
  - destruct (Z.compare_spec (signed false m) (0 * 2 ^ (- e)));
      try reflexivity. lia.
Qed.

(** [a < b] implies [a <= b] on floats. *)
Lemma fltb_fleb (a b : float) : fltb a b = true -> fleb a b = true.
Proof.
  unfold fltb, fleb, SFltb, SFleb.
  destruct (SFcompare a b) as [[ | | ]|]; congruence.
Qed.

End PyFacts.

(** ** The epoch table and the interpolator *)

Module EpochsFacts.
Import Py.
Import Epochs.
Import Notions.
Import PyFacts.

Lemma int_0_6_cases (k : Z) :
  0 <= k <= 6 ->
  k = 0 \/ k = 1 \/ k = 2 \/ k = 3 \/ k = 4 \/ k = 5 \/ k = 6.
Proof. lia. Qed.

Ltac int_0_6 H :=
  apply int_0_6_cases in H;
  destruct H as [->|[->|[->|[->|[->|[->| ->]]]]]].

(** The keys of the table are the ints from [0] to [6]. *)
Lemma EPOCHS_lookup_outside (k : Z) :
  k < 0 \/ 6 < k -> EPOCHS !! k = None.
Proof.
  intros Hk. unfold EPOCHS.
  rewrite !lookup_insert_ne by lia. apply lookup_empty.
Qed.

Lemma EPOCHS_lookup_inside (k : Z) :
  0 <= k <= 6 -> exists e, EPOCHS !! k = Some e /\ level e = k.
Proof.
  intros Hk. int_0_6 Hk; eexists; split; reflexivity.
Qed.

Lemma EPOCHS_lookup_Some (k : Z) (e : Epoch) :
  EPOCHS !! k = Some e -> 0 <= k <= 6 /\ level e = k.
Proof.
  intros He.
  destruct (Z_lt_le_dec k 0) as [Hlo|Hlo];
    [rewrite EPOCHS_lookup_outside in He by lia; discriminate|].
  destruct (Z_lt_le_dec 6 k) as [Hhi|Hhi];
    [rewrite EPOCHS_lookup_outside in He by lia; discriminate|].
  split; [lia|].
  destruct (EPOCHS_lookup_inside k) as (e' & He' & Hl); [lia|].
  congruence.
Qed.

Lemma EPOCHS_getitem_inside (k : Z) :
  0 <= k <= 6 -> exists e, EPOCHS_getitem k = Ok e.
Proof.
  intros Hk. unfold EPOCHS_getitem.
  destruct (EPOCHS_lookup_inside k Hk) as (e & -> & _). eauto.
Qed.

(** The interpolator on an int level from [0] to [6], and on the float of
    that value. *)
Lemma interpolate_epochs_int (k : Z) (e : Epoch) :
  0 <= k <= 6 -> EPOCHS !! k = Some e ->
  interpolate_epochs (PyInt k) = Ok (visual e).
Proof.
  intros Hk He. int_0_6 Hk; vm_compute in He; inversion He; subst e;
    vm_compute; reflexivity.
Qed.

Lemma interpolate_epochs_float (k : Z) (e : Epoch) :
  0 <= k <= 6 -> EPOCHS !! k = Some e ->
  interpolate_epochs (PyFloat (Z2float k)) = Ok (visual e).
Proof.
  intros Hk He. int_0_6 Hk; vm_compute in He; inversion He; subst e;
    vm_compute; reflexivity.
Qed.

Lemma interpolate_epochs_low (level : pynum) :
  py_le level (PyInt 0) = true ->
  interpolate_epochs level = Ok (visual epoch0).
Proof.
  intros Hle. unfold interpolate_epochs.
  change (py_max (PyInt 0) (py_min (PyInt 6) level)) with (clamp06 level).
  rewrite (clamp06_low level Hle). vm_compute. reflexivity.
Qed.

Lemma interpolate_epochs_high (level : pynum) :
  py_ge level (PyInt 6) = true ->
  interpolate_epochs level = Ok (visual epoch6).
Proof.
  intros Hge. unfold interpolate_epochs.
  change (py_max (PyInt 0) (py_min (PyInt 6) level)) with (clamp06 level).
  rewrite (clamp06_high level Hge). vm_compute. reflexivity.
Qed.

(** The interpolator returns parameters at every level: no conversion
    overflows and no key is missing. *)
Lemma interpolate_epochs_total (level : pynum) :
  exists p, interpolate_epochs level = Ok p.
Proof.
  unfold interpolate_epochs.
  change (py_max (PyInt 0) (py_min (PyInt 6) level)) with (clamp06 level).
  destruct (clamp06_cases level) as [H|[H|(H & Hgt & Hlt)]]; rewrite H.
  - eexists. vm_compute. reflexivity.
  - eexists. vm_compute. reflexivity.
  - destruct level as [z|f].
    + assert (Hz : 0 <= z <= 6).
      { unfold py_gt, py_lt in *. cbn [py_compare] in *.
        destruct (Z.compare_spec z 0); try discriminate.
        destruct (Z.compare_spec z 6); try discriminate. lia. }
      int_0_6 Hz; eexists; vm_compute; reflexivity.
    + destruct (float_trunc_inside f Hgt Hlt) as (q & Hq & Hrange).
      cbn [py_int]. rewrite Hq. cbn [bind].
      unfold py_sub, py_arith. rewrite float_of_int_small by lia.
      cbn [bind].
      destruct (EPOCHS_getitem_inside q) as (e1 & ->); [lia|].
      destruct (EPOCHS_getitem_inside (Z.min (q + 1) 6)) as (e2 & ->);
        [lia|].
      unfold lerp, float_op. cbn [bind]. eexists. reflexivity.
Qed.

(** A level outside the table has no parameters. *)
Lemma get_epoch_params_outside (k : Z) :
  k < 0 \/ 6 < k -> get_epoch_params (PyInt k) = None.
Proof.
  intros Hk. unfold get_epoch_params, EPOCHS_get. cbn [int_key].
  now rewrite EPOCHS_lookup_outside.
Qed.

Lemma get_epoch_params_inside (k : Z) :
  0 <= k <= 6 -> exists e, EPOCHS !! k = Some e /\
                           get_epoch_params (PyInt k) = Some (visual e).
Proof.
  intros Hk. unfold get_epoch_params, EPOCHS_get. cbn [int_key].
  destruct (EPOCHS_lookup_inside k Hk) as (e & He & _).
  exists e. now rewrite He.
Qed.

(** C3. The interpolator agrees with the table at the integer levels: at
    every int level [k] from 0 to 6, and at the float of that value, it
    returns the parameters of epoch [k] field for field; at every level
    at most 0 it returns the parameters of epoch 0, and at every level at
    least 6 those of epoch 6, so that [interpolate_epochs(-5)] is
    [interpolate_epochs(0)] and [interpolate_epochs(100)] is
    [interpolate_epochs(6)]. *)
Theorem interpolate_epochs_agrees_with_table :
  (forall (k : Z) (e : Epoch),
     0 <= k <= 6 -> EPOCHS !! k = Some e ->
     interpolate_epochs (PyInt k) = Ok (visual e) /\
     interpolate_epochs (PyFloat (Z2float k)) = Ok (visual e)) /\
  (forall level : pynum,
     py_le level (PyInt 0) = true ->
     interpolate_epochs level = Ok (visual epoch0)) /\
  (forall level : pynum,
     py_ge level (PyInt 6) = true ->
     interpolate_epochs level = Ok (visual epoch6)) /\
  interpolate_epochs (PyInt (-5)) = interpolate_epochs (PyInt 0) /\
  interpolate_epochs (PyFloat (dec (-50) 1)) = interpolate_epochs (PyInt 0) /\
  interpolate_epochs (PyInt 100) = interpolate_epochs (PyInt 6) /\
  interpolate_epochs (PyFloat (dec 1000 1)) = interpolate_epochs (PyInt 6).
Proof.
  split; [|split; [|split]].
  - intros k e Hk He. split.
    + now apply interpolate_epochs_int.
    + now apply interpolate_epochs_float.
  - exact interpolate_epochs_low.
  - exact interpolate_epochs_high.
  - split; [|split; [|split]].
    + now rewrite !interpolate_epochs_low.
    + now rewrite !interpolate_epochs_low.
    + now rewrite !interpolate_epochs_high.
    + now rewrite !interpolate_epochs_high.
Qed.

Lemma interpolate_epochs_agrees_with_table_witness :
  interpolate_epochs (PyInt 3) = Ok (visual epoch3) /\
  interpolate_epochs (PyFloat (Z2float 3)) = Ok (visual epoch3) /\
  interpolate_epochs (PyFloat (dec (-25) 1)) = Ok (visual epoch0) /\
  interpolate_epochs (PyFloat (dec 65 1)) = Ok (visual epoch6).
Proof.
  destruct interpolate_epochs_agrees_with_table as (Hk & Hlow & Hhigh & _).
  split; [|split; [|split]].
  - apply (Hk 3 epoch3); [lia | reflexivity].
  - apply (Hk 3 epoch3); [lia | reflexivity].
  - apply Hlow. reflexivity.
  - apply Hhigh. reflexivity.
Defined.

(** C4. The lookup returns an epoch exactly at the levels equal to an int
    from 0 to 6; the epoch returned is the one of that level, with a
    non-empty name and description and seven parameters that are numbers;
    at every other level, such as -1, 7 and 3.5, it returns [None]. The
    lookup is a total function: it raises at no level, and a level out of
    range is not clamped into range. *)
Theorem get_epoch_by_level_defined_iff (level : pynum) :
  (is_Some (get_epoch_by_level level) <->
   exists k : Z, 0 <= k <= 6 /\ py_eq level (PyInt k) = true) /\
  (forall e : Epoch,
     get_epoch_by_level level = Some e ->
     py_eq level (PyInt (Epochs.level e)) = true /\
     name e <> EmptyString /\ name_en e <> EmptyString /\
     description e <> EmptyString /\ description_en e <> EmptyString /\
     populated (visual e) = true) /\
  get_epoch_by_level (PyInt (-1)) = None /\
  get_epoch_by_level (PyInt 7) = None /\
  get_epoch_by_level (PyFloat (dec 35 1)) = None.
Proof.
  unfold get_epoch_by_level, EPOCHS_get. split; [|split].
  - split.
    + intros [e He]. destruct (int_key level) as [k|] eqn:Hkey;
        [|discriminate].
      apply EPOCHS_lookup_Some in He. destruct He as [Hk _].
      exists k. split; [exact Hk|]. now apply int_key_eq.
    + intros (k & Hk & Heq). apply int_key_eq in Heq. rewrite Heq.
      destruct (EPOCHS_lookup_inside k Hk) as (e & -> & _). eauto.
  - intros e He. destruct (int_key level) as [k|] eqn:Hkey; [|discriminate].
    destruct (EPOCHS_lookup_Some k e He) as [Hk Hl].
    split; [rewrite Hl; now apply int_key_eq|].
    int_0_6 Hk; vm_compute in He; inversion He; subst e;
      repeat split; try discriminate; reflexivity.
  - repeat split.
Qed.

Lemma get_epoch_by_level_defined_iff_witness :
  is_Some (get_epoch_by_level (PyFloat (Z2float 3))) /\
  (forall e : Epoch,
     get_epoch_by_level (PyInt 6) = Some e -> name e <> EmptyString).
Proof.
  split.
  - destruct (get_epoch_by_level_defined_iff (PyFloat (Z2float 3)))
      as ((_ & Hdef) & _).
    apply Hdef. exists 3. split; [lia | reflexivity].
  - intros e He.
    destruct (get_epoch_by_level_defined_iff (PyInt 6)) as (_ & Hfields & _).
    destruct (Hfields e He) as (_ & Hname & _). exact Hname.
Defined.

End EpochsFacts.

(** ** The soundscape generator *)

Module SoundFacts.
Import Py.
Import Sound.
Import Notions.
Import PyFacts.
Import EpochsFacts.

(** The soundscape of a level whose conversion to a float succeeds. *)
Lemma generate_Ok (language : string) (level : Z) (f : float) :
  float_of_int level = Ok f ->
  generate language level =
  Ok {| epoch_level := Epochs.level (epoch_or_default level);
        epoch_name := if String.eqb language "fr"
                      then Epochs.name (epoch_or_default level)
                      else Epochs.name_en (epoch_or_default level);
        period := Epochs.period (epoch_or_default level);
        elements := if String.eqb language "fr"
                    then Epochs.soundscape (epoch_or_default level)
                    else Epochs.soundscape_en (epoch_or_default level);
        audio_prompt :=
          _enhance_prompt (Epochs.audio_prompt (epoch_or_default level)) level;
        intensity := scalar (dec 12 2) f;
        clarity := scalar (dec 15 2) f |}.
Proof.
  intros Hf. unfold generate, int_mul_float, Epochs.EPOCHS_get,
    epoch_or_default, scalar.
  cbn [int_key]. rewrite Hf. cbn [bind].
  destruct (Epochs.EPOCHS !! level) as [epoch|]; reflexivity.
Qed.

(** The conversion of the level is the only step that can raise. *)
Lemma generate_Raise (language : string) (level : Z) (e : exn) :
  float_of_int level = Raise e -> generate language level = Raise e.
Proof.
  intros Hf. unfold generate, int_mul_float, Epochs.EPOCHS_get.
  cbn [int_key]. rewrite Hf.
  destruct (Epochs.EPOCHS !! level) as [epoch|]; reflexivity.
Qed.

Lemma append_assoc (a b c : string) :
  ((a ++ b) ++ c = a ++ (b ++ c))%string.
Proof.
  induction a as [|ch a IH]; [reflexivity|].
  change (String ch ((a ++ b) ++ c) = String ch (a ++ (b ++ c)))%string.
  f_equal. exact IH.
Qed.

(** The two numeric hints are written into the prompt. *)
Lemma _enhance_prompt_hints (base_prompt : string) (level : Z) :
  exists pre post : string,
    _enhance_prompt base_prompt level =
    (pre ++ "reverb " ++ str (Z.min (level * 15) 80)
         ++ "%, low-pass filter at "
         ++ str (Z.max (20000 - level * 3000) 2000) ++ "Hz" ++ post)%string.
Proof.
  unfold _enhance_prompt.
  set (quality := if level =? 0 then _ else _).
  exists (base_prompt ++ ". " ++ "Audio quality: " ++ quality ++ ". "
            ++ "Processing: ")%string,
         ", slight tape hiss and analog warmth."%string.
  rewrite !append_assoc. reflexivity.
Qed.

(** The scalars do not increase from one table level to a later one, and
    stay at or above 0.1. *)
Lemma scalar_monotone (a b : Z) :
  0 <= a <= 6 -> 0 <= b <= 6 -> a <= b ->
  fleb (scalar (dec 12 2) (Z2float b)) (scalar (dec 12 2) (Z2float a)) = true /\
  fleb (scalar (dec 15 2) (Z2float b)) (scalar (dec 15 2) (Z2float a)) = true.
Proof.
  intros Ha Hb Hab. int_0_6 Ha; int_0_6 Hb; try lia;
    split; vm_compute; reflexivity.
Qed.

Lemma scalar_floor (c f : float) : fleb (dec 1 1) (scalar c f) = true.
Proof.
  unfold scalar, float_max.
  destruct (fltb (dec 1 1) (fsub (dec 10 1) (fmul f c))) eqn:Hlt.
  - now apply fltb_fleb.
  - reflexivity.
Qed.

(** C9. At every int level from 0 to 6 the soundscape is generated, with
    intensity [max(0.1, 1 - level*0.12)] and clarity
    [max(0.1, 1 - level*0.15)]; its prompt contains the text of the reverb
    percentage [min(level*15, 80)] and of the low-pass cutoff
    [max(20000 - level*3000, 2000)] Hz; intensity and clarity are at
    least 0.1 and do not increase when the level increases. *)
Theorem generate_scalars_and_hints (language : string) (level : Z) :
  0 <= level <= 6 ->
  exists s : Soundscape,
    generate language level = Ok s /\
    intensity s =
      float_max (dec 1 1) (fsub (dec 10 1) (fmul (Z2float level) (dec 12 2))) /\
    clarity s =
      float_max (dec 1 1) (fsub (dec 10 1) (fmul (Z2float level) (dec 15 2))) /\
    (exists pre post : string,
       audio_prompt s =
       (pre ++ "reverb " ++ str (Z.min (level * 15) 80)
            ++ "%, low-pass filter at "
            ++ str (Z.max (20000 - level * 3000) 2000) ++ "Hz" ++ post)%string) /\
    fleb (dec 1 1) (intensity s) = true /\
    fleb (dec 1 1) (clarity s) = true /\
    (forall (level' : Z) (s' : Soundscape),
       level <= level' <= 6 -> generate language level' = Ok s' ->
       fleb (intensity s') (intensity s) = true /\
       fleb (clarity s') (clarity s) = true).
Proof.
  intros Hl.
  pose proof (generate_Ok language level _ (float_of_int_small level Hl))
    as Hgen.
  eexists. split; [exact Hgen|]. cbn [intensity clarity audio_prompt].
  split; [reflexivity|]. split; [reflexivity|].
  split; [apply _enhance_prompt_hints|].
  split; [apply scalar_floor|]. split; [apply scalar_floor|].
  intros level' s' Hl' Hgen'.
  rewrite (generate_Ok language level' (Z2float level')) in Hgen'
    by (apply float_of_int_small; lia).
  inversion Hgen'; subst s'. cbn [intensity clarity].
  apply scalar_monotone; lia.
Qed.

Lemma generate_scalars_and_hints_witness :
  exists s : Soundscape,
    generate "en" 3 = Ok s /\
    intensity s = dec 64 2 /\
    (exists pre post : string,
       audio_prompt s =
       (pre ++ "reverb 45%, low-pass filter at 11000Hz" ++ post)%string).
Proof.
  destruct (generate_scalars_and_hints "en" 3) as (s & Hs & Hi & _ & Hp & _);
    [lia|].
  exists s. split; [exact Hs|]. split; [rewrite Hi; reflexivity|].
  destruct Hp as (pre & post & Hp). exists pre, post. rewrite Hp.
  reflexivity.
Defined.

(** C8, as stated, fails at level 3: the exported dict has no key
    ["level"], ["name"] or ["prompt"]. *)
Lemma to_dict_keys_counterexample :
  exists d : list (string * value),
    to_dict "en" 3 = Ok d /\
    keys d <> documented_keys /\
    ~ In "level"%string (keys d) /\
    ~ In "name"%string (keys d) /\
    ~ In "prompt"%string (keys d).
Proof.
  eexists. split; [vm_compute; reflexivity|].
  cbn [keys map fst]. unfold documented_keys.
  split; [discriminate|].
  repeat split; intros Hin; cbn [In] in Hin;
    repeat (destruct Hin as [Hin|Hin]; [discriminate|]); exact Hin.
Qed.

(** C8, amended. At every int level from 0 to 6 the exported dict has
    exactly the keys [epoch_level] (an int), [epoch_name] (a string),
    [period] (a string), [elements] (a list of strings), [audio_prompt]
    (a string), [intensity] and [clarity] (floats), in this order. *)
Theorem to_dict_keys (language : string) (level : Z) :
  0 <= level <= 6 ->
  exists (d : list (string * value)) (s : Soundscape),
    generate language level = Ok s /\
    to_dict language level = Ok d /\
    keys d = [ "epoch_level"; "epoch_name"; "period"; "elements";
               "audio_prompt"; "intensity"; "clarity" ]%string /\
    d = [ ("epoch_level", VInt (epoch_level s));
          ("epoch_name", VStr (epoch_name s));
          ("period", VStr (period s));
          ("elements", VList (elements s));
          ("audio_prompt", VStr (audio_prompt s));
          ("intensity", VFloat (intensity s));
          ("clarity", VFloat (clarity s)) ]%string.
Proof.
  intros Hl.
  pose proof (generate_Ok language level _ (float_of_int_small level Hl))
    as Hgen.
  eexists. eexists. split; [exact Hgen|].
  unfold to_dict. rewrite Hgen. cbn [bind].
  split; [reflexivity|]. split; reflexivity.
Qed.

Lemma to_dict_keys_witness :
  exists d : list (string * value),
    to_dict "fr" 2 = Ok d /\
    keys d = [ "epoch_level"; "epoch_name"; "period"; "elements";
               "audio_prompt"; "intensity"; "clarity" ]%string.
Proof.
  destruct (to_dict_keys "fr" 2) as (d & s & _ & Hd & Hk & _); [lia|].
  exists d. split; [exact Hd | exact Hk].
Defined.

(** C10, as stated, fails at the level [2^1024]: the int does not convert
    to a float and [generate] raises. *)
Lemma generate_outside_counterexample :
  6 < 2 ^ 1024 /\
  generate "fr" (2 ^ 1024) = Raise OverflowError /\
  ~ (exists s : Soundscape, generate "fr" (2 ^ 1024) = Ok s).
Proof.
  assert (H : generate "fr" (2 ^ 1024) = Raise OverflowError)
    by (vm_compute; reflexivity).
  split; [reflexivity|]. split; [exact H|].
  intros [s Hs]. rewrite H in Hs. discriminate.
Qed.

(** C10, amended. At every int level outside 0..6 that converts to a
    float, [generate] returns a soundscape whose level, name, period and
    elements are those of epoch 0, while prompt, intensity and clarity are
    computed from the requested level: [generate(10)] has intensity and
    clarity 0.1, [generate(-1)] has intensity 1.12 and clarity 1.15, both
    above 1. When the conversion raises, so does [generate]. *)
Theorem generate_outside_table (language : string) (level : Z) :
  level < 0 \/ 6 < level ->
  (forall f : float,
     float_of_int level = Ok f ->
     generate language level =
     Ok {| epoch_level := 0;
           epoch_name := if String.eqb language "fr"
                         then Epochs.name Epochs.epoch0
                         else Epochs.name_en Epochs.epoch0;
           period := Epochs.period Epochs.epoch0;
           elements := if String.eqb language "fr"
                       then Epochs.soundscape Epochs.epoch0
                       else Epochs.soundscape_en Epochs.epoch0;
           audio_prompt :=
             _enhance_prompt (Epochs.audio_prompt Epochs.epoch0) level;
           intensity :=
             float_max (dec 1 1) (fsub (dec 10 1) (fmul f (dec 12 2)));
           clarity :=
             float_max (dec 1 1) (fsub (dec 10 1) (fmul f (dec 15 2))) |}) /\
  (forall e : exn,
     float_of_int level = Raise e -> generate language level = Raise e) /\
  (exists s : Soundscape,
     generate language 10 = Ok s /\ epoch_level s = 0 /\
     intensity s = dec 1 1 /\ clarity s = dec 1 1) /\
  (exists s : Soundscape,
     generate language (-1) = Ok s /\ epoch_level s = 0 /\
     intensity s = dec 112 2 /\ clarity s = dec 115 2 /\
     fltb (dec 10 1) (intensity s) = true /\
     fltb (dec 10 1) (clarity s) = true).
Proof.
  intros Hout. split; [|split; [|split]].
  - intros f Hf. rewrite (generate_Ok language level f Hf).
    unfold epoch_or_default. rewrite EPOCHS_lookup_outside by exact Hout.
    reflexivity.
  - intros e. apply generate_Raise.
  - eexists. split.
    + apply (generate_Ok language 10 (Z2float 10)). reflexivity.
    + cbn [epoch_level intensity clarity]. repeat split.
  - eexists. split.
    + apply (generate_Ok language (-1) (Z2float (-1))). reflexivity.
    + cbn [epoch_level intensity clarity]. repeat split.
Qed.

Lemma generate_outside_table_witness :
  generate "en" 7 =
  Ok {| epoch_level := 0;
        epoch_name := "Present";
        period := "2020-2025";
        elements := Epochs.soundscape_en Epochs.epoch0;
        audio_prompt :=
          _enhance_prompt (Epochs.audio_prompt Epochs.epoch0) 7;
        intensity := fsub (dec 10 1) (fmul (Z2float 7) (dec 12 2));
        clarity := dec 1 1 |}.
Proof.
  destruct (generate_outside_table "en" 7) as (H & _); [lia|].
  rewrite (H (Z2float 7)) by reflexivity.
  vm_compute. reflexivity.
Defined.

End SoundFacts.

(** ** Arrays *)

Module ArrayFacts.
Import Py.
Import Visual.

Lemma lookup_map {A B : Type} (f : A -> B) (l : list A) (i : nat) :
  map f l !! i = option_map f (l !! i).
Proof.
  revert i. induction l as [|a l IH]; intros [|i]; cbn; auto.
Qed.

Lemma lookup_zip_with_Some {A B C : Type} (f : A -> B -> C)
    (l : list A) (k : list B) (i : nat) (a : A) (b : B) :
  l !! i = Some a -> k !! i = Some b -> zip_with f l k !! i = Some (f a b).
Proof.
  revert k i. induction l as [|a' l IH]; intros [|b' k] [|i] Ha Hb;
    cbn in *; try discriminate.
  - congruence.
  - now apply IH.
Qed.

Lemma aget_amap {A B : Type} (f : A -> B) (a : array A) (y x : nat) :
  aget (amap f a) y x = option_map f (aget a y x).
Proof.
  unfold aget, amap. rewrite lookup_map.
  destruct (a !! y) as [row|]; cbn; [apply lookup_map | reflexivity].
Qed.

Lemma aget_amap2 {A B C : Type} (f : A -> B -> C) (a : array A) (b : array B)
    (y x : nat) (u : A) (v : B) :
  aget a y x = Some u -> aget b y x = Some v ->
  aget (amap2 f a b) y x = Some (f u v).
Proof.
  unfold aget, amap2. intros Ha Hb.
  destruct (a !! y) as [ra|] eqn:Hra; [|discriminate].
  destruct (b !! y) as [rb|] eqn:Hrb; [|discriminate].
  rewrite (lookup_zip_with_Some _ a b y ra rb Hra Hrb).
  now apply lookup_zip_with_Some.
Qed.

Lemma shape_amap {A B : Type} (f : A -> B) (a : array A) :
  shape (amap f a) = shape a.
Proof.
  unfold shape, amap. rewrite length_map.
  destruct a as [|row a]; cbn [hd map]; [reflexivity|].
  now rewrite length_map.
Qed.

(** An elementwise operation keeps the shape of its first argument when
    the second has as many rows and as long a first row. *)
Lemma shape_amap2 {A B C : Type} (f : A -> B -> C) (a : array A)
    (b : array B) :
  shape b = shape a -> shape (amap2 f a b) = shape a.
Proof.
  unfold shape, amap2. intros Hs. inversion Hs as [[Hlen Hhd]].
  rewrite length_zip_with, Hlen, Nat.min_id.
  destruct a as [|ra a], b as [|rb b]; cbn [hd zip_with] in *;
    try discriminate; [reflexivity|].
  now rewrite length_zip_with, Hhd, Nat.min_id.
Qed.

(** Multiplication of floats is commutative, in every format. *)
Lemma SFmul_comm (p e : Z) (x y : float) : SFmul p e x y = SFmul p e y x.
Proof.
  destruct x as [sx|sx| |sx mx ex], y as [sy|sy| |sy my ey];
    cbn [SFmul]; rewrite ?(xorb_comm sx sy); try reflexivity.
  now rewrite (Pos.mul_comm mx my), (Z.add_comm ex ey).
Qed.

Lemma fmul_comm (x y : float) : fmul x y = fmul y x.
Proof. apply SFmul_comm. Qed.

Lemma f32mul_comm (x y : float) : f32mul x y = f32mul y x.
Proof. apply SFmul_comm. Qed.

End ArrayFacts.

(** ** The pipeline *)

Module VisualFacts.
Import Py.
Import Epochs.
Import Visual.
Import Notions.
Import Plan.
Import SepiaSpec.
Import PyFacts.
Import EpochsFacts.
Import ArrayFacts.

(** The five parameters whose stage runs above 0 are not negative in the
    records of the table. *)
Lemma table_params_sign (k : Z) (e : Epoch) (s : stage) :
  EPOCHS !! k = Some e -> stage_scales s = false ->
  has_sign false (param (visual e) s) = true.
Proof.
  intros He Hs. destruct (EPOCHS_lookup_Some k e He) as [Hk _].
  int_0_6 Hk; vm_compute in He; inversion He; subst e;
    destruct s; try discriminate; vm_compute; reflexivity.
Qed.

(** Two neighbours of the table: the parameters of the lower one are not
    negative, and those of the upper one are greater. *)
Lemma EPOCHS_neighbours (q : Z) :
  0 <= q <= 5 ->
  exists e1 e2 : Epoch,
    EPOCHS_getitem q = Ok e1 /\ EPOCHS_getitem (Z.min (q + 1) 6) = Ok e2 /\
    forall s : stage,
      stage_scales s = false ->
      has_sign false (param (visual e1) s) = true /\
      positive_number (fsub (param (visual e2) s) (param (visual e1) s)) = true.
Proof.
  intros Hq.
  assert (Hc : q = 0 \/ q = 1 \/ q = 2 \/ q = 3 \/ q = 4 \/ q = 5) by lia.
  destruct Hc as [->|[->|[->|[->|[->| ->]]]]];
    [exists epoch0, epoch1 | exists epoch1, epoch2 | exists epoch2, epoch3
    | exists epoch3, epoch4 | exists epoch4, epoch5 | exists epoch5, epoch6];
    (split; [reflexivity|]; split; [reflexivity|]);
    intros s Hs; destruct s; try discriminate; split; vm_compute; reflexivity.
Qed.

Lemma interpolate_epochs_sign (level : pynum) (p : VisualParams) (s : stage) :
  interpolate_epochs level = Ok p -> stage_scales s = false ->
  has_sign false (param p s) = true.
Proof.
  intros Hp Hs.
  assert (Htable : forall k e, EPOCHS !! k = Some e ->
             interpolate_epochs level = Ok (visual e) ->
             has_sign false (param p s) = true).
  { intros k e He Hv. rewrite Hv in Hp. inversion Hp; subst p.
    now apply (table_params_sign k). }
  unfold interpolate_epochs in Hp, Htable.
  change (py_max (PyInt 0) (py_min (PyInt 6) level)) with (clamp06 level)
    in Hp, Htable.
  destruct (clamp06_cases level) as [H|[H|(H & Hgt & Hlt)]];
    rewrite H in Hp, Htable.
  - apply (Htable 0 epoch0); [reflexivity | vm_compute; reflexivity].
  - apply (Htable 6 epoch6); [reflexivity | vm_compute; reflexivity].
  - destruct level as [z|f].
    + assert (Hz : 0 <= z <= 6).
      { unfold py_gt, py_lt in *. cbn [py_compare] in *.
        destruct (Z.compare_spec z 0); try discriminate.
        destruct (Z.compare_spec z 6); try discriminate. lia. }
      destruct (EPOCHS_lookup_inside z Hz) as (e & He & _).
      apply (Htable z e He).
      int_0_6 Hz; vm_compute in He; inversion He; subst e; vm_compute;
        reflexivity.
    + clear Htable.
      destruct (float_trunc_inside f Hgt Hlt) as (q & Hq & Hrange).
      pose proof (py_gt_0_sign f Hgt) as Hsign.
      assert (Ht : has_sign false (fsub f (Z2float q)) = true).
      { destruct f as [sf|sf| |sf m e]; try discriminate.
        cbn [has_sign] in Hsign. apply eqb_prop in Hsign. subst sf.
        now apply fsub_trunc_sign. }
      cbn [py_int] in Hp. rewrite Hq in Hp. cbn [bind] in Hp.
      unfold py_sub, py_arith in Hp.
      rewrite float_of_int_small in Hp by lia. cbn [bind] in Hp.
      destruct (EPOCHS_neighbours q Hrange) as (e1 & e2 & He1 & He2 & Hn).
      rewrite He1, He2 in Hp. unfold lerp, float_op in Hp. cbn [bind] in Hp.
      injection Hp as Hp. subst p.
      destruct (Hn s Hs) as [Ha Hd].
      destruct s; try discriminate; cbn [param sepia blur noise vignette fade]
        in *; now apply lerp_sign.
Qed.

Section Pipeline.
Context {pil : PIL} {np : NumPy}.

Lemma shape_np_array_f32 (image : RGBImage) :
  shape (np_array_f32 image) = shape image.
Proof. apply shape_amap. Qed.

Lemma _apply_sepia_shape (image : RGBImage) (intensity : float) :
  shape (_apply_sepia image intensity) = shape image.
Proof.
  unfold _apply_sepia. cbv zeta.
  rewrite shape_amap, shape_amap2;
    rewrite ?shape_amap, ?matmul_shape, ?shape_amap, ?shape_np_array_f32;
    reflexivity.
Qed.

Lemma _apply_fade_shape (image : RGBImage) (intensity : float) :
  shape (_apply_fade image intensity) = shape image.
Proof.
  unfold _apply_fade. cbv zeta. now rewrite !shape_amap, shape_np_array_f32.
Qed.

Lemma normal_row_length (loc scale : float) (w : nat) (g : RandomState) :
  length (fst (normal_row loc scale w g)) = w.
Proof.
  revert g. induction w as [|w IH]; intros g; cbn [normal_row];
    [reflexivity|].
  destruct (random_normal loc scale g) as [r g1].
  destruct (random_normal loc scale g1) as [gr g2].
  destruct (random_normal loc scale g2) as [b g3].
  specialize (IH g3). destruct (normal_row loc scale w g3) as [ps g4].
  cbn [fst length] in *. now rewrite IH.
Qed.

Lemma normal_array_shape (loc scale : float) (h w : nat) (g : RandomState) :
  shape (fst (normal_array loc scale h w g)) =
  (h, match h with O => O | S _ => w end).
Proof.
  assert (Hlen : forall h g, length (fst (normal_array loc scale h w g)) = h).
  { clear. intros h. induction h as [|h IH]; intros g; cbn [normal_array];
      [reflexivity|].
    destruct (normal_row loc scale w g) as [row g1].
    specialize (IH g1). destruct (normal_array loc scale h w g1) as [rows g2].
    cbn [fst length] in *. now rewrite IH. }
  unfold shape. rewrite Hlen. f_equal.
  destruct h as [|h]; cbn [normal_array]; [reflexivity|].
  pose proof (normal_row_length loc scale w g) as Hrow.
  destruct (normal_row loc scale w g) as [row g1].
  destruct (normal_array loc scale h w g1) as [rows g2].
  exact Hrow.
Qed.

(** The noise stage returns when the sign bit of the scale is clear, and
    raises when it is set. *)
Lemma _apply_noise_shape (image : RGBImage) (intensity : float)
    (g : RandomState) :
  sign_bit (fmul intensity (Z2float 50)) = false ->
  exists (out : RGBImage) (g' : RandomState),
    _apply_noise image intensity g = Ok (out, g') /\
    shape out = shape image.
Proof.
  intros Hsign. unfold _apply_noise.
  pose proof (shape_np_array_f32 image) as Hs.
  destruct (shape (np_array_f32 image)) as [h w] eqn:Hshape.
  unfold mbind, np_random_normal, ret. rewrite Hsign.
  pose proof (normal_array_shape (Z2float 0) (fmul intensity (Z2float 50))
                h w g) as Hn.
  destruct (normal_array (Z2float 0) (fmul intensity (Z2float 50)) h w g)
    as [noise g'].
  eexists. eexists. split; [reflexivity|].
  rewrite shape_amap, shape_amap2; [now rewrite Hshape|].
  cbn [fst] in Hn. rewrite Hn, Hshape. f_equal.
  destruct h as [|h]; [|reflexivity].
  unfold shape in Hshape. inversion Hshape as [[Hlen Hw]].
  destruct (np_array_f32 image); [reflexivity | discriminate].
Qed.

Lemma _apply_noise_Raise (image : RGBImage) (intensity : float)
    (g : RandomState) :
  sign_bit (fmul intensity (Z2float 50)) = true ->
  _apply_noise image intensity g = Raise ValueError.
Proof.
  intros Hsign. unfold _apply_noise.
  destruct (shape (np_array_f32 image)) as [h w].
  unfold mbind, np_random_normal. now rewrite Hsign.
Qed.

(** The scale of the noise has the sign of the intensity. *)
Lemma noise_scale_sign (intensity : float) (s : bool) :
  has_sign s intensity = true ->
  sign_bit (fmul intensity (Z2float 50)) = s.
Proof.
  intros Hs. apply has_sign_sign_bit.
  pose proof (SFmul_sign prec emax s false intensity (Z2float 50) Hs
                eq_refl) as H.
  rewrite xorb_false_r in H.
  destruct intensity as [s'|s'| |s' m e]; exact H.
Qed.

Lemma _apply_vignette_shape (image : RGBImage) (intensity : float) :
  shape (_apply_vignette image intensity) = shape image.
Proof.
  unfold _apply_vignette, size.
  destruct (shape image) as [h w] eqn:Hshape.
  rewrite shape_amap, shape_amap2; [now rewrite shape_np_array_f32|].
  rewrite !shape_amap, shape_amap2.
  - rewrite shape_amap, shape_np_array_f32, Hshape.
    unfold shape. rewrite length_map, linspace_length. f_equal.
    destruct (linspace (Z2float (-1)) (Z2float 1) h) as [|y0 ys] eqn:Hy.
    + pose proof (linspace_length (Z2float (-1)) (Z2float 1) h) as Hl.
      rewrite Hy in Hl. cbn in Hl. subst h.
      unfold shape in Hshape. inversion Hshape as [[Hlen Hw]].
      destruct image; [reflexivity | discriminate].
    + cbn [map hd]. apply linspace_length.
  - rewrite !shape_amap. unfold shape. rewrite !length_map. f_equal.
    destruct (linspace (Z2float (-1)) (Z2float 1) h); cbn [map hd];
      [reflexivity|]. now rewrite length_map.
Qed.

(** Every stage whose guard is open returns an image of the shape of its
    argument. *)
Lemma run_stage_shape (p : VisualParams) (s : stage) (im : RGBImage)
    (g : RandomState) :
  guard p s = true ->
  exists (out : RGBImage) (g' : RandomState),
    run_stage p s im g = Ok (out, g') /\ shape out = shape im.
Proof.
  intros Hg.
  destruct s; cbn [run_stage];
    try (apply _apply_noise_shape, (noise_scale_sign _ false), py_gt_0_sign,
           Hg);
    unfold ret; eexists; eexists; (split; [reflexivity|]).
  - apply GaussianBlur_shape.
  - apply _apply_sepia_shape.
  - apply Color_enhance_shape.
  - apply Contrast_enhance_shape.
  - apply _apply_vignette_shape.
  - apply _apply_fade_shape.
Qed.

Lemma run_stages_shape (p : VisualParams) (l : list stage) (im : RGBImage)
    (g : RandomState) :
  (forall s, List.In s l -> guard p s = true) ->
  exists (out : RGBImage) (g' : RandomState),
    run_stages p l im g = Ok (out, g') /\ shape out = shape im.
Proof.
  revert im g. induction l as [|s l IH]; intros im g Hl; cbn [run_stages].
  - unfold ret. eauto.
  - destruct (run_stage_shape p s im g) as (mid & g1 & Hs & Hshape);
      [apply Hl; now left|].
    destruct (IH mid g1) as (out & g2 & Hrun & Hshape');
      [intros s' Hs'; apply Hl; now right|].
    exists out, g2. unfold mbind. rewrite Hs. split; [exact Hrun|].
    now rewrite Hshape'.
Qed.

Lemma to_RGB_size (image : Image) :
  size (ImageRGB (to_RGB image)) = size image.
Proof. destruct image; cbn [to_RGB]; auto using convert_RGB_size. Qed.

(** The pipeline of the stages the guards keep returns an RGB image of
    the size of its input. *)
Lemma pipeline_Ok (p : VisualParams) (image : Image) (g : RandomState) :
  exists (out : RGBImage) (g' : RandomState),
    pipeline (guard p) p image g = Ok (ImageRGB out, g') /\
    size (ImageRGB out) = size image.
Proof.
  unfold pipeline.
  destruct (run_stages_shape p (List.filter (guard p) stage_order)
              (to_RGB image) g) as (out & g' & Hrun & Hshape).
  { intros s Hs. apply filter_In in Hs. apply Hs. }
  exists out, g'. unfold mbind, ret. rewrite Hrun. split; [reflexivity|].
  rewrite <- (to_RGB_size image). unfold size. now rewrite Hshape.
Qed.

Lemma mbind_lift_Ok {A B : Type} (a : A) (k : A -> M B) (g : RandomState) :
  mbind (lift (Ok a)) k g = k a g.
Proof. reflexivity. Qed.

(** [process] with given parameters is the pipeline of the stages its
    guards keep. *)
Lemma process_plan (image : Image) (level : pynum) (p : VisualParams)
    (g : RandomState) :
  process image level (Some p) g = pipeline (guard p) p image g.
Proof.
  unfold process, pipeline, resolve_params, stage_order.
  rewrite mbind_lift_Ok. cbv zeta.
  cbn [List.filter guard param].
  change (match image with ImageRGB im => im | _ => convert_RGB image end)
    with (to_RGB image).
  destruct (py_gt (PyFloat (blur p)) (PyInt 0));
  destruct (py_gt (PyFloat (sepia p)) (PyInt 0));
  destruct (py_ne (PyFloat (saturation p)) (PyFloat (dec 10 1)));
  destruct (py_ne (PyFloat (contrast p)) (PyFloat (dec 10 1)));
  destruct (py_gt (PyFloat (noise p)) (PyInt 0));
  destruct (py_gt (PyFloat (vignette p)) (PyInt 0));
  destruct (py_gt (PyFloat (fade p)) (PyInt 0));
  cbn [run_stages run_stage]; unfold mbind, ret, lift;
  try reflexivity;
  match goal with
  | |- context [_apply_noise ?im ?n g] =>
      destruct (_apply_noise im n g) as [[? ?]|?]; reflexivity
  end.
Qed.

(** A float that is equal to an int truncates to it. *)
Lemma float_trunc_integral (f : float) (k : Z) :
  float_integral f = Some k -> float_trunc f = Ok k.
Proof.
  destruct f as [s|s| |s m e]; cbn [float_integral float_trunc];
    try discriminate.
  - intros H. inversion H. reflexivity.
  - destruct (Z.leb_spec 0 e) as [He|He].
    + intros H. inversion H. f_equal. unfold signed.
      destruct s; [|reflexivity].
      change (Z.neg m) with (- Z.pos m). symmetry. apply Z.mul_opp_l.
    + assert (Hd : 0 < 2 ^ (- e)) by (apply pow2_pos; lia).
      destruct (Z.eqb_spec (Z.pos m mod 2 ^ (- e)) 0) as [Hz|Hz];
        [|discriminate].
      intros H. inversion H. f_equal. unfold signed.
      destruct s; [|reflexivity].
      change (Z.neg m) with (- Z.pos m). symmetry.
      apply Z.div_opp_l_z; [lia|exact Hz].
Qed.

(** A level is a float with a fractional part (a NaN and the infinities
    included), or is equal to an int. *)
Lemma level_cases (level : pynum) :
  (fractional level = true /\ int_key level = None) \/
  (exists k : Z,
     fractional level = false /\ int_key level = Some k /\
     py_int level = Ok k).
Proof.
  destruct level as [z|f]; cbn [fractional int_key py_int].
  - right. eauto.
  - destruct (float_integral f) as [k|] eqn:Hk.
    + right. exists k. split; [|split; [reflexivity|]].
      * destruct (float_mod1_ne0 f) eqn:Hm; [|reflexivity].
        apply float_mod1_ne0_integral in Hm. congruence.
      * now apply float_trunc_integral.
    + left. split; [now apply float_mod1_ne0_integral | reflexivity].
Qed.

(** With no parameters given, a fractional level is interpolated. *)
Lemma process_fractional (image : Image) (level : pynum) (g : RandomState) :
  fractional level = true ->
  exists p : VisualParams,
    interpolate_epochs level = Ok p /\
    process image level None g = pipeline (guard p) p image g.
Proof.
  intros Hfrac. destruct (interpolate_epochs_total level) as [p Hp].
  exists p. split; [exact Hp|]. rewrite <- (process_plan image level).
  unfold process, resolve_params. rewrite Hfrac, Hp. reflexivity.
Qed.

(** With no parameters given, a level equal to an int is looked up. *)
Lemma process_integral (image : Image) (level : pynum) (k : Z)
    (g : RandomState) :
  fractional level = false -> py_int level = Ok k ->
  process image level None g =
  match get_epoch_params (PyInt k) with
  | Some p => pipeline (guard p) p image g
  | None => Ok (image, g)
  end.
Proof.
  intros Hfrac Hint.
  destruct (get_epoch_params (PyInt k)) as [p|] eqn:Hp.
  - rewrite <- (process_plan image level).
    unfold process, resolve_params. rewrite Hfrac, Hint. cbn [bind].
    now rewrite Hp.
  - unfold process, resolve_params. rewrite Hfrac, Hint. cbn [bind].
    now rewrite Hp.
Qed.

(** A level equal to an int outside 0..6 leaves the image as it is. *)
Lemma process_outside (image : Image) (level : pynum) (k : Z)
    (g : RandomState) :
  py_eq level (PyInt k) = true -> k < 0 \/ 6 < k ->
  process image level None g = Ok (image, g).
Proof.
  intros Heq Hout. apply int_key_eq in Heq.
  destruct (level_cases level) as [[_ Hnone]|(k' & Hfrac & Hkey & Hint)];
    [congruence|].
  assert (k' = k) by congruence. subst k'.
  rewrite (process_integral image level k g Hfrac Hint).
  now rewrite get_epoch_params_outside.
Qed.

(** A float is equal to the int [0] exactly when it is equal to the float
    [0.0]. *)
Lemma float_zero_eq (x : float) :
  cmp_float_int x 0 = Some Eq <-> SFcompare x (dec 0 1) = Some Eq.
Proof.
  change (dec 0 1) with (S754_zero false).
  destruct x as [s|s| |s m e]; cbn [cmp_float_int SFcompare].
  - split; reflexivity.
  - destruct s; split; discriminate.
  - split; discriminate.
  - destruct (Z.leb_spec 0 e) as [He|He].
    + assert (0 < 2 ^ e) by (apply pow2_pos; lia).
      split; [|destruct s; discriminate].
      intros H0. inversion H0 as [H1]. apply Z.compare_eq in H1.
      destruct s; unfold signed in H1; nia.
    + split; [|destruct s; discriminate].
      intros H0. inversion H0 as [H1]. apply Z.compare_eq in H1.
      destruct s; unfold signed in H1; lia.
Qed.

(** A neutral parameter closes the guard of its stage; on a parameter
    that is not negative the guard is closed by the neutral value only. *)
Lemma guard_neutral (p : VisualParams) (s : stage) :
  (py_eq (PyFloat (param p s)) (PyFloat (neutral s)) = true ->
   guard p s = false) /\
  (py_ge (PyFloat (param p s)) (PyInt 0) = true ->
   guard p s = false ->
   py_eq (PyFloat (param p s)) (PyFloat (neutral s)) = true).
Proof.
  assert (Hz : forall x : float,
             (py_eq (PyFloat x) (PyFloat (dec 0 1)) = true ->
              py_gt (PyFloat x) (PyInt 0) = false) /\
             (py_ge (PyFloat x) (PyInt 0) = true ->
              py_gt (PyFloat x) (PyInt 0) = false ->
              py_eq (PyFloat x) (PyFloat (dec 0 1)) = true)).
  { intros x. unfold py_eq, py_gt, py_ge. cbn [py_compare].
    pose proof (float_zero_eq x) as [H1 H2]. split.
    - destruct (SFcompare x (dec 0 1)) as [[ | | ]|]; try discriminate.
      rewrite H2 by reflexivity. reflexivity.
    - destruct (cmp_float_int x 0) as [[ | | ]|]; try discriminate.
      rewrite H1 by reflexivity. reflexivity. }
  assert (Ho : forall x : float,
             (py_eq (PyFloat x) (PyFloat (dec 10 1)) = true ->
              py_ne (PyFloat x) (PyFloat (dec 10 1)) = false) /\
             (py_ne (PyFloat x) (PyFloat (dec 10 1)) = false ->
              py_eq (PyFloat x) (PyFloat (dec 10 1)) = true)).
  { intros x. unfold py_ne.
    destruct (py_eq (PyFloat x) (PyFloat (dec 10 1))); split; auto. }
  destruct s; cbn [guard neutral param];
    try (apply Hz); split; try apply Ho; intros _; apply Ho.
Qed.

(** When the guard of a stage is closed. *)
Lemma guard_closed (p : VisualParams) (s : stage) :
  guard p s = false <->
  if stage_scales s
  then py_eq (PyFloat (param p s)) (PyFloat (dec 10 1)) = true
  else py_gt (PyFloat (param p s)) (PyInt 0) = false.
Proof.
  destruct s; cbn [guard stage_scales]; try reflexivity; unfold py_ne;
    destruct (py_eq _ _); cbn [negb]; split; congruence.
Qed.

(** A negative parameter leaves the guard of its stage closed. *)
Lemma guard_negative (p : VisualParams) (s : stage) :
  s <> Saturation -> s <> Contrast ->
  py_lt (PyFloat (param p s)) (PyInt 0) = true -> guard p s = false.
Proof.
  intros Hs Hc. unfold py_lt.
  destruct s; try congruence; cbn [guard]; unfold py_gt;
    destruct (py_compare _ _) as [[ | | ]|]; congruence.
Qed.

(** C1. On every image and every resolved record, the record of an epoch
    of the table or a record the interpolator returns, [process] applies
    the stages whose parameter differs from its neutral value, in the
    fixed order blur, sepia, saturation, contrast, noise, vignette, fade,
    to the RGB copy of the input; a stage is passed over, the
    intermediate image unchanged, exactly when its parameter equals the
    neutral value: 0 for blur, sepia, noise, vignette and fade, 1 for
    saturation and contrast. The records [process] resolves from a level
    are resolved records; their five parameters with neutral value 0 are
    never negative, which is why the guard [> 0] of the code closes at 0
    only. *)
Theorem process_skips_neutral_stages (image : Image) (level : pynum)
    (p : VisualParams) (g : RandomState) :
  resolved p ->
  stage_order = [ Blur; Sepia; Saturation; Contrast; Noise; Vignette; Fade ] /\
  process image level (Some p) g = pipeline (off_neutral p) p image g /\
  (resolve_params level None = Ok (Some p) ->
   process image level None g = pipeline (off_neutral p) p image g) /\
  (forall s : stage,
     guard p s = false <->
     py_eq (PyFloat (param p s)) (PyFloat (neutral s)) = true) /\
  (forall s : stage,
     stage_scales s = false ->
     py_ge (PyFloat (param p s)) (PyInt 0) = true) /\
  (forall p' : VisualParams,
     resolve_params level None = Ok (Some p') -> resolved p').
Proof.
  intros Hres.
  assert (Hsign : forall s, stage_scales s = false ->
                            has_sign false (param p s) = true).
  { intros s Hs. destruct Hres as [(k & e & He & ->)|(l & Hl)].
    - now apply (table_params_sign k).
    - now apply (interpolate_epochs_sign l). }
  assert (Hiff : forall s, guard p s = false <->
                   py_eq (PyFloat (param p s)) (PyFloat (neutral s)) = true).
  { intros s. destruct (guard_neutral p s) as [Hn Hg].
    split; [|exact Hn]. intros Hclosed.
    destruct (stage_scales s) eqn:Hs.
    - destruct s; try discriminate; cbn [guard neutral param] in *;
        unfold py_ne in Hclosed;
        now destruct (py_eq _ _).
    - apply Hg; [|exact Hclosed]. now apply has_sign_py_ge, Hsign. }
  assert (Hext : forall s, guard p s = off_neutral p s).
  { intros s. unfold off_neutral, py_ne. specialize (Hiff s).
    destruct (guard p s), (py_eq _ _); cbn [negb]; try reflexivity;
      destruct Hiff as [H1 H2]; [now rewrite H2 | now rewrite H1]. }
  assert (Hplan : pipeline (guard p) p image g =
                  pipeline (off_neutral p) p image g).
  { unfold pipeline. now rewrite (List.filter_ext _ _ Hext). }
  split; [reflexivity|]. split; [now rewrite process_plan|]. split.
  - intros Hlevel. rewrite <- Hplan, <- (process_plan image level).
    unfold process. rewrite Hlevel. reflexivity.
  - split; [exact Hiff|]. split.
    + intros s Hs. now apply has_sign_py_ge, Hsign.
    + intros p' Hp'. unfold resolve_params in Hp'.
      destruct (fractional level).
      * destruct (interpolate_epochs level) as [q|] eqn:Hq;
          [|discriminate].
        cbn [bind] in Hp'. inversion Hp'; subst p'. right. now exists level.
      * destruct (py_int level) as [k|]; [|discriminate].
        cbn [bind] in Hp'. inversion Hp' as [Hget].
        unfold get_epoch_params, EPOCHS_get in Hget. cbn [int_key] in Hget.
        destruct (EPOCHS !! k) as [e|] eqn:He; [|discriminate].
        inversion Hget. left. now exists k, e.
Qed.

(** C2. On an RGB image the pipeline with the parameters of epoch 0, the
    all-defaults record, is the identity: every stage is skipped and the
    output has the pixels of the input. *)
Theorem process_defaults_identity (im : RGBImage) (g : RandomState) :
  visual epoch0 =
    {| sepia := dec 0 1; blur := dec 0 1; noise := dec 0 1;
       vignette := dec 0 1; saturation := dec 10 1; contrast := dec 10 1;
       fade := dec 0 1 |} /\
  List.filter (guard (visual epoch0)) stage_order = [] /\
  process (ImageRGB im) (PyInt 0) None g = Ok (ImageRGB im, g) /\
  process (ImageRGB im) (PyFloat (dec 0 1)) None g = Ok (ImageRGB im, g) /\
  (forall level : pynum,
     process (ImageRGB im) level (Some (visual epoch0)) g =
     Ok (ImageRGB im, g)).
Proof.
  assert (Hskip : List.filter (guard (visual epoch0)) stage_order = [])
    by (vm_compute; reflexivity).
  assert (Hid : pipeline (guard (visual epoch0)) (visual epoch0)
                  (ImageRGB im) g = Ok (ImageRGB im, g)).
  { unfold pipeline. rewrite Hskip. reflexivity. }
  split; [reflexivity|]. split; [exact Hskip|]. split; [|split].
  - rewrite (process_integral _ _ 0) by reflexivity.
    change (get_epoch_params (PyInt 0)) with (Some (visual epoch0)).
    exact Hid.
  - rewrite (process_integral _ _ 0) by reflexivity.
    change (get_epoch_params (PyInt 0)) with (Some (visual epoch0)).
    exact Hid.
  - intros level. rewrite process_plan. exact Hid.
Qed.

(** C5, amended. With no parameters given, [process] returns at every
    level, and its output has the width and height of the input. At a
    level that is not equal to an int outside 0..6 the output is an RGB
    image, of 3 channels, whatever the mode of the input; at a level equal
    to an int outside 0..6 the output is the input image itself, with the
    channels it has. *)
Theorem process_size_and_channels (image : Image) (level : pynum)
    (g : RandomState) :
  exists (out : Image) (g' : RandomState),
    process image level None g = Ok (out, g') /\
    size out = size image /\
    ((forall k : Z, py_eq level (PyInt k) = true -> 0 <= k <= 6) ->
     mode out = RGB /\ bands (mode out) = 3%nat) /\
    (forall k : Z,
       py_eq level (PyInt k) = true -> k < 0 \/ 6 < k ->
       out = image /\ g' = g).
Proof.
  destruct (level_cases level) as [[Hfrac Hkey]|(k & Hfrac & Hkey & Hint)].
  - destruct (process_fractional image level g Hfrac) as (p & _ & Hp).
    destruct (pipeline_Ok p image g) as (out & g' & Hout & Hsize).
    exists (ImageRGB out), g'. rewrite Hp. split; [exact Hout|].
    split; [exact Hsize|]. split; [split; reflexivity|].
    intros k Heq _. apply int_key_eq in Heq. congruence.
  - rewrite (process_integral image level k g Hfrac Hint).
    destruct (Z_lt_le_dec k 0) as [Hlo|Hlo];
      [|destruct (Z_lt_le_dec 6 k) as [Hhi|Hhi]].
    1, 2: rewrite get_epoch_params_outside by lia;
      exists image, g; split; [reflexivity|]; split; [reflexivity|];
      split; [|split; reflexivity];
      intros Hin; apply int_key_eq in Hkey; specialize (Hin k Hkey); lia.
    destruct (get_epoch_params_inside k) as (e & _ & ->); [lia|].
    destruct (pipeline_Ok (visual e) image g)
      as (out & g' & Hout & Hsize).
    exists (ImageRGB out), g'. split; [exact Hout|].
    split; [exact Hsize|]. split; [split; reflexivity|].
    intros k' Heq Hout'. apply int_key_eq in Heq.
    assert (k' = k) by congruence. lia.
Qed.

(** C7, amended. With no parameters given, a level with a fractional part
    is clamped: at 6 or more [process] behaves as at level 6, at 0 or less
    as at level 0. A level equal to an int outside 0..6 is not clamped and
    the failed lookup has no fallback: [process] returns the input image
    as it is. *)
Theorem process_out_of_range_levels (image : Image) (g : RandomState) :
  (forall level : pynum,
     fractional level = true -> py_ge level (PyInt 6) = true ->
     process image level None g = process image (PyInt 6) None g) /\
  (forall level : pynum,
     fractional level = true -> py_le level (PyInt 0) = true ->
     process image level None g = process image (PyInt 0) None g) /\
  (forall (level : pynum) (k : Z),
     py_eq level (PyInt k) = true -> k < 0 \/ 6 < k ->
     process image level None g = Ok (image, g)).
Proof.
  split; [|split].
  - intros level Hfrac Hge.
    destruct (process_fractional image level g Hfrac) as (p & Hp & ->).
    rewrite (interpolate_epochs_high level Hge) in Hp. inversion Hp.
    now rewrite (process_integral image (PyInt 6) 6 g).
  - intros level Hfrac Hle.
    destruct (process_fractional image level g Hfrac) as (p & Hp & ->).
    rewrite (interpolate_epochs_low level Hle) in Hp. inversion Hp.
    now rewrite (process_integral image (PyInt 0) 0 g).
  - intros level k. apply process_outside.
Qed.

End Pipeline.

Lemma transpose_involutive (M : matrix) : transpose (transpose M) = M.
Proof. destruct M as [[[[a b] c] [[d e] f]] [[h i] j]]. reflexivity. Qed.

Lemma float_same_eq (a b : float) : float_same a b = true -> a = b.
Proof.
  destruct a as [s|s| |s m e], b as [s'|s'| |s' m' e']; cbn [float_same];
    try discriminate; try reflexivity.
  - intros H. apply Bool.eqb_prop in H. now subst.
  - intros H. apply Bool.eqb_prop in H. now subst.
  - intros H. apply andb_prop in H. destruct H as [H He].
    apply andb_prop in H. destruct H as [Hs Hm].
    apply Bool.eqb_prop in Hs. apply Pos.eqb_eq in Hm. apply Z.eqb_eq in He.
    now subst.
Qed.

(** A band from 0 to 255 is held exactly by the image array. *)
Lemma band_exact (v : Z) : 0 <= v <= 255 -> band v = Z2float v.
Proof.
  intros Hv.
  assert (Hall : forallb (fun n => float_same (band (Z.of_nat n))
                                              (Z2float (Z.of_nat n)))
                         (seq 0 256) = true) by (vm_compute; reflexivity).
  rewrite forallb_forall in Hall.
  rewrite <- (Z2Nat.id v) by lia. apply float_same_eq, Hall.
  apply in_seq. lia.
Qed.

Section Sepia.
Context {np : NumPy}.

(** C6. On every RGB image and at every intensity [s > 0] the sepia stage
    computes, at each pixel, the product [M . [R,G,B]^T] with the fixed
    matrix, in binary64 arithmetic as the matrix product of the numeric
    library evaluates it, clamps it to [0, 255] into the sepia-toned
    pixel, and returns
    [clamp((1 - s) . original + s . sepia_pixel, 0, 255)] truncated to an
    integer band. *)
Theorem _apply_sepia_pixel (image : RGBImage) (s : float) (y x : nat)
    (rgb : pixel Z) :
  py_gt (PyFloat s) (PyInt 0) = true ->
  aget image y x = Some rgb ->
  sepia_matrix =
    ((dec 393 3, dec 769 3, dec 189 3),
     (dec 349 3, dec 686 3, dec 168 3),
     (dec 272 3, dec 534 3, dec 131 3)) /\
  exists product : pixel float,
    is_matvec sepia_matrix (pmap band rgb) product /\
    aget (_apply_sepia image s) y x = Some (sepia_blend s rgb product).
Proof.
  intros _ Hpx. split; [reflexivity|].
  assert (Himg : aget (np_array_f32 image) y x = Some (pmap Z2f32 rgb)).
  { unfold np_array_f32. now rewrite aget_amap, Hpx. }
  assert (Hwide : aget (amap (pmap widen) (np_array_f32 image)) y x =
                  Some (pmap band rgb)).
  { rewrite aget_amap, Himg. destruct rgb as [[r gr] b]. reflexivity. }
  destruct (matmul_pixel _ (transpose sepia_matrix) y x _ Hwide)
    as (product & Hprod & Hmv).
  rewrite transpose_involutive in Hmv.
  exists product. split; [exact Hmv|].
  unfold _apply_sepia. cbv zeta. rewrite aget_amap.
  erewrite aget_amap2; cycle 1.
  - rewrite aget_amap, Himg. reflexivity.
  - rewrite !aget_amap, Hprod. reflexivity.
  - cbn [option_map]. f_equal.
    unfold sepia_blend, sepia_pixel.
    destruct rgb as [[r gr] b]. destruct product as [[tr tg] tb].
    cbn [pmap pmap2]. unfold blend.
    now rewrite !(f32mul_comm (to_f32 (fsub (Z2float 1) s))),
      !(fmul_comm s).
Qed.

End Sepia.

End VisualFacts.

(** ** The pipeline on concrete images *)

Module Runs.
Import Py.
Import Epochs.
Import Visual.
Import Notions.
Import Plan.
Import SepiaSpec.
Import ArrayFacts.
Import VisualFacts.

Lemma sample_convert_RGB_size (image : Image) :
  size (ImageRGB (Sample.convert_RGB image)) = size image.
Proof.
  destruct image as [im|im|im]; unfold size, Sample.convert_RGB;
    rewrite ?shape_amap; reflexivity.
Qed.

Lemma sample_linspace_length (start stop : float) (num : nat) :
  length (Sample.linspace start stop num) = num.
Proof. unfold Sample.linspace. now rewrite length_map, length_seq. Qed.

#[export] Instance sample_PIL : PIL := {|
  convert_RGB := Sample.convert_RGB;
  GaussianBlur := Sample.GaussianBlur;
  Color_enhance := Sample.Color_enhance;
  Contrast_enhance := Sample.Contrast_enhance;
  convert_RGB_size := sample_convert_RGB_size;
  GaussianBlur_shape := fun im _ => shape_amap _ im;
  Color_enhance_shape := fun im _ => shape_amap _ im;
  Contrast_enhance_shape := fun im _ => shape_amap _ im
|}.

Lemma sample_matmul_pixel (a : list (list (pixel float))) (B : matrix)
    (y x : nat) (v : pixel float) :
  aget a y x = Some v ->
  exists r, aget (Sample.matmul a B) y x = Some r /\
            is_matvec (transpose B) v r.
Proof.
  intros Hv. unfold Sample.matmul. rewrite aget_amap, Hv. cbn [option_map].
  eexists. split; [reflexivity|].
  destruct v as [[vx vy] vz].
  destruct B as [[[[b00 b01] b02] [[b10 b11] b12]] [[b20 b21] b22]].
  unfold is_matvec, transpose, dot_roundings, orders.
  cbn [flat_map map app List.In].
  split; [|split]; left; reflexivity.
Qed.

#[export] Instance sample_NumPy : NumPy := {|
  RandomState := Z;
  random_normal := Sample.random_normal;
  linspace := Sample.linspace;
  matmul := Sample.matmul;
  linspace_length := sample_linspace_length;
  matmul_shape := fun a _ => shape_amap _ a;
  matmul_pixel := sample_matmul_pixel
|}.

(** The initial state of the sample generator. *)
Definition seed : @RandomState sample_NumPy := 0.

Lemma process_skips_neutral_stages_witness :
  process blue (PyInt 3) None seed =
    pipeline (off_neutral (visual epoch3)) (visual epoch3) blue seed /\
  (guard (visual epoch3) Sepia = false <->
   py_eq (PyFloat (sepia (visual epoch3))) (PyFloat (dec 0 1)) = true) /\
  resolved (visual epoch3).
Proof.
  assert (Hres : resolved (visual epoch3)).
  { left. exists 3, epoch3. split; reflexivity. }
  destruct (process_skips_neutral_stages blue (PyInt 3) (visual epoch3) seed
              Hres) as (_ & _ & Hlevel & Hiff & _ & Hrec).
  split; [|split].
  - apply Hlevel. reflexivity.
  - apply (Hiff Sepia).
  - apply Hrec. reflexivity.
Defined.

(** C5, as stated, fails at level 7 on a grayscale image: the output is
    the input, of 1 channel. *)
Lemma process_channels_counterexample :
  process gray (PyInt 7) None seed = Ok (gray, seed) /\
  bands (mode gray) = 1%nat /\
  ~ (exists (out : Image) (g' : RandomState),
       process gray (PyInt 7) None seed = Ok (out, g') /\
       bands (mode out) = 3%nat).
Proof.
  assert (H : process gray (PyInt 7) None seed = Ok (gray, seed))
    by (vm_compute; reflexivity).
  split; [exact H|]. split; [reflexivity|].
  intros (out & g' & Hout & Hb). rewrite H in Hout.
  inversion Hout; subst out. discriminate.
Qed.

Lemma process_size_and_channels_witness :
  exists (out : Image) (g' : RandomState),
    process gray (PyInt 3) None seed = Ok (out, g') /\
    size out = (2%nat, 1%nat) /\ mode out = RGB.
Proof.
  destruct (process_size_and_channels gray (PyInt 3) seed)
    as (out & g' & Hout & Hsize & Hmode & _).
  exists out, g'. split; [exact Hout|]. split; [exact Hsize|].
  apply Hmode. intros k Hk. unfold py_eq in Hk. cbn [py_compare] in Hk.
  destruct (Z.compare_spec 3 k); try discriminate. lia.
Defined.

(** C7, as stated, fails at the levels 7 and -3: [process(image, 7)]
    returns the image untouched where level 6 transforms it, and
    [process(image, -3)] returns a grayscale image as it is where level 0
    converts it to RGB. *)
Lemma process_clamp_counterexample :
  process blue (PyInt 7) None seed = Ok (blue, seed) /\
  process blue (PyInt 7) None seed <> process blue (PyInt 6) None seed /\
  process gray (PyInt (-3)) None seed = Ok (gray, seed) /\
  process gray (PyInt (-3)) None seed <> process gray (PyInt 0) None seed.
Proof.
  split; [vm_compute; reflexivity|]. split; [vm_compute; discriminate|].
  split; [vm_compute; reflexivity|]. vm_compute; discriminate.
Qed.

Lemma process_out_of_range_levels_witness :
  process blue (PyFloat (dec 75 1)) None seed = process blue (PyInt 6) None seed /\
  process gray (PyFloat (dec (-35) 1)) None seed = process gray (PyInt 0) None seed /\
  process gray (PyInt 7) None seed = Ok (gray, seed).
Proof.
  destruct (process_out_of_range_levels blue seed) as (Hhigh & _ & _).
  destruct (process_out_of_range_levels gray seed) as (_ & Hlow & Hout).
  split; [|split].
  - apply Hhigh; reflexivity.
  - apply Hlow; reflexivity.
  - apply (Hout (PyInt 7) 7); [reflexivity | lia].
Defined.

Lemma _apply_sepia_pixel_witness :
  exists product : pixel float,
    is_matvec sepia_matrix (pmap band (10, 20, 30)) product /\
    aget (_apply_sepia [ [ (10, 20, 30); (255, 255, 255) ] ] (dec 5 1)) 0 0 =
    Some (sepia_blend (dec 5 1) (10, 20, 30) product).
Proof.
  destruct (_apply_sepia_pixel [ [ (10, 20, 30); (255, 255, 255) ] ]
              (dec 5 1) 0 0 (10, 20, 30)) as [_ H];
    [reflexivity | reflexivity | exact H].
Defined.

End Runs.

(** * Further properties *)

(** ** The epoch table and its listings *)

Module EpochsMore.
Import Py.
Import MoreNotions.
Import PyStr.
Import Epochs.
Import Notions.
Import PyFacts.
Import EpochsFacts.

Lemma EPOCHS_lookup_values (k : Z) (e : Epoch) :
  EPOCHS !! k = Some e <->
  0 <= k <= 6 /\ EPOCHS_values !! Z.to_nat k = Some e.
Proof.
  split.
  - intros He. destruct (EPOCHS_lookup_Some k e He) as [Hk _].
    split; [exact Hk|]. int_0_6 Hk; vm_compute in He; inversion He;
      reflexivity.
  - intros [Hk He]. int_0_6 Hk; vm_compute in He; inversion He;
      reflexivity.
Qed.

(** The fields of an entry of the table. *)
Lemma EPOCHS_entry_fields (k : Z) (e : Epoch) :
  EPOCHS !! k = Some e ->
  level e = k /\
  name e <> EmptyString /\ name_en e <> EmptyString /\
  period e <> EmptyString /\
  description e <> EmptyString /\ description_en e <> EmptyString /\
  audio_prompt e <> EmptyString /\
  soundscape e <> [] /\
  length (soundscape e) = length (soundscape_en e) /\
  Forall (fun x => x <> EmptyString) (soundscape e ++ soundscape_en e).
Proof.
  intros He. destruct (EPOCHS_lookup_Some k e He) as [Hk Hl].
  split; [exact Hl|].
  int_0_6 Hk; vm_compute in He; inversion He; subst e;
    repeat (split; [discriminate || reflexivity|]);
    repeat constructor; discriminate.
Qed.

(** X1. The table has exactly the seven keys 0 to 6, in the order of its
    values; the entry of key [k] has level [k], non-empty names, period,
    descriptions and prompt, and two non-empty element lists of the same
    length. *)
Theorem EPOCHS_well_formed :
  size EPOCHS = 7%nat /\
  length EPOCHS_values = 7%nat /\
  (forall (k : Z) (e : Epoch),
     EPOCHS !! k = Some e <->
     0 <= k <= 6 /\ EPOCHS_values !! Z.to_nat k = Some e) /\
  (forall (k : Z) (e : Epoch),
     EPOCHS !! k = Some e ->
     level e = k /\
     name e <> EmptyString /\ name_en e <> EmptyString /\
     period e <> EmptyString /\
     description e <> EmptyString /\ description_en e <> EmptyString /\
     audio_prompt e <> EmptyString /\
     soundscape e <> [] /\
     length (soundscape e) = length (soundscape_en e) /\
     Forall (fun x => x <> EmptyString) (soundscape e ++ soundscape_en e)).
Proof.
  split; [vm_compute; reflexivity|]. split; [reflexivity|].
  split; [exact EPOCHS_lookup_values|].
  exact EPOCHS_entry_fields.
Qed.

Lemma EPOCHS_well_formed_witness :
  level epoch4 = 4 /\
  length (soundscape epoch4) = length (soundscape_en epoch4).
Proof.
  destruct EPOCHS_well_formed as (_ & _ & _ & H).
  destruct (H 4 epoch4) as (Hl & _ & _ & _ & _ & _ & _ & _ & Hlen & _);
    [reflexivity|].
  split; [exact Hl | exact Hlen].
Defined.

(** X2. Every entry of the table keeps its parameters in the documented
    ranges, and from each level to the next sepia, blur, noise, vignette
    and fade grow while saturation and contrast shrink. *)
Theorem EPOCHS_ranges_and_order (k : Z) (e : Epoch) :
  EPOCHS !! k = Some e ->
  in_ranges (visual e) = true /\
  (forall e' : Epoch,
     EPOCHS !! (k + 1) = Some e' -> older (visual e) (visual e') = true).
Proof.
  intros He. destruct (EPOCHS_lookup_Some k e He) as [Hk _].
  int_0_6 Hk; vm_compute in He; inversion He; subst e;
    (split; [vm_compute; reflexivity|]);
    intros e' He'; vm_compute in He'; inversion He'; subst e';
    vm_compute; reflexivity.
Qed.

Lemma EPOCHS_ranges_and_order_witness :
  in_ranges (visual epoch2) = true /\
  older (visual epoch2) (visual epoch3) = true.
Proof.
  destruct (EPOCHS_ranges_and_order 2 epoch2) as [Hr Ho]; [reflexivity|].
  split; [exact Hr|]. apply Ho. reflexivity.
Defined.

(** X3. Both listings have seven entries, and the entry at index [k] is
    the one of level [k]: its text is the level, a full stop and a space,
    the name (French or English) and the period in brackets, so that the
    level can be read back from the text before the first full stop. *)
Theorem list_epochs_by_level (k : Z) (e : Epoch) :
  EPOCHS !! k = Some e ->
  length list_epochs = 7%nat /\ length list_epochs_en = 7%nat /\
  list_epochs !! Z.to_nat k =
    Some (str k ++ ". " ++ name e ++ " (" ++ period e ++ ")")%string /\
  list_epochs_en !! Z.to_nat k =
    Some (str k ++ ". " ++ name_en e ++ " (" ++ period e ++ ")")%string /\
  (forall x : string,
     list_epochs !! Z.to_nat k = Some x \/
     list_epochs_en !! Z.to_nat k = Some x ->
     split_dot_head x = str k).
Proof.
  intros He. destruct (EPOCHS_lookup_Some k e He) as [Hk _].
  split; [reflexivity|]. split; [reflexivity|].
  int_0_6 Hk; vm_compute in He; inversion He; subst e;
    (split; [reflexivity|]); (split; [reflexivity|]);
    intros x [Hx|Hx]; vm_compute in Hx; inversion Hx; reflexivity.
Qed.

Lemma list_epochs_by_level_witness :
  list_epochs !! 3%nat = Some "3. L'entre-deux-guerres (1920-1955)"%string /\
  split_dot_head "3. L'entre-deux-guerres (1920-1955)" = "3"%string.
Proof.
  destruct (list_epochs_by_level 3 epoch3) as (_ & _ & Hfr & _ & Hhead);
    [reflexivity|].
  split.
  - exact Hfr.
  - apply Hhead. left. exact Hfr.
Defined.

(** X4. The interpolator raises at no level, int or float: every level
    gets parameters. A NaN and plus infinity get the parameters of epoch
    6, minus infinity those of epoch 0. *)
Theorem interpolate_epochs_never_raises (level : pynum) :
  (exists p : VisualParams, interpolate_epochs level = Ok p) /\
  interpolate_epochs (PyFloat S754_nan) = Ok (visual epoch6) /\
  interpolate_epochs (PyFloat (S754_infinity false)) = Ok (visual epoch6) /\
  interpolate_epochs (PyFloat (S754_infinity true)) = Ok (visual epoch0).
Proof.
  split; [apply interpolate_epochs_total|].
  split; [vm_compute; reflexivity|].
  split; vm_compute; reflexivity.
Qed.

End EpochsMore.

(** ** The soundscape generator, further *)

Module SoundMore.
Import Py.
Import MoreNotions.
Import PyStr.
Import Sound.
Import Notions.
Import PyFacts.
Import EpochsFacts.
Import SoundFacts.

(** The conversion of an int returns a float or raises [OverflowError]. *)
Lemma float_of_int_cases (z : Z) :
  (exists f : float, float_of_int z = Ok f) \/
  float_of_int z = Raise OverflowError.
Proof.
  unfold float_of_int. destruct (Z2float z); eauto.
Qed.

Lemma epoch_or_default_in_table (level : Z) :
  exists k : Z,
    0 <= k <= 6 /\ Epochs.EPOCHS !! k = Some (epoch_or_default level) /\
    Epochs.level (epoch_or_default level) = k /\
    (Epochs.EPOCHS !! level <> None -> k = level) /\
    (Epochs.EPOCHS !! level = None -> k = 0).
Proof.
  unfold epoch_or_default.
  destruct (Epochs.EPOCHS !! level) as [e|] eqn:He.
  - destruct (EPOCHS_lookup_Some level e He) as [Hk Hl].
    exists level. split; [exact Hk|]. split; [exact He|].
    split; [exact Hl|]. split; [reflexivity|]. discriminate.
  - exists 0. split; [lia|]. split; [reflexivity|].
    split; [reflexivity|]. split; [congruence | reflexivity].
Qed.

(** X5. The generator speaks French only when its language is exactly
    ["fr"]: with every other language string it returns what the English
    generator returns, soundscape and description alike. The language
    changes the name and the elements only: level, period, prompt,
    intensity and clarity are the same in every language. *)
Theorem generate_language (language : string) (level : Z) :
  (String.eqb language "fr" = false ->
   generate language level = generate "en" level /\
   get_description language level = get_description "en" level) /\
  (forall s s' : Soundscape,
     generate language level = Ok s -> generate "fr" level = Ok s' ->
     epoch_level s = epoch_level s' /\ period s = period s' /\
     audio_prompt s = audio_prompt s' /\
     intensity s = intensity s' /\ clarity s = clarity s').
Proof.
  split.
  - intros Hl.
    assert (Hgen : generate language level = generate "en" level).
    { unfold generate. rewrite Hl.
      change (String.eqb "en" "fr") with false. reflexivity. }
    split; [exact Hgen|].
    unfold get_description. rewrite Hgen, Hl.
    change (String.eqb "en" "fr") with false. reflexivity.
  - intros s s' Hs Hs'.
    destruct (float_of_int_cases level) as [[f Hf]|Hf].
    + rewrite (generate_Ok language level f Hf) in Hs.
      rewrite (generate_Ok "fr" level f Hf) in Hs'.
      inversion Hs; inversion Hs'. repeat split.
    + rewrite (generate_Raise _ _ _ Hf) in Hs. discriminate.
Qed.

Lemma generate_language_witness :
  generate "FR" 2 = generate "en" 2 /\
  get_description "de" 2 = get_description "en" 2.
Proof.
  split.
  - apply (generate_language "FR" 2). reflexivity.
  - apply (generate_language "de" 2). reflexivity.
Defined.

(** X6. Whatever level is requested, the soundscape returned describes an
    epoch of the table: its level is from 0 to 6, its period is the one of
    that epoch and its elements are one of the two non-empty lists of that
    epoch. The level returned is the requested one when that is a key of
    the table, and 0 otherwise. *)
Theorem generate_describes_table_epoch (language : string) (level : Z)
    (s : Soundscape) :
  generate language level = Ok s ->
  exists e : Epochs.Epoch,
    0 <= epoch_level s <= 6 /\
    Epochs.EPOCHS !! epoch_level s = Some e /\
    period s = Epochs.period e /\
    (epoch_name s = Epochs.name e \/ epoch_name s = Epochs.name_en e) /\
    (elements s = Epochs.soundscape e \/ elements s = Epochs.soundscape_en e) /\
    elements s <> [] /\
    (0 <= level <= 6 -> epoch_level s = level) /\
    (level < 0 \/ 6 < level -> epoch_level s = 0).
Proof.
  intros Hs.
  destruct (float_of_int_cases level) as [[f Hf]|Hf];
    [|rewrite (generate_Raise _ _ _ Hf) in Hs; discriminate].
  rewrite (generate_Ok _ _ f Hf) in Hs. inversion Hs; subst s; clear Hs.
  cbn [epoch_level period epoch_name elements].
  destruct (epoch_or_default_in_table level)
    as (k & Hk & He & Hl & Hin & Hout).
  exists (epoch_or_default level). rewrite Hl.
  split; [exact Hk|]. split; [exact He|]. split; [reflexivity|].
  split; [destruct (String.eqb language "fr"); auto|].
  split; [destruct (String.eqb language "fr"); auto|].
  split.
  - destruct (EpochsMore.EPOCHS_entry_fields k _ He)
      as (_ & _ & _ & _ & _ & _ & _ & Hfr & Hlen & _).
    destruct (String.eqb language "fr"); [exact Hfr|].
    intros Hen. rewrite Hen in Hlen.
    destruct (Epochs.soundscape (epoch_or_default level));
      [congruence | discriminate].
  - split.
    + intros Hrange. apply Hin.
      destruct (EPOCHS_lookup_inside level Hrange) as (e' & -> & _).
      discriminate.
    + intros Hrange. apply Hout. now apply EPOCHS_lookup_outside.
Qed.

Lemma generate_describes_table_epoch_witness :
  exists s : Soundscape,
    generate "fr" 42 = Ok s /\ epoch_level s = 0 /\
    period s = "2020-2025"%string.
Proof.
  eexists. split; [vm_compute; reflexivity|].
  destruct (generate_describes_table_epoch "fr" 42 _ eq_refl)
    as (e & _ & _ & _ & _ & _ & _ & _ & Hout).
  split; [apply Hout; lia | reflexivity].
Defined.

(** X7. At every level, in or out of the table, the intensity and the
    clarity returned are numbers at least 0.1. *)
Theorem generate_scalars_floor (language : string) (level : Z)
    (s : Soundscape) :
  generate language level = Ok s ->
  fleb (dec 1 1) (intensity s) = true /\ fleb (dec 1 1) (clarity s) = true.
Proof.
  intros Hs.
  destruct (float_of_int_cases level) as [[f Hf]|Hf];
    [|rewrite (generate_Raise _ _ _ Hf) in Hs; discriminate].
  rewrite (generate_Ok _ _ f Hf) in Hs. inversion Hs; subst s.
  cbn [intensity clarity]. split; apply scalar_floor.
Qed.

Lemma generate_scalars_floor_witness :
  exists s : Soundscape,
    generate "en" 1000 = Ok s /\ fleb (dec 1 1) (intensity s) = true.
Proof.
  eexists. split; [vm_compute; reflexivity|].
  apply (generate_scalars_floor "en" 1000 _ eq_refl).
Defined.

(** X8. The generator raises in one case only: [OverflowError], when the
    level is too large an int to convert to a float. The fallback to
    [EPOCHS[0]] never raises [KeyError]. The exported dict and the two
    prompt helpers return exactly when the generator does. *)
Theorem generate_raises_only_overflow (language : string) (level : Z) :
  (forall e : exn,
     generate language level = Raise e <->
     e = OverflowError /\ float_of_int level = Raise OverflowError) /\
  ((exists s, generate language level = Ok s) <->
   (exists f, float_of_int level = Ok f)) /\
  ((exists d, to_dict language level = Ok d) <->
   (exists f, float_of_int level = Ok f)) /\
  ((exists t, get_elevenlabs_prompt level = Ok t) <->
   (exists f, float_of_int level = Ok f)) /\
  ((exists d, get_stable_audio_prompt level = Ok d) <->
   (exists f, float_of_int level = Ok f)).
Proof.
  destruct (float_of_int_cases level) as [[f Hf]|Hf].
  - pose proof (generate_Ok language level f Hf) as Hg.
    pose proof (generate_Ok "en" level f Hf) as Hen.
    split; [|split; [|split; [|split]]].
    + intros e. rewrite Hg, Hf. split; [discriminate|].
      intros [_ H]. discriminate.
    + split; eauto.
    + unfold to_dict. rewrite Hg. cbn [bind]. split; eauto.
    + unfold get_elevenlabs_prompt. rewrite Hen. cbn [bind]. split; eauto.
    + unfold get_stable_audio_prompt. rewrite Hen. cbn [bind]. split; eauto.
  - pose proof (generate_Raise language level _ Hf) as Hg.
    pose proof (generate_Raise "en" level _ Hf) as Hen.
    assert (Hno : ~ exists f, float_of_int level = Ok f)
      by (intros [f Hf']; congruence).
    split; [|split; [|split; [|split]]].
    + intros e. rewrite Hg. split.
      * intros H. inversion H. auto.
      * intros [-> _]. reflexivity.
    + split; [intros [s Hs]; congruence | tauto].
    + unfold to_dict. rewrite Hg. cbn [bind].
      split; [intros [d Hd]; discriminate | tauto].
    + unfold get_elevenlabs_prompt. rewrite Hen. cbn [bind].
      split; [intros [d Hd]; discriminate | tauto].
    + unfold get_stable_audio_prompt. rewrite Hen. cbn [bind].
      split; [intros [d Hd]; discriminate | tauto].
Qed.

Lemma res_map_Ok {A B : Type} (f : A -> res B) (g : A -> B) (l : list A) :
  (forall a, In a l -> f a = Ok (g a)) -> res_map f l = Ok (map g l).
Proof.
  induction l as [|a l IH]; intros Hf; cbn [res_map map]; [reflexivity|].
  rewrite (Hf a) by (left; reflexivity). cbn [bind].
  rewrite IH by (intros a' Ha'; apply Hf; right; exact Ha').
  reflexivity.
Qed.

(** X9. [get_all_soundscapes] never raises and returns seven soundscapes,
    the one at index [k] being the soundscape generated for level [k],
    which describes epoch [k]. *)
Theorem get_all_soundscapes_by_level (language : string) :
  exists l : list Soundscape,
    get_all_soundscapes language = Ok l /\
    length l = 7%nat /\
    (forall k : Z,
       0 <= k <= 6 ->
       exists s : Soundscape,
         l !! Z.to_nat k = Some s /\ generate language k = Ok s /\
         epoch_level s = k).
Proof.
  set (gen := fun k : Z =>
    {| epoch_level := Epochs.level (epoch_or_default k);
       epoch_name := if String.eqb language "fr"
                     then Epochs.name (epoch_or_default k)
                     else Epochs.name_en (epoch_or_default k);
       period := Epochs.period (epoch_or_default k);
       elements := if String.eqb language "fr"
                   then Epochs.soundscape (epoch_or_default k)
                   else Epochs.soundscape_en (epoch_or_default k);
       audio_prompt :=
         _enhance_prompt (Epochs.audio_prompt (epoch_or_default k)) k;
       intensity := scalar (dec 12 2) (Z2float k);
       clarity := scalar (dec 15 2) (Z2float k) |}).
  assert (Hgen : forall k, 0 <= k <= 6 -> generate language k = Ok (gen k)).
  { intros k Hk. apply generate_Ok. now apply float_of_int_small. }
  exists (map gen (range 7)). split; [|split].
  - unfold get_all_soundscapes. apply res_map_Ok.
    intros k Hk. apply Hgen. unfold range in Hk.
    apply in_map_iff in Hk. destruct Hk as (n & <- & Hn).
    apply in_seq in Hn. lia.
  - reflexivity.
  - intros k Hk. exists (gen k). split; [|split].
    + int_0_6 Hk; reflexivity.
    + now apply Hgen.
    + int_0_6 Hk; reflexivity.
Qed.

Lemma get_all_soundscapes_by_level_witness :
  exists (l : list Soundscape) (s : Soundscape),
    get_all_soundscapes "en" = Ok l /\ l !! 5%nat = Some s /\
    epoch_level s = 5.
Proof.
  destruct (get_all_soundscapes_by_level "en") as (l & Hl & _ & Hk).
  destruct (Hk 5) as (s & Hs & _ & Hlevel); [lia|].
  exists l, s. split; [exact Hl|]. split; [exact Hs | exact Hlevel].
Defined.

Lemma append_inj_l (a x y : string) :
  (a ++ x = a ++ y)%string -> x = y.
Proof.
  induction a as [|c a IH]; cbn; [auto|].
  intros H. inversion H. auto.
Qed.

(** X10. The enhancement distinguishes the seven levels of the table and
    no level beyond: for one base prompt, two different levels from 0 to
    6 give different prompts, and every level from 6 upwards gives the
    prompt of level 6 (reverb 80%, low-pass filter at 2000Hz). *)
Theorem _enhance_prompt_levels (base_prompt : string) :
  (forall a b : Z,
     0 <= a <= 6 -> 0 <= b <= 6 ->
     _enhance_prompt base_prompt a = _enhance_prompt base_prompt b ->
     a = b) /\
  (forall level : Z,
     6 <= level ->
     _enhance_prompt base_prompt level = _enhance_prompt base_prompt 6) /\
  (exists pre post : string,
     _enhance_prompt base_prompt 6 =
     (pre ++ "reverb 80%, low-pass filter at 2000Hz" ++ post)%string).
Proof.
  split; [|split].
  - intros a b Ha Hb Heq.
    change (_enhance_prompt base_prompt a)
      with (base_prompt ++ _enhance_prompt "" a)%string in Heq.
    change (_enhance_prompt base_prompt b)
      with (base_prompt ++ _enhance_prompt "" b)%string in Heq.
    apply append_inj_l in Heq.
    int_0_6 Ha; int_0_6 Hb; try reflexivity;
      vm_compute in Heq; discriminate.
  - intros level Hl. unfold _enhance_prompt.
    replace (level =? 0) with false by (symmetry; apply Z.eqb_neq; lia).
    replace (level <=? 2) with false by (symmetry; apply Z.leb_gt; lia).
    replace (level <=? 4) with false by (symmetry; apply Z.leb_gt; lia).
    replace (Z.min (level * 15) 80) with 80 by lia.
    replace (Z.max (20000 - level * 3000) 2000) with 2000 by lia.
    reflexivity.
  - destruct (_enhance_prompt_hints base_prompt 6) as (pre & post & H).
    exists pre, post. rewrite H. reflexivity.
Qed.

Lemma _enhance_prompt_levels_witness :
  _enhance_prompt "wind" 9 = _enhance_prompt "wind" 6 /\
  _enhance_prompt "wind" 2 <> _enhance_prompt "wind" 3.
Proof.
  destruct (_enhance_prompt_levels "wind") as (Hinj & Hsat & _).
  split.
  - apply Hsat. lia.
  - intros Heq. apply Hinj in Heq; lia.
Defined.

(** X11. The two helpers for the audio services carry the same prompt,
    the one the generator produces in any language; the parameter dict
    holds it under ["prompt"], with the fixed duration 30.0, scale 7.0,
    no seed and 100 steps. *)
Theorem audio_helpers_share_prompt (language : string) (level : Z)
    (s : Soundscape) :
  generate language level = Ok s ->
  get_elevenlabs_prompt level = Ok (audio_prompt s) /\
  get_stable_audio_prompt level =
    Ok [ ("prompt", AStr (audio_prompt s));
         ("duration", AFloat (dec 300 1));
         ("cfg_scale", AFloat (dec 70 1));
         ("seed", ANone);
         ("steps", AInt 100) ]%string.
Proof.
  intros Hs.
  destruct (float_of_int_cases level) as [[f Hf]|Hf];
    [|rewrite (generate_Raise _ _ _ Hf) in Hs; discriminate].
  rewrite (generate_Ok _ _ f Hf) in Hs. inversion Hs; subst s.
  unfold get_elevenlabs_prompt, get_stable_audio_prompt.
  rewrite (generate_Ok "en" level f Hf). cbn [bind audio_prompt].
  split; reflexivity.
Qed.

Lemma audio_helpers_share_prompt_witness :
  exists s : Soundscape,
    generate "fr" 4 = Ok s /\
    get_elevenlabs_prompt 4 = Ok (audio_prompt s).
Proof.
  eexists. split; [vm_compute; reflexivity|].
  apply (audio_helpers_share_prompt "fr" 4 _ eq_refl).
Defined.

Lemma get_description_bar_lines (language : string) (level : Z)
    (s : Soundscape) (a b : Z) :
  generate language level = Ok s ->
  float_trunc (fmul (intensity s) (Z2float 10)) = Ok a ->
  float_trunc (fmul (clarity s) (Z2float 10)) = Ok b ->
  exists pre : string,
    get_description language level =
    Ok (pre ++ bar_lines language s a b)%string.
Proof.
  intros Hs Ha Hb. unfold get_description, bar_lines, cells.
  rewrite Hs. cbn [bind].
  destruct (String.eqb language "fr"); rewrite Ha, Hb; cbn [bind].
  - exists (nl ++ ("🔊 Paysage sonore — " ++ epoch_name s
                     ++ " (" ++ period s ++ ")") ++ nl ++ nl
               ++ "Éléments sonores:" ++ nl
               ++ join nl (map (fun e => ("  • " ++ e)%string) (elements s))
               ++ nl ++ nl)%string.
    f_equal. rewrite !append_assoc. reflexivity.
  - exists (nl ++ ("🔊 Soundscape — " ++ epoch_name s
                     ++ " (" ++ period s ++ ")") ++ nl ++ nl
               ++ "Sound elements:" ++ nl
               ++ join nl (map (fun e => ("  • " ++ e)%string) (elements s))
               ++ nl ++ nl)%string.
    f_equal. rewrite !append_assoc. reflexivity.
Qed.

(** The filled cells at the levels of the table. *)
Lemma filled_cells_table (level : Z) :
  0 <= level <= 6 ->
  exists a b : Z,
    float_trunc (fmul (scalar (dec 12 2) (Z2float level)) (Z2float 10)) = Ok a /\
    float_trunc (fmul (scalar (dec 15 2) (Z2float level)) (Z2float 10)) = Ok b /\
    1 <= a <= 10 /\ 1 <= b <= 10.
Proof.
  intros Hl. int_0_6 Hl; eexists; eexists;
    (split; [vm_compute; reflexivity|]);
    (split; [vm_compute; reflexivity|]); lia.
Qed.

(** X12. At every level of the table the description is produced and ends
    with the two bar lines: the label of the language, a bar of exactly
    ten cells of which [int(value * 10)], from 1 to 10, are filled, and
    the value as a percentage. At level -1 the intensity 1.12 fills 11
    cells, the count of empty cells is negative and the bar is 11 cells
    long. *)
Theorem get_description_bars (language : string) (level : Z) :
  0 <= level <= 6 ->
  (exists (s : Soundscape) (a b : Z) (pre : string),
     generate language level = Ok s /\
     float_trunc (fmul (intensity s) (Z2float 10)) = Ok a /\
     float_trunc (fmul (clarity s) (Z2float 10)) = Ok b /\
     1 <= a <= 10 /\ 1 <= b <= 10 /\
     get_description language level =
     Ok (pre ++ bar_lines language s a b)%string) /\
  (exists (s : Soundscape) (pre : string),
     generate language (-1) = Ok s /\
     get_description language (-1) =
     Ok (pre ++ bar_lines language s 11 11)%string /\
     cells 11 = repeat_string "█" 11 /\
     format_pct 0 (intensity s) = "112%"%string).
Proof.
  intros Hl. split.
  - pose proof (generate_Ok language level _ (float_of_int_small level Hl))
      as Hgen.
    destruct (filled_cells_table level Hl) as (a & b & Ha & Hb & Hra & Hrb).
    destruct (get_description_bar_lines language level _ a b Hgen Ha Hb)
      as (pre & Hd).
    eexists. exists a, b, pre. split; [exact Hgen|].
    split; [exact Ha|]. split; [exact Hb|]. split; [exact Hra|].
    split; [exact Hrb | exact Hd].
  - pose proof (generate_Ok language (-1) (Z2float (-1)) eq_refl) as Hgen.
    destruct (get_description_bar_lines language (-1) _ 11 11 Hgen)
      as (pre & Hd); [vm_compute; reflexivity..|].
    eexists. exists pre. split; [exact Hgen|]. split; [exact Hd|].
    split; vm_compute; reflexivity.
Qed.

Lemma get_description_bars_witness :
  exists (s : Soundscape) (pre : string),
    get_description "en" 3 = Ok (pre ++ bar_lines "en" s 6 5)%string /\
    format_pct 0 (intensity s) = "64%"%string.
Proof.
  destruct (get_description_bars "en" 3)
    as ((s & a & b & pre & Hs & Ha & Hb & _ & _ & Hd) & _); [lia|].
  rewrite (generate_Ok "en" 3 (Z2float 3) eq_refl) in Hs.
  inversion Hs; subst s; clear Hs.
  vm_compute in Ha. inversion Ha; subst a.
  vm_compute in Hb. inversion Hb; subst b.
  eexists. exists pre. split; [exact Hd|]. vm_compute. reflexivity.
Defined.

End SoundMore.

(** ** The stages and the pipeline, further *)

Module VisualMore.
Import Py.
Import MoreNotions.
Import Epochs.
Import Visual.
Import Notions.
Import Plan.
Import PyFacts.
Import EpochsFacts.
Import ArrayFacts.
Import VisualFacts.

Lemma _apply_fade_pixel (image : RGBImage) (intensity : float) (y x : nat)
    (r g b : Z) :
  aget image y x = Some (r, g, b) ->
  aget (_apply_fade image intensity) y x =
  Some (fade_band intensity (Z2f32 245) r,
        fade_band intensity (Z2f32 240) g,
        fade_band intensity (Z2f32 230) b).
Proof.
  intros Hpx. unfold _apply_fade. cbv zeta.
  unfold np_array_f32. rewrite !aget_amap, Hpx. reflexivity.
Qed.

Lemma fade_band_endpoints (v : Z) :
  0 <= v <= 255 ->
  fade_band (dec 0 1) (Z2f32 245) v = v /\
  fade_band (dec 0 1) (Z2f32 240) v = v /\
  fade_band (dec 0 1) (Z2f32 230) v = v /\
  fade_band (dec 10 1) (Z2f32 245) v = 245 /\
  fade_band (dec 10 1) (Z2f32 240) v = 240 /\
  fade_band (dec 10 1) (Z2f32 230) v = 230.
Proof.
  intros Hv.
  assert (Hall : forallb
     (fun n => let v := Z.of_nat n in
        (fade_band (dec 0 1) (Z2f32 245) v =? v)
        && (fade_band (dec 0 1) (Z2f32 240) v =? v)
        && (fade_band (dec 0 1) (Z2f32 230) v =? v)
        && (fade_band (dec 10 1) (Z2f32 245) v =? 245)
        && (fade_band (dec 10 1) (Z2f32 240) v =? 240)
        && (fade_band (dec 10 1) (Z2f32 230) v =? 230))
     (seq 0 256) = true) by (vm_compute; reflexivity).
  rewrite forallb_forall in Hall.
  specialize (Hall (Z.to_nat v)). cbv zeta in Hall.
  rewrite Z2Nat.id in Hall by lia.
  assert (Hin : In (Z.to_nat v) (seq 0 256)) by (apply in_seq; lia).
  apply Hall in Hin.
  repeat (apply andb_prop in Hin; destruct Hin as [Hin ?]).
  repeat split; apply Z.eqb_eq; assumption.
Qed.

(** X13. The fade stage blends every pixel toward the fog colour: at
    intensity 1.0 every pixel of a byte image becomes (245, 240, 230), at
    intensity 0.0 every pixel stays as it is. *)
Theorem _apply_fade_endpoints (image : RGBImage) (y x : nat)
    (rgb : pixel Z) :
  aget image y x = Some rgb -> bytes rgb ->
  aget (_apply_fade image (dec 10 1)) y x = Some (245, 240, 230) /\
  aget (_apply_fade image (dec 0 1)) y x = Some rgb.
Proof.
  destruct rgb as [[r g] b]. intros Hpx (Hr & Hg & Hb).
  rewrite !(_apply_fade_pixel image _ y x r g b Hpx).
  destruct (fade_band_endpoints r Hr) as (r0 & _ & _ & r1 & _ & _).
  destruct (fade_band_endpoints g Hg) as (_ & g0 & _ & _ & g1 & _).
  destruct (fade_band_endpoints b Hb) as (_ & _ & b0 & _ & _ & b1).
  now rewrite r0, g0, b0, r1, g1, b1.
Qed.

Lemma _apply_fade_endpoints_witness :
  aget (_apply_fade [ [ (0, 0, 255); (10, 20, 30) ] ] (dec 10 1)) 0 1 =
    Some (245, 240, 230) /\
  aget (_apply_fade [ [ (0, 0, 255); (10, 20, 30) ] ] (dec 0 1)) 0 1 =
    Some (10, 20, 30).
Proof.
  apply (_apply_fade_endpoints [ [ (0, 0, 255); (10, 20, 30) ] ] 0 1
           (10, 20, 30)); [reflexivity | cbn; lia].
Defined.

Section Pipeline.
Context {pil : PIL} {np : NumPy}.

(** X14. The stages written with arrays keep the width and the height of
    the image: the sepia, fade and vignette stages at every intensity, and
    the noise stage, at every state of the generator, at every intensity
    whose sign bit is clear (0.0, a positive number, plus infinity). At an
    intensity whose sign bit is set (a negative number, -0.0, minus
    infinity) the noise stage raises [ValueError]: the draw refuses a
    negative scale. *)
Theorem array_stages_keep_shape (image : RGBImage) (intensity : float)
    (g : RandomState) :
  shape (_apply_sepia image intensity) = shape image /\
  shape (_apply_fade image intensity) = shape image /\
  shape (_apply_vignette image intensity) = shape image /\
  (has_sign false intensity = true ->
   exists (out : RGBImage) (g' : RandomState),
     _apply_noise image intensity g = Ok (out, g') /\
     shape out = shape image) /\
  (has_sign true intensity = true ->
   _apply_noise image intensity g = Raise ValueError).
Proof.
  split; [apply _apply_sepia_shape|]. split; [apply _apply_fade_shape|].
  split; [apply _apply_vignette_shape|]. split.
  - intros Hs. now apply _apply_noise_shape, noise_scale_sign.
  - intros Hs. now apply _apply_noise_Raise, noise_scale_sign.
Qed.

(** X15. The vignette multiplies every band by the mask of its place and
    clamps: the mask of the pixel in row [y], column [x] is
    [clamp(1 - sqrt(u^2 + v^2) * intensity, 0, 1)], with [u] the sample
    [x] of [linspace(-1, 1, width)] and [v] the sample [y] of
    [linspace(-1, 1, height)], so that both axes span [-1, 1] whatever the
    aspect of the image. *)
Theorem _apply_vignette_pixel (image : RGBImage) (intensity : float)
    (y x : nat) (rgb : pixel Z) (u v : float) :
  aget image y x = Some rgb ->
  linspace (Z2float (-1)) (Z2float 1) (length (hd [] image)) !! x = Some u ->
  linspace (Z2float (-1)) (Z2float 1) (length image) !! y = Some v ->
  aget (_apply_vignette image intensity) y x =
  Some (pmap (fun band =>
                astype_uint8
                  (clip (Z2float 0) (Z2float 255)
                     (fmul (widen (Z2f32 band)) (mask intensity u v))))
             rgb).
Proof.
  intros Hpx Hu Hv. unfold _apply_vignette, size, shape. cbv zeta.
  set (xs := linspace (Z2float (-1)) (Z2float 1) (length (hd [] image))) in *.
  set (ys := linspace (Z2float (-1)) (Z2float 1) (length image)) in *.
  rewrite aget_amap.
  assert (HX : aget (map (fun _ : float => xs) ys) y x = Some u).
  { unfold aget. rewrite lookup_map, Hv. exact Hu. }
  assert (HY : aget (map (fun yi : float => map (fun _ : float => yi) xs) ys)
                 y x = Some v).
  { unfold aget. rewrite lookup_map, Hv. cbn [option_map].
    rewrite lookup_map, Hu. reflexivity. }
  erewrite aget_amap2; cycle 1.
  - unfold np_array_f32. rewrite aget_amap, Hpx. reflexivity.
  - rewrite !aget_amap. erewrite aget_amap2; cycle 1.
    + rewrite aget_amap, HX. reflexivity.
    + rewrite aget_amap, HY. reflexivity.
    + reflexivity.
  - cbn [option_map]. destruct rgb as [[r g0] b]. reflexivity.
Qed.

(** The stages of a list without the noise stage do not touch the
    generator. *)
Lemma run_stages_pure (p : VisualParams) (l : list stage) :
  ~ In Noise l ->
  exists f : RGBImage -> RGBImage,
    forall (im : RGBImage) (g : RandomState),
      run_stages p l im g = Ok (f im, g).
Proof.
  induction l as [|s l IH]; intros Hno.
  - exists (fun im => im). reflexivity.
  - destruct IH as [f Hf]; [intros Hin; apply Hno; right; exact Hin|].
    assert (Hs : s <> Noise) by (intros ->; apply Hno; left; reflexivity).
    destruct s; try congruence; cbn [run_stages run_stage];
      eexists; intros im g; unfold mbind, ret; rewrite Hf; reflexivity.
Qed.

(** X16. When the noise parameter is not greater than 0, [process] is
    deterministic and leaves the random generator alone: the output is
    the same at every state of the generator, and the state comes back
    unchanged. *)
Theorem process_without_noise (image : Image) (level : pynum)
    (p : VisualParams) :
  py_gt (PyFloat (noise p)) (PyInt 0) = false ->
  exists out : RGBImage,
    forall g : RandomState,
      process image level (Some p) g = Ok (ImageRGB out, g).
Proof.
  intros Hnoise.
  destruct (run_stages_pure p (List.filter (guard p) stage_order))
    as [f Hf].
  { intros Hin. apply filter_In in Hin. destruct Hin as [_ Hg].
    cbn [guard param] in Hg. congruence. }
  exists (f (to_RGB image)). intros g.
  rewrite process_plan. unfold pipeline, mbind, ret. now rewrite Hf.
Qed.

(** X17. Given parameters override the level: with [params] given,
    [process] does not depend on the level. Without them, [process] at a
    level equal to an int is [process] at that int (3.0 behaves as 3), at
    a key of the table it is [process] with the parameters of that epoch,
    and at a level with a fractional part it is [process] with the
    interpolated parameters. *)
Theorem process_resolution (image : Image) (g : RandomState) :
  (forall (level level' : pynum) (p : VisualParams),
     process image level (Some p) g = process image level' (Some p) g) /\
  (forall (level : pynum) (k : Z),
     py_eq level (PyInt k) = true ->
     process image level None g = process image (PyInt k) None g) /\
  (forall (level : pynum) (k : Z) (e : Epoch),
     py_eq level (PyInt k) = true -> EPOCHS !! k = Some e ->
     process image level None g = process image level (Some (visual e)) g) /\
  (forall level : pynum,
     fractional level = true ->
     exists p : VisualParams,
       interpolate_epochs level = Ok p /\
       process image level None g = process image level (Some p) g).
Proof.
  assert (Hint : forall (level : pynum) (k : Z),
             py_eq level (PyInt k) = true ->
             fractional level = false /\ py_int level = Ok k).
  { intros level k Heq. apply int_key_eq in Heq.
    destruct (level_cases level) as [[_ Hnone]|(k' & Hfrac & Hkey & Hk)];
      [congruence|].
    split; [exact Hfrac|]. congruence. }
  split; [|split; [|split]].
  - intros level level' p. now rewrite !process_plan.
  - intros level k Heq. destruct (Hint level k Heq) as [Hfrac Hk].
    rewrite (process_integral image level k g Hfrac Hk).
    now rewrite (process_integral image (PyInt k) k g).
  - intros level k e Heq He. destruct (Hint level k Heq) as [Hfrac Hk].
    rewrite (process_integral image level k g Hfrac Hk), process_plan.
    unfold get_epoch_params, EPOCHS_get. cbn [int_key]. now rewrite He.
  - intros level Hfrac.
    destruct (process_fractional image level g Hfrac) as (p & Hp & Hproc).
    exists p. split; [exact Hp|]. now rewrite process_plan.
Qed.

(** X20. At a level equal to 0 (the int 0, the floats 0.0 and -0.0) the
    conversion to RGB is all that happens: an RGB image comes back as it
    is, an image of another mode comes back as its RGB conversion, no
    stage runs and the generator is left alone. *)
Theorem process_level0_converts_only (image : Image) (level : pynum)
    (g : RandomState) :
  py_eq level (PyInt 0) = true ->
  process image level None g =
  Ok (ImageRGB match image with
               | ImageRGB im => im
               | _ => convert_RGB image
               end, g).
Proof.
  intros Heq. apply int_key_eq in Heq.
  destruct (level_cases level) as [[_ Hnone]|(k & Hfrac & Hkey & Hk)];
    [congruence|].
  assert (k = 0) by congruence. subst k.
  rewrite (process_integral image level 0 g Hfrac Hk).
  change (get_epoch_params (PyInt 0)) with (Some (visual epoch0)).
  unfold pipeline.
  replace (List.filter (guard (visual epoch0)) stage_order) with
    (@nil stage) by (vm_compute; reflexivity).
  reflexivity.
Qed.

End Pipeline.

Import Runs.

Lemma array_stages_keep_shape_witness :
  (exists (out : RGBImage) (g' : @RandomState sample_NumPy),
     _apply_noise [ [ (10, 20, 30); (40, 50, 60) ] ] (dec 3 1) seed =
     Ok (out, g') /\
     shape out = (1%nat, 2%nat)) /\
  _apply_noise [ [ (10, 20, 30); (40, 50, 60) ] ] (dec (-1) 1) seed =
  Raise ValueError /\
  _apply_noise [ [ (10, 20, 30); (40, 50, 60) ] ] (fmul (Z2float (-1)) (dec 0 1))
    seed = Raise ValueError.
Proof.
  split; [|split].
  - apply (array_stages_keep_shape [ [ (10, 20, 30); (40, 50, 60) ] ]
             (dec 3 1) seed). reflexivity.
  - apply (array_stages_keep_shape [ [ (10, 20, 30); (40, 50, 60) ] ]
             (dec (-1) 1) seed). reflexivity.
  - apply (array_stages_keep_shape [ [ (10, 20, 30); (40, 50, 60) ] ]
             (fmul (Z2float (-1)) (dec 0 1)) seed). reflexivity.
Defined.

Lemma process_level0_converts_only_witness :
  process (ImageL [[7; 9]]) (PyFloat (dec 0 1)) None seed =
  Ok (ImageRGB (convert_RGB (ImageL [[7; 9]])), seed).
Proof.
  apply (process_level0_converts_only (ImageL [[7; 9]]) (PyFloat (dec 0 1))
           seed).
  vm_compute. reflexivity.
Defined.

Lemma _apply_vignette_pixel_witness :
  aget (_apply_vignette
          [ [ (100, 100, 100); (100, 100, 100); (100, 100, 100) ];
            [ (100, 100, 100); (100, 100, 100); (100, 100, 100) ];
            [ (100, 100, 100); (100, 100, 100); (100, 100, 100) ] ]
          (dec 5 1)) 1 0 =
  Some (50, 50, 50).
Proof.
  rewrite (_apply_vignette_pixel _ (dec 5 1) 1 0 (100, 100, 100)
             (Z2float (-1)) (Z2float 0));
    [|reflexivity | reflexivity | vm_compute; reflexivity].
  vm_compute. reflexivity.
Defined.

Lemma process_without_noise_witness :
  exists out : RGBImage,
    process blue (PyInt 0) (Some negative_sepia) seed =
      Ok (ImageRGB out, seed) /\
    process blue (PyInt 0) (Some negative_sepia) (7 : @RandomState sample_NumPy) =
      Ok (ImageRGB out, 7).
Proof.
  destruct (process_without_noise blue (PyInt 0) negative_sepia) as [out H];
    [reflexivity|].
  exists out. split; apply H.
Defined.

Lemma process_resolution_witness :
  process gray (PyFloat (Z2float 3)) None seed =
    process gray (PyInt 3) None seed /\
  process gray (PyInt 3) None seed =
    process gray (PyInt 3) (Some (visual epoch3)) seed.
Proof.
  destruct (process_resolution gray seed) as (_ & Hint & Hkey & _).
  split.
  - apply Hint. reflexivity.
  - apply (Hkey (PyInt 3) 3 epoch3); reflexivity.
Defined.

End VisualMore.

(** ** The application logic *)

Module AppFacts.
Import Py.
Import MoreNotions.
Import PyStr.
Import Epochs.
Import Visual.
Import App.
Import Notions.
Import PyFacts.
Import EpochsFacts.
Import VisualFacts.

(** [int(f)] of a float from 0 up to, not including, 7. *)
Lemma float_trunc_slider (f : float) :
  py_le (PyInt 0) (PyFloat f) = true -> py_lt (PyFloat f) (PyInt 7) = true ->
  exists q, float_trunc f = Ok q /\ 0 <= q <= 6.
Proof.
  unfold py_le, py_lt. cbn [py_compare]. intros Hle Hlt.
  destruct f as [s|s| |s m e]; cbn [cmp_float_int float_trunc option_map] in *;
    try discriminate.
  - eexists. split; [reflexivity | lia].
  - destruct s; discriminate.
  - destruct (Z.leb_spec 0 e) as [He|He]; cbn [option_map] in *.
    + assert (0 < 2 ^ e) by (apply pow2_pos; lia).
      destruct (Z.compare_spec (signed s m * 2 ^ e) 0); try discriminate;
        destruct (Z.compare_spec (signed s m * 2 ^ e) 7); try discriminate;
        (destruct s; [pose proof (signed_neg m); nia|]);
        unfold signed in *; eexists; (split; [reflexivity|]); lia.
    + assert (0 < 2 ^ (- e)) by (apply pow2_pos; lia).
      destruct (Z.compare_spec (signed s m) (0 * 2 ^ (- e)));
        try discriminate;
        destruct (Z.compare_spec (signed s m) (7 * 2 ^ (- e)));
        try discriminate;
        (destruct s; [pose proof (signed_neg m); nia|]);
        unfold signed in *; eexists; (split; [reflexivity|]); split;
        try (apply Z.div_pos; lia);
        (assert (Z.pos m / 2 ^ (- e) < 7); [|lia]);
        apply Z.div_lt_upper_bound; lia.
Qed.

Lemma list_epochs_getitem (k : Z) :
  0 <= k <= 6 ->
  exists x : string,
    list_epochs !! Z.to_nat k = Some x /\
    list_getitem list_epochs k = Return x /\
    split_dot_head x = str k.
Proof.
  intros Hk. int_0_6 Hk; eexists; repeat split.
Qed.

Lemma small_numeral (k : Z) : 0 <= k <= 6 -> Z.abs k < 10 ^ 4300.
Proof.
  intros Hk. apply Z.lt_le_trans with (10 ^ 1); [lia|].
  apply Z.pow_le_mono_r; lia.
Qed.

Section Logic.
Context {pil : PIL} {np : NumPy} {builtins : Builtins}.

(** The slider value selects an entry of the listing, at every value. *)
Lemma sync_slider_to_dropdown_entry (slider_value : pynum) :
  exists k : Z,
    0 <= k <= 6 /\
    (py_le (PyInt 0) slider_value && py_lt slider_value (PyInt 7) = true ->
     py_int slider_value = Ok k) /\
    (py_le (PyInt 0) slider_value && py_lt slider_value (PyInt 7) = false ->
     k = 0) /\
    exists x : string,
      list_epochs !! Z.to_nat k = Some x /\
      sync_slider_to_dropdown slider_value = Return x /\
      split_dot_head x = str k.
Proof.
  unfold sync_slider_to_dropdown. cbv zeta.
  change (Z.of_nat (length list_epochs)) with 7.
  destruct (py_le (PyInt 0) slider_value && py_lt slider_value (PyInt 7))
    eqn:Hguard.
  - apply andb_prop in Hguard. destruct Hguard as [Hle Hlt].
    assert (Hq : exists q, py_int slider_value = Ok q /\ 0 <= q <= 6).
    { destruct slider_value as [z|f].
      - exists z. split; [reflexivity|].
        unfold py_le, py_lt in *. cbn [py_compare] in *.
        destruct (Z.compare_spec 0 z); try discriminate;
          destruct (Z.compare_spec z 7); try discriminate; lia.
      - now apply float_trunc_slider. }
    destruct Hq as (q & Hq & Hrange). rewrite Hq.
    destruct (list_epochs_getitem q Hrange) as (x & Hx & Hget & Hhead).
    exists q. split; [exact Hrange|]. split; [auto|].
    split; [discriminate|]. exists x. auto.
  - destruct (list_epochs_getitem 0) as (x & Hx & Hget & Hhead); [lia|].
    exists 0. split; [lia|]. split; [discriminate|]. split; [auto|].
    exists x. auto.
Qed.

(** X18. The slider and the dropdown stay in step. At every slider value
    [sync_slider_to_dropdown] returns an entry of the listing and never
    raises: the entry of [int(value)] when [0 <= value < 7], the entry of
    level 0 otherwise; [sync_dropdown_to_slider] reads its level back.
    Conversely every entry of the listing is mapped to its level and back
    to itself. [sync_dropdown_to_slider] never raises: a text [int]
    rejects gives 0. *)
Theorem sync_round_trip :
  (forall slider_value : pynum,
     exists (k : Z) (x : string),
       0 <= k <= 6 /\
       sync_slider_to_dropdown slider_value = Return x /\
       list_epochs !! Z.to_nat k = Some x /\
       sync_dropdown_to_slider x = Ok k /\
       (py_le (PyInt 0) slider_value && py_lt slider_value (PyInt 7) = true ->
        py_int slider_value = Ok k) /\
       (py_le (PyInt 0) slider_value && py_lt slider_value (PyInt 7) = false ->
        k = 0)) /\
  (forall x : string,
     In x list_epochs ->
     exists k : Z,
       sync_dropdown_to_slider x = Ok k /\
       sync_slider_to_dropdown (PyInt k) = Return x) /\
  (forall dropdown_value : string,
     exists k : Z,
       sync_dropdown_to_slider dropdown_value = Ok k /\
       (forall e, int_of_str (split_dot_head dropdown_value) = Raise e ->
        k = 0)).
Proof.
  assert (Hback : forall (k : Z) (x : string),
             0 <= k <= 6 -> split_dot_head x = str k ->
             sync_dropdown_to_slider x = Ok k).
  { intros k x Hk Hhead. unfold sync_dropdown_to_slider.
    rewrite Hhead, int_of_str_str by (now apply small_numeral).
    reflexivity. }
  split; [|split].
  - intros v.
    destruct (sync_slider_to_dropdown_entry v)
      as (k & Hk & Hin & Hout & x & Hx & Hsync & Hhead).
    exists k, x. repeat split; auto; lia.
  - intros x Hx.
    assert (Hk : exists k, 0 <= k <= 6 /\
                           list_epochs !! Z.to_nat k = Some x).
    { apply In_nth_error in Hx. destruct Hx as [n Hn].
      assert (Hlen : (n < 7)%nat).
      { change 7%nat with (length list_epochs).
        apply nth_error_Some. congruence. }
      exists (Z.of_nat n). split; [lia|]. rewrite Nat2Z.id.
      rewrite <- Hn. clear. revert n.
      induction list_epochs as [|a l IH]; intros [|n]; cbn; auto. }
    destruct Hk as (k & Hk & Hkx).
    destruct (list_epochs_getitem k Hk) as (x' & Hx' & Hget & Hhead).
    assert (x' = x) by congruence. subst x'.
    exists k. split; [now apply Hback|].
    unfold sync_slider_to_dropdown. cbv zeta.
    change (Z.of_nat (length list_epochs)) with 7.
    replace (py_le (PyInt 0) (PyInt k) && py_lt (PyInt k) (PyInt 7))
      with true.
    + cbn [py_int]. exact Hget.
    + symmetry. unfold py_le, py_lt. cbn [py_compare].
      destruct (Z.compare_spec 0 k); try lia;
        destruct (Z.compare_spec k 7); try lia; reflexivity.
  - intros s. unfold sync_dropdown_to_slider.
    destruct (int_of_str (split_dot_head s)) as [z|e] eqn:Hparse.
    + exists z. split; [reflexivity | discriminate].
    + rewrite (int_of_str_ValueError _ _ Hparse).
      exists 0. split; reflexivity.
Qed.

(** [process] at an int level returns; outside the table it returns the
    image and the state it was given. *)
Lemma process_int_returns (image : Image) (k : Z) (g : RandomState) :
  exists (out : Image) (g' : RandomState),
    process image (PyInt k) None g = Ok (out, g') /\
    (k < 0 \/ 6 < k -> out = image /\ g' = g).
Proof.
  rewrite (process_integral image (PyInt k) k g) by reflexivity.
  destruct (Z_lt_le_dec k 0) as [Hlo|Hlo];
    [|destruct (Z_lt_le_dec 6 k) as [Hhi|Hhi]].
  1, 2: rewrite get_epoch_params_outside by lia;
    exists image, g; split; [reflexivity | auto].
  destruct (get_epoch_params_inside k) as (e & _ & ->); [lia|].
  destruct (pipeline_Ok (visual e) image g)
    as (out & g' & Hout & _).
  exists (ImageRGB out), g'. split; [exact Hout | lia].
Qed.

Lemma process_image_Some (image : Image) (level : Z) (g g' : RandomState)
    (out : Image) (desc : string) :
  process image (PyInt level) None g = Ok (out, g') ->
  Sound.get_description "fr" level = Ok desc ->
  process_image (Some image) level g =
  Ok ((Some out, epoch_panel (epoch_or_default level), desc), g').
Proof.
  intros Hproc Hdesc. unfold process_image.
  change (EPOCHS_getitem 0) with (Ok epoch0).
  rewrite mbind_lift_Ok. cbv zeta.
  unfold mbind at 1. rewrite Hproc, Hdesc, mbind_lift_Ok.
  reflexivity.
Qed.

(** X19. The handler of the viewer. Without an image it returns
    [(None, "", "")] at every level and computes nothing. With an image
    and a level of the table it returns the processed image, the panel of
    that epoch and the French description. With a level outside the
    table the image comes back untouched, beside the panel of epoch 0 and
    the description. With a level too large to convert to a float it
    raises the error of that conversion. *)
Theorem process_image_outcomes (image : Image) (level : Z)
    (g : RandomState) :
  process_image None level g = Ok ((None, EmptyString, EmptyString), g) /\
  (0 <= level <= 6 ->
   exists (e : Epoch) (out : Image) (g' : RandomState) (desc : string),
     EPOCHS !! level = Some e /\
     process image (PyInt level) None g = Ok (out, g') /\
     Sound.get_description "fr" level = Ok desc /\
     process_image (Some image) level g =
     Ok ((Some out, epoch_panel e, desc), g')) /\
  (level < 0 \/ 6 < level ->
   forall desc : string,
     Sound.get_description "fr" level = Ok desc ->
     process_image (Some image) level g =
     Ok ((Some image, epoch_panel epoch0, desc), g)) /\
  (forall e : exn,
     float_of_int level = Raise e ->
     process_image (Some image) level g = Raise e).
Proof.
  split; [reflexivity|]. split; [|split].
  - intros Hl.
    destruct (EPOCHS_lookup_inside level Hl) as (e & He & _).
    destruct (process_int_returns image level g) as (out & g' & Hout & _).
    pose proof (SoundFacts.generate_Ok "fr" level _
                  (float_of_int_small level Hl)) as Hgen.
    destruct (SoundMore.filled_cells_table level Hl)
      as (a & b & Ha & Hb & _).
    destruct (SoundMore.get_description_bar_lines "fr" level _ a b
                Hgen Ha Hb) as (pre & Hdesc).
    exists e, out, g'. eexists. split; [exact He|]. split; [exact Hout|].
    split; [exact Hdesc|].
    rewrite (process_image_Some image level g g' out _ Hout Hdesc).
    unfold epoch_or_default. now rewrite He.
  - intros Hout desc Hdesc.
    destruct (process_int_returns image level g) as (out & g' & Hp & Hsame).
    destruct (Hsame Hout) as [-> ->].
    rewrite (process_image_Some image level g g image desc Hp Hdesc).
    unfold epoch_or_default. now rewrite EPOCHS_lookup_outside.
  - intros e He. unfold process_image.
    change (EPOCHS_getitem 0) with (Ok epoch0).
    rewrite mbind_lift_Ok. cbv zeta.
    destruct (process_int_returns image level g) as (out & g' & Hp & _).
    unfold mbind at 1. rewrite Hp.
    unfold Sound.get_description.
    rewrite (SoundFacts.generate_Raise "fr" level e He). reflexivity.
Qed.

End Logic.

Lemma sample_int_of_str_ValueError (s : string) (e : exn) :
  Sample.int_of_str s = Raise e -> e = ValueError.
Proof.
  unfold Sample.int_of_str.
  destruct (NilZero.int_of_string s); [discriminate|]. congruence.
Qed.

Lemma sample_int_of_str_str (z : Z) :
  Z.abs z < 10 ^ 4300 -> Sample.int_of_str (str z) = Ok z.
Proof.
  intros _. unfold Sample.int_of_str, str.
  rewrite NilZero.isi.
  - now rewrite DecimalZ.of_to.
  - destruct z as [|p|p]; try discriminate.
    cbn. intros H. inversion H as [H1].
    now apply DecimalPos.Unsigned.to_uint_nonnil in H1.
  - destruct z as [|p|p]; try discriminate.
    cbn. intros H. inversion H as [H1].
    now apply DecimalPos.Unsigned.to_uint_nonnil in H1.
Qed.

#[export] Instance sample_Builtins : Builtins := {|
  int_of_str := Sample.int_of_str;
  int_of_str_ValueError := sample_int_of_str_ValueError;
  int_of_str_str := sample_int_of_str_str
|}.

Import Runs.

Lemma sync_round_trip_witness :
  sync_slider_to_dropdown (PyFloat (dec 25 1)) =
    Return "2. Génération précédente (1960-1985)"%string /\
  sync_dropdown_to_slider "2. Génération précédente (1960-1985)" = Ok 2 /\
  sync_slider_to_dropdown (PyInt 9) = Return "0. Présent (2020-2025)"%string /\
  sync_dropdown_to_slider "Observer" = Ok 0.
Proof.
  destruct (sync_round_trip (builtins := sample_Builtins))
    as (Hslider & Hentry & Htotal).
  destruct (Hentry "2. Génération précédente (1960-1985)"%string)
    as (k & Hk & Hback); [vm_compute; tauto|].
  assert (k = 2) by (vm_compute in Hk; congruence). subst k.
  split; [vm_compute; reflexivity|]. split; [exact Hk|].
  split; [vm_compute; reflexivity|].
  destruct (Htotal "Observer"%string) as (k & Hk' & Hzero).
  rewrite Hk'. f_equal. apply (Hzero ValueError). vm_compute. reflexivity.
Defined.

Lemma process_image_outcomes_witness :
  exists desc : string,
    Sound.get_description "fr" 7 = Ok desc /\
    process_image (Some gray) 7 seed =
    Ok ((Some gray, epoch_panel epoch0, desc), seed).
Proof.
  eexists. split; [vm_compute; reflexivity|].
  destruct (process_image_outcomes gray 7 seed) as (_ & _ & Hout & _).
  apply Hout; [lia|]. vm_compute. reflexivity.
Defined.

End AppFacts.
